(** * A CORS forward proxy: the request handler of [proxy.py]

    Shallow embedding of [public/proxy-server/scripts/proxy.py] and the
    properties of its access gate and of its relay pipeline.

    Conventions of the embedding.

    - A Python [str] is a Rocq [string] holding the UTF-8 encoding of the
      text.  [==], [split], [find], [in] and concatenation act alike on a
      text and on its encoding as long as the separators are ASCII, which
      they are throughout the program.  A Python [bytes] is a [list byte].
    - A raised exception is a value: computations that may raise return a
      [result]; the handler, which also writes to the client, returns the
      calls it made on the response interface together with the way it
      ended.
    - What lies outside the process (the upstream server, the clock) and the
      few library routines that depend on tables not reproduced here are the
      fields of an environment record [Env].
    - The routines of the Python library that the handler calls ([base64],
      [json], [urllib.parse], [email.message], [int], the UTF-8 codec) are
      written after their sources in CPython 3.11.
    - Logging ([log_message] and the [print]s under [config.verbose]) goes
      to the console of the proxy and is left out.
    - The handler is given twice.  First over a connection to the client
      that stays up, where every call on the response interface succeeds;
      then, in the module [Client], over a connection on which any such
      call may raise.  The two agree when no call fails
      ([handle_request_agrees]). *)

From Stdlib Require Import ZArith NArith List Ascii String Lia.
From Stdlib.Strings Require Import Byte.
From stdpp Require Import base option list strings pretty gmap.
From Equations Require Import Equations.

Set Default Proof Using "Type".

(** ** Exceptions and results *)

(** An exception other than [urllib.error.HTTPError]: its class and the
    text [str(e)]. *)
Record error := Error_ { err_class : string; err_str : string }.

Inductive result (E A : Type) : Type :=
| Ok (a : A)
| Raise (e : E).
Arguments Ok {E A} a.
Arguments Raise {E A} e.

#[global] Instance result_ret {E} : MRet (result E) := fun _ a => Ok a.
#[global] Instance result_bind {E} : MBind (result E) := fun _ _ f m =>
  match m with
  | Ok a => f a
  | Raise e => Raise e
  end.
#[global] Instance result_fmap {E} : FMap (result E) := fun _ _ f m =>
  match m with
  | Ok a => Ok (f a)
  | Raise e => Raise e
  end.

Definition ValueError (msg : string) : error := Error_ "ValueError" msg.

(** ** Python built-ins on [str] *)
Module Py.

Definition code (c : ascii) : N := N_of_ascii c.

Definition is_upper (c : ascii) : bool := (65 <=? code c)%N && (code c <=? 90)%N.
Definition is_lower (c : ascii) : bool := (97 <=? code c)%N && (code c <=? 122)%N.
Definition is_digit (c : ascii) : bool := (48 <=? code c)%N && (code c <=? 57)%N.
Definition is_ascii (c : ascii) : bool := (code c <? 128)%N.

Definition to_lower (c : ascii) : ascii :=
  if is_upper c then ascii_of_N (code c + 32) else c.
Definition to_upper (c : ascii) : ascii :=
  if is_lower c then ascii_of_N (code c - 32) else c.

(** [s.lower()].  The program lowers header names, which the header parser
    restricts to printable ASCII, and the scheme word of an authorization
    value, which it compares with an ASCII literal; bytes of non-ASCII
    characters are left as they are, which cannot change the outcome of
    such a comparison. *)
Fixpoint lower (s : string) : string :=
  match s with
  | EmptyString => EmptyString
  | String c s' => String (to_lower c) (lower s')
  end.

(** [s.capitalize()]: first character upper case, the rest lower case. *)
Definition capitalize (s : string) : string :=
  match s with
  | EmptyString => EmptyString
  | String c s' => String (to_upper c) (lower s')
  end.

(** [s.partition(sep)] for a one-character separator, [None] when the
    separator does not occur. *)
Fixpoint cut (sep : ascii) (s : string) : option (string * string) :=
  match s with
  | EmptyString => None
  | String c s' =>
      if Ascii.eqb c sep then Some (EmptyString, s')
      else match cut sep s' with
           | Some (a, b) => Some (String c a, b)
           | None => None
           end
  end.

(** [s.split(sep, 1)]. *)
Definition split1 (sep : ascii) (s : string) : list string :=
  match cut sep s with
  | Some (a, b) => [a; b]
  | None => [s]
  end.

(** [a, b = xs]: unpacking into two names. *)
Definition unpack2 (xs : list string) : result error (string * string) :=
  match xs with
  | [a; b] => Ok (a, b)
  | [] | [_] => Raise (ValueError "not enough values to unpack (expected 2, got 1)")
  | _ => Raise (ValueError "too many values to unpack (expected 2)")
  end.

(** Truth value of an optional string: [None] and [''] are false. *)
Definition truthy (o : option string) : bool :=
  match o with
  | None => false
  | Some s => negb (String.eqb s "")
  end.

(** [a or b] on optional strings. *)
Definition or_ (a b : option string) : option string :=
  if truthy a then a else b.

(** [c in s] for a one-character [c]. *)
Fixpoint contains (c : ascii) (s : string) : bool :=
  match s with
  | EmptyString => false
  | String d s' => Ascii.eqb d c || contains c s'
  end.

(** The double quote, and [s] between double quotes. *)
Definition DQUOTE : ascii := ascii_of_N 34.
Definition quoted (s : string) : string := String DQUOTE (s +:+ String DQUOTE EmptyString).

(** [x in xs] for a list or set of strings. *)
Definition mem (x : string) (xs : list string) : bool :=
  existsb (String.eqb x) xs.

Definition codes (s : string) : list N := map code (list_ascii_of_string s).
Definition of_codes (l : list N) : string := string_of_list_ascii (map ascii_of_N l).

Definition to_bytes (s : string) : list byte := list_byte_of_string s.
Definition of_bytes (b : list byte) : string := string_of_list_byte b.

(** [s.rpartition(sep)] for a one-character separator, [None] when the
    separator does not occur. *)
Fixpoint rcut (sep : ascii) (s : string) : option (string * string) :=
  match s with
  | EmptyString => None
  | String c s' =>
      match rcut sep s' with
      | Some (a, b) => Some (String c a, b)
      | None => if Ascii.eqb c sep then Some (EmptyString, s') else None
      end
  end.

(** White space, as [str.isspace] has it, in the UTF-8 text: one byte for
    U+0009 to U+000D and U+001C to U+0020, two bytes for U+0085 and U+00A0,
    three bytes for U+1680, U+2000 to U+200A, U+2028, U+2029, U+202F,
    U+205F and U+3000. *)
Definition is_space1 (c : N) : bool :=
  ((9 <=? c) && (c <=? 13) || (28 <=? c) && (c <=? 32))%N.
Definition is_space2 (c1 c2 : N) : bool :=
  ((c1 =? 194) && ((c2 =? 133) || (c2 =? 160)))%N.
Definition is_space3 (c1 c2 c3 : N) : bool :=
  ((c1 =? 225) && (c2 =? 154) && (c3 =? 128)
   || (c1 =? 226) && (c2 =? 128)
      && ((128 <=? c3) && (c3 <=? 138) || (c3 =? 168) || (c3 =? 169) || (c3 =? 175))
   || (c1 =? 226) && (c2 =? 129) && (c3 =? 159)
   || (c1 =? 227) && (c2 =? 128) && (c3 =? 128))%N.

(** The white space at the front of [l] taken off; with [backwards], [l]
    is a text read from its end. *)
Fixpoint strip_front (backwards : bool) (l : list N) : list N :=
  match l with
  | c :: r =>
      if is_space1 c then strip_front backwards r
      else
        match r with
        | c2 :: r2 =>
            if (if backwards then is_space2 c2 c else is_space2 c c2)
            then strip_front backwards r2
            else
              match r2 with
              | c3 :: r3 =>
                  if (if backwards then is_space3 c3 c2 c else is_space3 c c2 c3)
                  then strip_front backwards r3
                  else l
              | [] => l
              end
        | [] => l
        end
  | [] => []
  end.

(** [s.strip()] *)
Definition strip (s : string) : string :=
  of_codes (rev (strip_front true (rev (strip_front false (codes s))))).

(** The slices [s[:n]], [s[n:]], [s[-n:]] and [s[:-n]], with [n] counted
    in bytes of the text; the program takes them to compare them with ASCII
    literals of [n] characters, or after such a comparison has held. *)
Definition slice_to (n : nat) (s : string) : string :=
  string_of_list_ascii (take n (list_ascii_of_string s)).
Definition slice_from (n : nat) (s : string) : string :=
  string_of_list_ascii (drop n (list_ascii_of_string s)).
Definition slice_last (n : nat) (s : string) : string :=
  string_of_list_ascii (rev (take n (rev (list_ascii_of_string s)))).
Definition slice_but_last (n : nat) (s : string) : string :=
  string_of_list_ascii (rev (drop n (rev (list_ascii_of_string s)))).

End Py.

(** ** UTF-8, as CPython's decoder reads it *)
Module Utf8.

Definition is_cont (b : N) : bool := (128 <=? b)%N && (b <? 192)%N.

(** The second byte of a sequence led by [ch]: a continuation byte that
    yields neither an overlong form, nor a surrogate, nor a code point
    above U+10FFFF. *)
Definition second_ok (ch ch2 : N) : bool :=
  is_cont ch2
  && negb ((ch =? 224)%N && (ch2 <? 160)%N)
  && negb ((ch =? 237)%N && (160 <=? ch2)%N)
  && negb ((ch =? 240)%N && (ch2 <? 144)%N)
  && negb ((ch =? 244)%N && (144 <=? ch2)%N).

Definition low6 (b : N) : N := N.land b 63.

(** One item per decoded character, [None] for each maximal ill-formed
    run of bytes (what the decoder reports as one error). *)
Fixpoint scan (s : list N) : list (option N) :=
  match s with
  | [] => []
  | ch :: s1 =>
      if (ch <? 128)%N then Some ch :: scan s1
      else if (ch <? 194)%N then None :: scan s1
      else if (ch <? 224)%N then
        match s1 with
        | [] => [None]
        | ch2 :: s2 =>
            if is_cont ch2
            then Some (N.lor (N.shiftl (N.land ch 31) 6) (low6 ch2)) :: scan s2
            else None :: scan s1
        end
      else if (ch <? 240)%N then
        match s1 with
        | [] => [None]
        | ch2 :: s2 =>
            if negb (second_ok ch ch2) then None :: scan s1
            else match s2 with
                 | [] => [None]
                 | ch3 :: s3 =>
                     if is_cont ch3
                     then Some (N.lor (N.shiftl (N.land ch 15) 12)
                                  (N.lor (N.shiftl (low6 ch2) 6) (low6 ch3))) :: scan s3
                     else None :: scan s2
                 end
        end
      else if (ch <? 245)%N then
        match s1 with
        | [] => [None]
        | ch2 :: s2 =>
            if negb (second_ok ch ch2) then None :: scan s1
            else match s2 with
                 | [] => [None]
                 | ch3 :: s3 =>
                     if negb (is_cont ch3) then None :: scan s2
                     else match s3 with
                          | [] => [None]
                          | ch4 :: s4 =>
                              if is_cont ch4
                              then Some (N.lor (N.shiftl (N.land ch 7) 18)
                                           (N.lor (N.shiftl (low6 ch2) 12)
                                              (N.lor (N.shiftl (low6 ch3) 6) (low6 ch4))))
                                     :: scan s4
                              else None :: scan s3
                          end
                 end
        end
      else None :: scan s1
  end.

(** The UTF-8 encoding of a code point. *)
Definition encode_cp (cp : N) : list N :=
  if (cp <? 128)%N then [cp]
  else if (cp <? 2048)%N then [N.lor 192 (N.shiftr cp 6); N.lor 128 (low6 cp)]
  else if (cp <? 65536)%N then
    [N.lor 224 (N.shiftr cp 12); N.lor 128 (low6 (N.shiftr cp 6)); N.lor 128 (low6 cp)]
  else
    [N.lor 240 (N.shiftr cp 18); N.lor 128 (low6 (N.shiftr cp 12));
     N.lor 128 (low6 (N.shiftr cp 6)); N.lor 128 (low6 cp)].

Definition valid (s : list N) : bool := forallb (fun o => bool_decide (o <> None)) (scan s).

(** [b.decode('utf-8')]: strict. *)
Definition decode (b : list byte) : result error string :=
  if valid (map Byte.to_N b) then Ok (Py.of_bytes b)
  else Raise (Error_ "UnicodeDecodeError" "'utf-8' codec can't decode bytes").

Definition REPLACEMENT : N := 65533.

(** [b.decode('utf-8', 'replace')], given as byte values. *)
Definition decode_replace (b : list N) : string :=
  Py.of_codes (concat (map (fun o => encode_cp (default REPLACEMENT o)) (scan b))).

(** The code points of a text. *)
Definition codepoints (s : string) : list N :=
  map (default REPLACEMENT) (scan (Py.codes s)).

End Utf8.

(** ** [base64.b64decode] *)
Module Base64.

(** [table_a2b_base64]: the value of a character of the alphabet, 64 for
    any other byte. *)
Definition table_a2b (c : N) : N :=
  if (65 <=? c)%N && (c <=? 90)%N then c - 65
  else if (97 <=? c)%N && (c <=? 122)%N then c - 71
  else if (48 <=? c)%N && (c <=? 57)%N then c + 4
  else if (c =? 43)%N then 62
  else if (c =? 47)%N then 63
  else 64.

Definition BASE64_PAD : N := 61.

Definition Error (msg : string) : error := Error_ "binascii.Error" msg.

(** [binascii.a2b_base64] outside strict mode: the loop over the input
    with its registers [quad_pos], [leftchar] and [pads]; [n_out] counts
    the bytes produced so far. *)
Fixpoint a2b (data : list N) (quad_pos leftchar pads n_out : N)
  : result error (list N) :=
  match data with
  | [] =>
      if (quad_pos =? 0)%N then Ok []
      else if (quad_pos =? 1)%N then
        Raise (Error ("Invalid base64-encoded string: number of data characters ("
                      +:+ pretty (n_out / 3 * 4 + 1)%N
                      +:+ ") cannot be 1 more than a multiple of 4"))
      else Raise (Error "Incorrect padding")
  | this_ch :: rest =>
      if (this_ch =? BASE64_PAD)%N then
        if (2 <=? quad_pos)%N then
          if (4 <=? quad_pos + (pads + 1))%N then Ok []
          else a2b rest quad_pos leftchar (pads + 1)%N n_out
        else a2b rest quad_pos leftchar pads n_out
      else
        let v := table_a2b this_ch in
        if (64 <=? v)%N then a2b rest quad_pos leftchar pads n_out
        else if (quad_pos =? 0)%N then a2b rest 1 v 0 n_out
        else if (quad_pos =? 1)%N then
          cons (N.land (N.lor (N.shiftl leftchar 2) (N.shiftr v 4)) 255)
            <$> a2b rest 2 (N.land v 15) 0 (n_out + 1)%N
        else if (quad_pos =? 2)%N then
          cons (N.land (N.lor (N.shiftl leftchar 4) (N.shiftr v 2)) 255)
            <$> a2b rest 3 (N.land v 3) 0 (n_out + 1)%N
        else
          cons (N.land (N.lor (N.shiftl leftchar 6) v) 255)
            <$> a2b rest 0 0 0 (n_out + 1)%N
  end.

Definition byte_of_N (n : N) : byte := default x00 (Byte.of_N n).

(** [base64.b64decode(s)] for a [str] argument: the text must be ASCII,
    then [a2b_base64] decodes it. *)
Definition b64decode (s : string) : result error (list byte) :=
  let data := Py.codes s in
  if forallb (fun c => (c <? 128)%N) data
  then map byte_of_N <$> a2b data 0 0 0 0
  else Raise (ValueError "string argument should contain only ASCII characters").

End Base64.


(** ** What the handler takes from its surroundings *)

(** The body of an upstream response as [read] sees it: the bytes that
    arrive and, when the connection breaks after them, the exception that
    the next [read] raises instead of reporting the end. *)
Record stream := Stream { content : list byte; fault : option error }.

(** What [urlopen] returns, and what an [HTTPError] carries. *)
Record response := Response {
  code : Z;
  resp_headers : list (string * string);
  fp : stream
}.

Inductive exn :=
| HTTPError (r : response)
| Exception (e : error).

#[global] Instance byte_eq_dec : EqDecision byte := Byte.byte_eq_dec.

(** The request object of [urllib.request]. *)
Record Request := mkRequest {
  full_url : string;
  method : string;
  req_headers : gmap string string;
  data : option (list byte)
}.

Inductive verify_mode := CERT_NONE | CERT_REQUIRED.
Record ssl_context := { check_hostname : bool; verify : verify_mode }.

Record Env := {
  (** [urllib.request.Request(url, ...)] raises [ValueError] for a URL in
      which it finds no scheme. *)
  url_error : string -> option error;
  (** [urllib.request.urlopen(req, context=...)]: the upstream. *)
  urlopen : Request -> option ssl_context -> result exn response;
  (** [urllib.parse]'s check of a host in brackets (by [ipaddress]) and of
      a non-ASCII host (by NFKC normalisation): the [ValueError] it raises,
      if any. *)
  netloc_error : string -> option error;
  (** the text [%.200R] gives for a [str] *)
  repr200 : string -> string;
  (** [repr(time.time() - start_time)], the way [json.dumps] prints a
      [float] *)
  uptime : string
}.

(** ** [int(s)] *)
Module Int.

(** [Py_ISSPACE] *)
Definition is_space (c : N) : bool := ((9 <=? c) && (c <=? 13) || (c =? 32))%N.
Definition is_digit (c : N) : bool := ((48 <=? c) && (c <=? 57))%N.

(** Before parsing, the white space outside ASCII becomes a blank.  In
    the text of a header, whose characters are below U+0100, that is
    U+0085 and U+00A0, and the decimal digits are the ASCII ones. *)
Fixpoint to_ascii_space (l : list N) : list N :=
  match l with
  | 194%N :: ((133%N | 160%N) :: r) => 32%N :: to_ascii_space r
  | c :: r => c :: to_ascii_space r
  | [] => []
  end.

Fixpoint lstrip (l : list N) : list N :=
  match l with
  | c :: r => if is_space c then lstrip r else l
  | [] => []
  end.

(** The digits of the literal, single underscores allowed between them:
    the value, the number of digits and what follows them. *)
Fixpoint digits (l : list N) (acc : Z) (n : N) (after_digit : bool)
  : option (Z * N * list N) :=
  match l with
  | c :: r =>
      if is_digit c then digits r (acc * 10 + Z.of_N (c - 48)) (n + 1)%N true
      else if (c =? 95)%N && after_digit then
        match r with
        | d :: _ => if is_digit d then digits r acc n false else None
        | [] => None
        end
      else if after_digit then Some (acc, n, l) else None
  | [] => if after_digit then Some (acc, n, []) else None
  end.

Definition MAX_STR_DIGITS : N := 4300.

Definition int (E : Env) (s : string) : result error Z :=
  let invalid :=
    Raise (ValueError ("invalid literal for int() with base 10: " +:+ repr200 E s)) in
  let l := lstrip (to_ascii_space (Py.codes s)) in
  let '(negative, l) :=
    match l with
    | 45%N :: r => (true, r)
    | 43%N :: r => (false, r)
    | _ => (false, l)
    end in
  match digits l 0 0 false with
  | None => invalid
  | Some (v, n, rest) =>
      if (MAX_STR_DIGITS <? n)%N then
        Raise (ValueError ("Exceeds the limit (4300 digits) for integer string conversion: value has "
                           +:+ pretty n
                           +:+ " digits; use sys.set_int_max_str_digits() to increase the limit"))
      else if forallb is_space rest then Ok (if negative then (- v)%Z else v)
      else invalid
  end.

End Int.

(** ** [json.dumps] *)
Module Json.

(** The values the handler serialises: a [dict] from [str] to [str] or
    [float]; a float is given by the text of its [repr]. *)
Inductive value :=
| JString (s : string)
| JFloat (repr : string).

Definition hex_digit (n : N) : ascii :=
  ascii_of_N (if (n <? 10)%N then 48 + n else 87 + n).

(** ['\\u{0:04x}'.format(n)] *)
Definition u_escape (n : N) : list ascii :=
  ["\"; "u"; hex_digit (N.land (N.shiftr n 12) 15); hex_digit (N.land (N.shiftr n 8) 15);
   hex_digit (N.land (N.shiftr n 4) 15); hex_digit (N.land n 15)]%char.

(** The replacement of one character by [encode_basestring_ascii]. *)
Definition escape_cp (n : N) : list ascii :=
  if (n =? 34)%N then ["\"%char; Py.DQUOTE]
  else if (n =? 92)%N then ["\"; "\"]%char
  else if (n =? 10)%N then ["\"; "n"]%char
  else if (n =? 13)%N then ["\"; "r"]%char
  else if (n =? 9)%N then ["\"; "t"]%char
  else if (n =? 8)%N then ["\"; "b"]%char
  else if (n =? 12)%N then ["\"; "f"]%char
  else if (32 <=? n)%N && (n <=? 126)%N then [ascii_of_N n]
  else if (n <? 65536)%N then u_escape n
  else
    let m := (n - 65536)%N in
    u_escape (N.lor 55296 (N.land (N.shiftr m 10) 1023))
    ++ u_escape (N.lor 56320 (N.land m 1023)).

Definition encode_basestring_ascii (s : string) : string :=
  Py.quoted (string_of_list_ascii (concat (map escape_cp (Utf8.codepoints s)))).

Definition dumps_value (v : value) : string :=
  match v with
  | JString s => encode_basestring_ascii s
  | JFloat r => r
  end.

Fixpoint dumps_items (d : list (string * value)) : string :=
  match d with
  | [] => ""
  | [(k, v)] => encode_basestring_ascii k +:+ ": " +:+ dumps_value v
  | (k, v) :: d' =>
      encode_basestring_ascii k +:+ ": " +:+ dumps_value v +:+ ", " +:+ dumps_items d'
  end.

(** [json.dumps(d)] with the default separators. *)
Definition dumps (d : list (string * value)) : string :=
  "{" +:+ dumps_items d +:+ "}".

End Json.

(** ** [urllib.parse] *)
Module UrlParse.

Fixpoint drop_while (p : ascii -> bool) (s : string) : string :=
  match s with
  | String c s' => if p c then drop_while p s' else s
  | EmptyString => EmptyString
  end.

Fixpoint remove (p : ascii -> bool) (s : string) : string :=
  match s with
  | String c s' => if p c then remove p s' else String c (remove p s')
  | EmptyString => EmptyString
  end.

Fixpoint all (p : ascii -> bool) (s : string) : bool :=
  match s with
  | String c s' => p c && all p s'
  | EmptyString => true
  end.

(** [s.split(sep)] *)
Fixpoint split (sep : ascii) (s : string) : list string :=
  match s with
  | EmptyString => [EmptyString]
  | String c s' =>
      if Ascii.eqb c sep then EmptyString :: split sep s'
      else match split sep s' with
           | piece :: pieces => String c piece :: pieces
           | [] => [String c EmptyString]
           end
  end.

(** [s.replace(a, b)] for one-character [a] and [b]. *)
Fixpoint replace (a b : ascii) (s : string) : string :=
  match s with
  | String c s' => String (if Ascii.eqb c a then b else c) (replace a b s')
  | EmptyString => EmptyString
  end.

Definition is_c0_or_space (c : ascii) : bool := (Py.code c <=? 32)%N.
Definition is_unsafe (c : ascii) : bool :=
  ((Py.code c =? 9) || (Py.code c =? 13) || (Py.code c =? 10))%N.
Definition is_alpha (c : ascii) : bool := Py.is_upper c || Py.is_lower c.
Definition is_scheme_char (c : ascii) : bool :=
  is_alpha c || Py.is_digit c || Py.contains c "+-.".
Definition is_netloc_end (c : ascii) : bool := Py.contains c "/?#".

(** The URL once a leading [scheme:] is taken off. *)
Definition strip_scheme (url : string) : string :=
  match Py.cut ":" url with
  | Some (String c0 pre, rest) =>
      if is_alpha c0 && all is_scheme_char (String c0 pre) then rest else url
  | _ => url
  end.

(** [_splitnetloc(url, 2)] *)
Fixpoint splitnetloc (s : string) : string * string :=
  match s with
  | String c s' =>
      if is_netloc_end c then (EmptyString, s)
      else let '(netloc, rest) := splitnetloc s' in (String c netloc, rest)
  | EmptyString => (EmptyString, EmptyString)
  end.

Definition before (sep : ascii) (s : string) : string :=
  match Py.cut sep s with
  | Some (a, _) => a
  | None => s
  end.

(** [urlparse(url).query]; [urlparse] raises [ValueError] on a host it
    rejects. *)
Definition query_of (E : Env) (url : string) : result error string :=
  let url := drop_while is_c0_or_space url in
  let url := remove is_unsafe url in
  let url := strip_scheme url in
  '(netloc, url) ←
    match url with
    | String "/" (String "/" rest) =>
        let '(netloc, url) := splitnetloc rest in
        let open := Py.contains "[" netloc in
        let close := Py.contains "]" netloc in
        if open && negb close || close && negb open
        then Raise (ValueError "Invalid IPv6 URL")
        else if open && close || negb (all Py.is_ascii netloc)
        then match netloc_error E netloc with
             | Some e => Raise e
             | None => Ok (netloc, url)
             end
        else Ok (netloc, url)
    | _ => Ok (EmptyString, url)
    end;
  let url := before "#" url in
  match Py.cut "?" url with
  | Some (_, query) => Ok query
  | None => Ok EmptyString
  end.

Definition is_hex (c : N) : bool :=
  ((48 <=? c) && (c <=? 57) || (65 <=? c) && (c <=? 70) || (97 <=? c) && (c <=? 102))%N.
Definition hex_value (c : N) : N :=
  if (c <=? 57)%N then c - 48 else if (c <=? 70)%N then c - 55 else c - 87.

(** [unquote_to_bytes]: [%XX] becomes a byte, any other [%] stays. *)
Fixpoint unquote_to_bytes (l : list N) : list N :=
  match l with
  | [] => []
  | c :: r =>
      if (c =? 37)%N then
        match r with
        | a :: b :: r' =>
            if is_hex a && is_hex b
            then (16 * hex_value a + hex_value b)%N :: unquote_to_bytes r'
            else c :: unquote_to_bytes r
        | _ => c :: unquote_to_bytes r
        end
      else c :: unquote_to_bytes r
  end.

Definition unquote_run (rev_run : list N) : list N :=
  Py.codes (Utf8.decode_replace (unquote_to_bytes (rev rev_run))).

(** Each maximal ASCII run is unquoted and decoded on its own, the bytes
    of other characters stay; [rev_run] is the ASCII run being read. *)
Fixpoint unquote_runs (l : list N) (rev_run : list N) : list N :=
  match l with
  | [] => unquote_run rev_run
  | c :: r =>
      if (c <? 128)%N then unquote_runs r (c :: rev_run)
      else unquote_run rev_run ++ c :: unquote_runs r []
  end.

(** [unquote(s)], with the defaults [encoding='utf-8'] and
    [errors='replace']. *)
Definition unquote (s : string) : string :=
  if negb (Py.contains "%" s) then s
  else Py.of_codes (unquote_runs (Py.codes s) []).

(** [parse_qsl(qs)]: blank values are dropped. *)
Definition parse_qsl (qs : string) : list (string * string) :=
  let query_args := if String.eqb qs "" then [] else split "&" qs in
  flat_map (fun name_value =>
    match Py.split1 "=" name_value with
    | [name; value] =>
        if negb (String.eqb value "")
        then [(unquote (replace "+" " " name), unquote (replace "+" " " value))]
        else []
    | _ => []
    end) query_args.

(** [parse_qs(qs).get(name, [None])[0]]: the first value of [name]. *)
Fixpoint first_value (name : string) (pairs : list (string * string)) : option string :=
  match pairs with
  | (k, v) :: pairs' => if String.eqb k name then Some v else first_value name pairs'
  | [] => None
  end.

(** [unwrap(url)]: the white space around the URL, an enclosing [<...>]
    and a leading [URL:] are taken off. *)
Definition unwrap (url : string) : string :=
  let url := Py.strip url in
  let url :=
    if String.eqb (Py.slice_to 1 url) "<" && String.eqb (Py.slice_last 1 url) ">"
    then Py.strip (Py.slice_from 1 (Py.slice_but_last 1 url))
    else url in
  if String.eqb (Py.slice_to 4 url) "URL:"
  then Py.strip (Py.slice_from 4 url)
  else url.

End UrlParse.

(** ** The inbound request and the response interface *)

(** The headers of a message, as [email.message.Message] keeps them: the
    lines in order, repeated names included. *)
Definition HTTPMessage : Type := list (string * string).

Module Headers.

(** [h.get(name)]: the value of the first line whose name is [name],
    whatever the case of the letters. *)
Fixpoint get (h : HTTPMessage) (name : string) : option string :=
  match h with
  | (k, v) :: h' =>
      if String.eqb (Py.lower k) (Py.lower name) then Some v else get h' name
  | [] => None
  end.

(** [h.items()] *)
Definition items (h : HTTPMessage) : list (string * string) := h.

End Headers.

(** The handler object while it serves one request: what the server parsed
    from the connection, and the stream the body is read from.  [rfile n]
    is the outcome of [self.rfile.read(n)]. *)
Record Handler := {
  command : string;
  path : string;
  headers : HTTPMessage;
  rfile : Z -> result error (list byte)
}.

(** What a handler does to the outside: the calls it makes on the response
    interface of [BaseHTTPRequestHandler], which are what the client gets to
    see, and the requests it has [urlopen] send upstream. *)
Inductive call :=
| SendResponse (status : Z)
| SendHeader (keyword value : string)
| EndHeaders
| Write (body : list byte)
| UrlOpen (req : Request) (context : option ssl_context).

(** A run of handler code: the calls made, and either the value returned or
    the exception that left the code. *)
Record io (A : Type) := IO { calls : list call; outcome : result exn A }.
Arguments IO {A} calls outcome.
Arguments calls {A} _.
Arguments outcome {A} _.

#[global] Instance io_ret : MRet io := fun _ a => IO [] (Ok a).
#[global] Instance io_bind : MBind io := fun _ _ f m =>
  match outcome m with
  | Ok a => IO (calls m ++ calls (f a)) (outcome (f a))
  | Raise e => IO (calls m) (Raise e)
  end.

(** [try: body  except ... as e: handler e] *)
Definition try_except {A} (body : io A) (handler : exn -> io A) : io A :=
  match outcome body with
  | Ok _ => body
  | Raise e => IO (calls body ++ calls (handler e)) (outcome (handler e))
  end.

Definition lift {A} (r : result error A) : io A :=
  IO [] (match r with Ok a => Ok a | Raise e => Raise (Exception e) end).

Definition send_response (status : Z) : io unit := IO [SendResponse status] (Ok tt).
Definition send_header (keyword value : string) : io unit :=
  IO [SendHeader keyword value] (Ok tt).
Definition end_headers : io unit := IO [EndHeaders] (Ok tt).
Definition wfile_write (body : list byte) : io unit := IO [Write body] (Ok tt).

(** [for x in xs: f x] *)
Fixpoint for_each {A} (xs : list A) (f : A -> io unit) : io unit :=
  match xs with
  | [] => mret tt
  | x :: xs' => f x;; for_each xs' f
  end.

Module HTTPStatus.
Definition OK : Z := 200.
Definition NO_CONTENT : Z := 204.
Definition BAD_REQUEST : Z := 400.
Definition UNAUTHORIZED : Z := 401.
Definition INTERNAL_SERVER_ERROR : Z := 500.
End HTTPStatus.

(** ** Reading an upstream body *)

(** [fp.read(amt)]: up to [amt] bytes, none at the end of the body. *)
Definition read (amt : nat) (s : stream) : result error (list byte) * stream :=
  match content s, fault s with
  | [], Some e => (Raise e, s)
  | l, f => (Ok (take amt l), Stream (drop amt l) f)
  end.

(** [fp.read()]: the whole body. *)
Definition read_all (s : stream) : result error (list byte) :=
  match fault s with
  | Some e => Raise e
  | None => Ok (content s)
  end.

(** ** The proxy *)

Inductive origin_setting :=
| OriginStr (s : string)
| OriginList (l : list string).

Record ProxyConfig := {
  port : Z;
  host : string;
  cors_origin : origin_setting;
  username : option string;
  password : option string;
  ssl_verification : string;
  verbose : bool
}.

(** [ProxyConfig()] *)
Definition default_config : ProxyConfig := {|
  port := 9090;
  host := "0.0.0.0";
  cors_origin := OriginStr "*";
  username := None;
  password := None;
  ssl_verification := "default";
  verbose := false
|}.

(** [s == o] for a string and an optional string. *)
Definition eq_setting (s : string) (o : option string) : bool :=
  match o with
  | Some t => String.eqb s t
  | None => false
  end.

(** The body of the [try] in [check_auth]. *)
Definition check_basic (config : ProxyConfig) (auth_header : string) : result error bool :=
  '(auth_type, credentials) ← Py.unpack2 (Py.split1 " " auth_header);
  if negb (String.eqb (Py.lower auth_type) "basic") then mret false
  else
    raw ← Base64.b64decode credentials;
    decoded ← Utf8.decode raw;
    '(user, pass) ← Py.unpack2 (Py.split1 ":" decoded);
    mret (eq_setting user (username config) && eq_setting pass (password config)).

(** The [try] with its [except: return False]. *)
Definition try_basic (config : ProxyConfig) (auth_header : string) : bool :=
  match check_basic config auth_header with
  | Ok verdict => verdict
  | Raise _ => false
  end.

Definition check_auth (config : ProxyConfig) (self : Handler) : bool :=
  if negb (Py.truthy (username config)) || negb (Py.truthy (password config)) then true
  else
    let auth_header :=
      Py.or_ (Headers.get (headers self) "Proxy-Authorization")
             (Headers.get (headers self) "Authorization") in
    match auth_header with
    | None | Some EmptyString => false
    | Some auth_header => try_basic config auth_header
    end.

Definition send_cors_headers (config : ProxyConfig) (self : Handler) : io unit :=
  let origin := default "*" (Headers.get (headers self) "Origin") in
  match cors_origin config with
  | OriginStr s =>
      if String.eqb s "*" then send_header "Access-Control-Allow-Origin" origin
      else send_header "Access-Control-Allow-Origin" s
  | OriginList l =>
      if Py.mem origin l then send_header "Access-Control-Allow-Origin" origin
      else mret tt
  end;;
  send_header "Access-Control-Allow-Methods" "GET, POST, PUT, DELETE, PATCH, OPTIONS, HEAD";;
  send_header "Access-Control-Allow-Headers" "*";;
  send_header "Access-Control-Allow-Credentials" "true";;
  send_header "Access-Control-Max-Age" "86400".

Definition do_OPTIONS (config : ProxyConfig) (self : Handler) : io unit :=
  send_response HTTPStatus.NO_CONTENT;;
  send_cors_headers config self;;
  end_headers.

(** The headers the proxy does not forward. *)
Definition skip_headers : gset string :=
  {[ "host"; "connection"; "proxy-authorization"; "x-target-url"; "origin"; "referer" ]}.

(** [req.add_header(key, val)]: the request keeps its headers in a [dict]
    under the capitalised name. *)
Definition add_header (key val : string) (req : Request) : Request :=
  mkRequest (full_url req) (method req)
            (<[Py.capitalize key := val]> (req_headers req)) (data req).

(** [req.data = body]: when the data change, the setter of [data] removes
    the header [Content-length] from the request. *)
Definition set_data (body : list byte) (req : Request) : Request :=
  if bool_decide (Some body <> data req)
  then mkRequest (full_url req) (method req)
                 (delete "Content-length" (req_headers req)) (Some body)
  else req.

(** What the property [full_url] of a request gives once [url] is assigned
    to it: the setter unwraps the URL and splits it at its last [#], the
    getter puts the fragment back unless it is empty. *)
Definition full_url_of (url : string) : string :=
  let url := UrlParse.unwrap url in
  match Py.rcut "#" url with
  | Some (path, EmptyString) => path
  | _ => url
  end.

(** [urllib.request.Request(url, method=method)] *)
Definition new_request (E : Env) (url method : string) : result error Request :=
  match url_error E url with
  | Some e => Raise e
  | None => Ok (mkRequest (full_url_of url) method ∅ None)
  end.

(** The loop that copies the inbound headers. *)
Definition copy_headers (h : HTTPMessage) (req : Request) : Request :=
  fold_left (fun req '(header, value) =>
               if bool_decide (Py.lower header ∉ skip_headers)
               then add_header header value req
               else req)
            (Headers.items h) req.

(** The headers of the upstream that are not relayed. *)
Definition hop_headers : list string := ["connection"; "transfer-encoding"].

(** The loop that copies the headers of an upstream response. *)
Definition relay_headers (h : list (string * string)) : io unit :=
  for_each h (fun '(header, value) =>
    if negb (Py.mem (Py.lower header) hop_headers)
    then send_header header value
    else mret tt).

Definition CHUNK : nat := Z.to_nat 8192.
Arguments CHUNK : simpl never.

Definition inspect {A : Type} (x : A) : { y : A | x = y } := exist _ x eq_refl.

(** The loop that copies the body:
    [while True: chunk = response.read(8192); if not chunk: break;
    self.wfile.write(chunk)]. *)
Equations? copy_body (s : stream) : io unit by wf (length (content s)) lt :=
  copy_body s with inspect (read CHUNK s) := {
    | exist _ (Raise e, _) _ => IO [] (Raise (Exception e))
    | exist _ (Ok nil, _) _ => mret tt
    | exist _ (Ok (cons b chunk), s') Hread => wfile_write (b :: chunk);; copy_body s' }.
Proof.
  unfold read in Hread. destruct s as [l f]. cbn [content fault] in *.
  destruct l as [|b0 l].
  - destruct f; rewrite ?take_nil in Hread; discriminate.
  - assert (s' = Stream (drop CHUNK (b0 :: l)) f) as -> by congruence.
    cbn [content]. rewrite length_skipn. cbn [length]. unfold CHUNK. lia.
Qed.

(** The first half of the [try] block: the request for [urlopen]. *)
Definition build_request (E : Env) (self : Handler) (target_url : string)
  : result error Request :=
  req ← new_request E target_url (command self);
  let req := copy_headers (headers self) req in
  let content_length := Headers.get (headers self) "Content-Length" in
  match content_length with
  | None | Some EmptyString => mret req
  | Some content_length =>
      n ← Int.int E content_length;
      body ← rfile self n;
      mret (set_data body req)
  end.

Definition urlopen_ (E : Env) (req : Request) (context : option ssl_context) : io response :=
  IO [UrlOpen req context] (urlopen E req context).

(** The [try] block once the target is known. *)
Definition forward (E : Env) (config : ProxyConfig) (self : Handler) (target_url : string)
  : io unit :=
  req ← lift (build_request E self target_url);
  let ssl_context :=
    if String.eqb (ssl_verification config) "ignore"
    then Some {| check_hostname := false; verify := CERT_NONE |}
    else None in
  response ← urlopen_ E req ssl_context;
  send_response (code response);;
  relay_headers (resp_headers response);;
  send_cors_headers config self;;
  end_headers;;
  copy_body (fp response).

(** [except urllib.error.HTTPError as e] *)
Definition on_http_error (config : ProxyConfig) (self : Handler) (e : response) : io unit :=
  send_response (code e);;
  relay_headers (resp_headers e);;
  send_cors_headers config self;;
  end_headers;;
  body ← lift (read_all (fp e));
  wfile_write body.

(** [except Exception as e] *)
Definition on_exception (config : ProxyConfig) (self : Handler) (e : error) : io unit :=
  send_response HTTPStatus.INTERNAL_SERVER_ERROR;;
  send_header "Content-Type" "application/json";;
  send_cors_headers config self;;
  end_headers;;
  let error_data :=
    [("error", Json.JString "Proxy error"); ("message", Json.JString (err_str e))] in
  wfile_write (Py.to_bytes (Json.dumps error_data)).

(** The [try] statement: the relay to [target_url]. *)
Definition relay (E : Env) (config : ProxyConfig) (self : Handler) (target_url : string)
  : io unit :=
  try_except (forward E config self target_url)
    (fun e => match e with
              | HTTPError e => on_http_error config self e
              | Exception e => on_exception config self e
              end).

(** The lines that extract the target URL; they stand before the [try]. *)
Definition target_of (E : Env) (self : Handler) : result error (option string) :=
  let target_url := Headers.get (headers self) "X-Target-URL" in
  if negb (Py.truthy target_url) then
    query ← UrlParse.query_of E (path self);
    let query_params := UrlParse.parse_qsl query in
    mret (UrlParse.first_value "url" query_params)
  else mret target_url.

Definition handle_request (E : Env) (config : ProxyConfig) (self : Handler) : io unit :=
  if String.eqb (path self) "/health" then
    send_response HTTPStatus.OK;;
    send_header "Content-Type" "application/json";;
    send_cors_headers config self;;
    end_headers;;
    let health_data :=
      [("status", Json.JString "ok"); ("version", Json.JString "1.0.0");
       ("uptime", Json.JFloat (uptime E))] in
    wfile_write (Py.to_bytes (Json.dumps health_data))
  else if negb (check_auth config self) then
    send_response HTTPStatus.UNAUTHORIZED;;
    send_header "WWW-Authenticate" ("Basic realm=" +:+ Py.quoted "Proxy");;
    send_cors_headers config self;;
    end_headers;;
    wfile_write (Py.to_bytes "Unauthorized")
  else
    target_url ← lift (target_of E self);
    match target_url with
    | None | Some EmptyString =>
        send_response HTTPStatus.BAD_REQUEST;;
        send_cors_headers config self;;
        end_headers;;
        wfile_write (Py.to_bytes "Missing target URL. Use X-Target-URL header or ?url= parameter")
    | Some target_url => relay E config self target_url
    end.

Definition do_GET := handle_request.
Definition do_POST := handle_request.
Definition do_PUT := handle_request.
Definition do_DELETE := handle_request.
Definition do_PATCH := handle_request.
Definition do_HEAD := handle_request.

(** [main]: the configuration is filled in from the command line. *)
Record Args := {
  arg_port : Z;
  arg_host : string;
  arg_origin : string;
  arg_username : option string;
  arg_password : option string;
  arg_verbose : bool;
  arg_ssl : string
}.

Definition configure (args : Args) : ProxyConfig := {|
  port := arg_port args;
  host := arg_host args;
  cors_origin := OriginStr (arg_origin args);
  username := arg_username args;
  password := arg_password args;
  ssl_verification := arg_ssl args;
  verbose := arg_verbose args
|}.

(** ** The handler when the client may go away *)

(** So far a call on the response interface always succeeds: the client
    stays connected and the text of the headers is Latin-1.  Here the
    handler runs over a connection that may fail. *)
Module Client.

(** What the connection makes of a call on the response interface, given
    the calls made before it: the exception that the call raises, if any.
    [wfile.write] and the flush of [end_headers] raise once the client has
    gone, [send_header] raises on a text outside Latin-1. *)
Definition connection : Type := list call -> call -> option error.

(** A run of handler code that starts after the calls [past]. *)
Record cio (A : Type) := Cio { run : list call -> io A }.
Arguments Cio {A} run.
Arguments run {A} _ past.

#[global] Instance cio_ret : MRet cio := fun _ a => Cio (fun _ => mret a).
#[global] Instance cio_bind : MBind cio := fun _ _ f m =>
  Cio (fun past =>
         let first := run m past in
         first ≫= fun a => run (f a) (past ++ calls first)).

(** [try: body  except ... as e: handler e] *)
Definition try_except {A} (body : cio A) (handler : exn -> cio A) : cio A :=
  Cio (fun past =>
         let first := run body past in
         try_except first (fun e => run (handler e) (past ++ calls first))).

Definition lift {A} (r : result error A) : cio A := Cio (fun _ => lift r).

(** A call that reaches the connection. *)
Definition attempt (C : connection) (c : call) : cio unit :=
  Cio (fun past =>
         IO [c] match C past c with
                | Some e => Raise (Exception e)
                | None => Ok tt
                end).

(** [send_response] keeps the status line and its own headers in the
    buffer of the handler. *)
Definition send_response (status : Z) : cio unit := Cio (fun _ => send_response status).
Definition send_header (C : connection) (keyword value : string) : cio unit :=
  attempt C (SendHeader keyword value).
Definition end_headers (C : connection) : cio unit := attempt C EndHeaders.
Definition wfile_write (C : connection) (body : list byte) : cio unit :=
  attempt C (Write body).

Definition urlopen_ (E : Env) (req : Request) (context : option ssl_context) : cio response :=
  Cio (fun _ => urlopen_ E req context).

(** [for x in xs: f x] *)
Fixpoint for_each {A} (xs : list A) (f : A -> cio unit) : cio unit :=
  match xs with
  | [] => mret tt
  | x :: xs' => f x;; for_each xs' f
  end.

Definition send_cors_headers (C : connection) (config : ProxyConfig) (self : Handler)
  : cio unit :=
  let origin := default "*" (Headers.get (headers self) "Origin") in
  match cors_origin config with
  | OriginStr s =>
      if String.eqb s "*" then send_header C "Access-Control-Allow-Origin" origin
      else send_header C "Access-Control-Allow-Origin" s
  | OriginList l =>
      if Py.mem origin l then send_header C "Access-Control-Allow-Origin" origin
      else mret tt
  end;;
  send_header C "Access-Control-Allow-Methods" "GET, POST, PUT, DELETE, PATCH, OPTIONS, HEAD";;
  send_header C "Access-Control-Allow-Headers" "*";;
  send_header C "Access-Control-Allow-Credentials" "true";;
  send_header C "Access-Control-Max-Age" "86400".

Definition do_OPTIONS (C : connection) (config : ProxyConfig) (self : Handler) : cio unit :=
  send_response HTTPStatus.NO_CONTENT;;
  send_cors_headers C config self;;
  end_headers C.

Definition relay_headers (C : connection) (h : list (string * string)) : cio unit :=
  for_each h (fun '(header, value) =>
    if negb (Py.mem (Py.lower header) hop_headers)
    then send_header C header value
    else mret tt).

Equations? copy_body (C : connection) (s : stream) : cio unit by wf (length (content s)) lt :=
  copy_body C s with inspect (read CHUNK s) := {
    | exist _ (Raise e, _) _ => lift (Raise e)
    | exist _ (Ok nil, _) _ => mret tt
    | exist _ (Ok (cons b chunk), s') Hread => wfile_write C (b :: chunk);; copy_body C s' }.
Proof.
  unfold read in Hread. destruct s as [l f]. cbn [content fault] in *.
  destruct l as [|b0 l].
  - destruct f; rewrite ?take_nil in Hread; discriminate.
  - assert (s' = Stream (drop CHUNK (b0 :: l)) f) as -> by congruence.
    cbn [content]. rewrite length_skipn. cbn [length]. unfold CHUNK. lia.
Qed.

Definition forward (C : connection) (E : Env) (config : ProxyConfig) (self : Handler)
    (target_url : string) : cio unit :=
  req ← lift (build_request E self target_url);
  let ssl_context :=
    if String.eqb (ssl_verification config) "ignore"
    then Some {| check_hostname := false; verify := CERT_NONE |}
    else None in
  response ← urlopen_ E req ssl_context;
  send_response (code response);;
  relay_headers C (resp_headers response);;
  send_cors_headers C config self;;
  end_headers C;;
  copy_body C (fp response).

Definition on_http_error (C : connection) (config : ProxyConfig) (self : Handler)
    (e : response) : cio unit :=
  send_response (code e);;
  relay_headers C (resp_headers e);;
  send_cors_headers C config self;;
  end_headers C;;
  body ← lift (read_all (fp e));
  wfile_write C body.

Definition on_exception (C : connection) (config : ProxyConfig) (self : Handler)
    (e : error) : cio unit :=
  send_response HTTPStatus.INTERNAL_SERVER_ERROR;;
  send_header C "Content-Type" "application/json";;
  send_cors_headers C config self;;
  end_headers C;;
  let error_data :=
    [("error", Json.JString "Proxy error"); ("message", Json.JString (err_str e))] in
  wfile_write C (Py.to_bytes (Json.dumps error_data)).

Definition relay (C : connection) (E : Env) (config : ProxyConfig) (self : Handler)
    (target_url : string) : cio unit :=
  try_except (forward C E config self target_url)
    (fun e => match e with
              | HTTPError e => on_http_error C config self e
              | Exception e => on_exception C config self e
              end).

Definition handle_request (C : connection) (E : Env) (config : ProxyConfig) (self : Handler)
  : cio unit :=
  if String.eqb (path self) "/health" then
    send_response HTTPStatus.OK;;
    send_header C "Content-Type" "application/json";;
    send_cors_headers C config self;;
    end_headers C;;
    let health_data :=
      [("status", Json.JString "ok"); ("version", Json.JString "1.0.0");
       ("uptime", Json.JFloat (uptime E))] in
    wfile_write C (Py.to_bytes (Json.dumps health_data))
  else if negb (check_auth config self) then
    send_response HTTPStatus.UNAUTHORIZED;;
    send_header C "WWW-Authenticate" ("Basic realm=" +:+ Py.quoted "Proxy");;
    send_cors_headers C config self;;
    end_headers C;;
    wfile_write C (Py.to_bytes "Unauthorized")
  else
    target_url ← lift (target_of E self);
    match target_url with
    | None | Some EmptyString =>
        send_response HTTPStatus.BAD_REQUEST;;
        send_cors_headers C config self;;
        end_headers C;;
        wfile_write C (Py.to_bytes "Missing target URL. Use X-Target-URL header or ?url= parameter")
    | Some target_url => relay C E config self target_url
    end.

(** No call on the response interface fails. *)
Definition reliable (C : connection) : Prop := forall past c, C past c = None.

(** The calls that write to the socket. *)
Definition is_socket_write (c : call) : bool :=
  match c with
  | EndHeaders | Write _ => true
  | _ => false
  end.

(** The client that stays, and the client that has gone once [n] writes
    have reached the socket: every later write raises [e]. *)
Definition stays : connection := fun _ _ => None.
Definition gone_after (n : nat) (e : error) : connection :=
  fun past c =>
    if is_socket_write c && (n <=? length (List.filter is_socket_write past))%nat
    then Some e
    else None.

End Client.

(** ** Vocabulary of the statements *)

(** One turn of the loop in [copy_headers]. *)
Definition copy_step (req : Request) (line : string * string) : Request :=
  let '(header, value) := line in
  if bool_decide (Py.lower header ∉ skip_headers)
  then add_header header value req
  else req.

(** The upstream headers that are relayed, as calls. *)
Definition relayed (h : list (string * string)) : list call :=
  map (fun '(header, value) => SendHeader header value)
      (List.filter (fun '(header, _) => negb (Py.mem (Py.lower header) hop_headers)) h).

(** The calls of [send_cors_headers]. *)
Definition cors_headers (config : ProxyConfig) (self : Handler) : list call :=
  calls (send_cors_headers config self).

(** The context [urlopen] is given. *)
Definition context_of (config : ProxyConfig) : option ssl_context :=
  if String.eqb (ssl_verification config) "ignore"
  then Some {| check_hostname := false; verify := CERT_NONE |}
  else None.

(** The request gets past the health check, the gate and the extraction of
    a target, which is [target_url]. *)
Definition forwarding (E : Env) (config : ProxyConfig) (self : Handler) (target_url : string)
  : Prop :=
  String.eqb (path self) "/health" = false
  /\ check_auth config self = true
  /\ target_of E self = Ok (Some target_url)
  /\ target_url <> "".

(** What the client is sent: the calls on the response interface. *)
Definition to_client (c : call) : bool :=
  match c with
  | UrlOpen _ _ => false
  | _ => true
  end.

Definition is_status_line (c : call) : bool :=
  match c with
  | SendResponse _ => true
  | _ => false
  end.

(** ** A small world to run the handler in *)
Module Sample.

(** The body of the answer for a missing resource. *)
Definition not_found : string :=
  "{" +:+ Py.quoted "error" +:+ ":" +:+ Py.quoted "not found" +:+ "}".

Definition refused : error :=
  Error_ "URLError" "<urlopen error [Errno 111] Connection refused>".
Definition reset : error :=
  Error_ "ConnectionResetError" "[Errno 104] Connection reset by peer".

(** An upstream with four resources: one that answers, one that is
    missing, one whose body breaks off after four bytes; everything else
    refuses the connection. *)
Definition upstream (req : Request) (context : option ssl_context) : result exn response :=
  if String.eqb (full_url req) "http://example.test/foo" then
    Ok (Response 200
          [("Content-Type", "text/plain"); ("Connection", "close");
           ("Set-Cookie", "a=1"); ("Set-Cookie", "b=2")]
          (Stream (Py.to_bytes "hello") None))
  else if String.eqb (full_url req) "http://example.test/missing" then
    Raise (HTTPError
             (Response 404 [("Content-Type", "application/json")]
                (Stream (Py.to_bytes not_found) None)))
  else if String.eqb (full_url req) "http://example.test/broken" then
    Ok (Response 200 [("Content-Type", "text/plain")]
          (Stream (Py.to_bytes "part") (Some reset)))
  else Raise (Exception refused).

(** A URL has a scheme when a colon comes before any slash. *)
Definition no_scheme (url : string) : option error :=
  match Py.cut ":" url with
  | Some (String c pre, _) =>
      if Py.contains "/" (String c pre)
      then Some (ValueError ("unknown url type: '" +:+ url +:+ "'"))
      else None
  | _ => Some (ValueError ("unknown url type: '" +:+ url +:+ "'"))
  end.

Definition env : Env := {|
  url_error := no_scheme;
  urlopen := upstream;
  netloc_error := fun _ => None;
  repr200 := fun s => "'" +:+ s +:+ "'";
  uptime := "12.5"
|}.

(** A connection on which [body] is all the client sends. *)
Definition rfile_of (body : list byte) (n : Z) : result error (list byte) :=
  if (n <? -1)%Z then Raise (ValueError "read length must be non-negative or -1")
  else if (n =? -1)%Z then Ok body
  else Ok (take (Z.to_nat n) body).

Definition request (path : string) (headers : HTTPMessage) : Handler :=
  {| command := "GET"; path := path; headers := headers; rfile := rfile_of [] |}.

(** [--username alice --password secret] *)
Definition guarded : ProxyConfig :=
  configure {| arg_port := 9090; arg_host := "0.0.0.0"; arg_origin := "*";
               arg_username := Some "alice"; arg_password := Some "secret";
               arg_verbose := false; arg_ssl := "default" |}.

(** [--username alice], no password *)
Definition half_guarded : ProxyConfig :=
  configure {| arg_port := 9090; arg_host := "0.0.0.0"; arg_origin := "*";
               arg_username := Some "alice"; arg_password := None;
               arg_verbose := false; arg_ssl := "default" |}.

(** [base64("alice:secret")] *)
Definition alice : string := "Basic YWxpY2U6c2VjcmV0".

(** A request of alice's for [target], named in the header. *)
Definition via (target : string) : Handler :=
  request "/proxy"
    [("Authorization", alice); ("X-Target-URL", target);
     ("X-Api-Key", "k1"); ("Host", "proxy.test")].

(** The request that goes upstream for it. *)
Definition outbound (target : string) : Request :=
  mkRequest target "GET" {[ "Authorization" := alice; "X-api-key" := "k1" ]} None.

(** The same world with another upstream. *)
Definition env_with (upstream : Request -> option ssl_context -> result exn response) : Env :=
  {| url_error := no_scheme;
     urlopen := upstream;
     netloc_error := fun _ => None;
     repr200 := fun s => "'" +:+ s +:+ "'";
     uptime := "12.5" |}.

(** An upstream that answers 502 and breaks off before the body. *)
Definition bad_gateway (req : Request) (context : option ssl_context) : result exn response :=
  Raise (HTTPError (Response 502 [("Content-Type", "text/html")] (Stream [] (Some reset)))).

(** An upstream that sets CORS headers of its own. *)
Definition with_cors (req : Request) (context : option ssl_context) : result exn response :=
  Ok (Response 200
        [("Access-Control-Allow-Origin", "https://a.test"); ("Content-Type", "text/plain")]
        (Stream (Py.to_bytes "ok") None)).

(** A request with a body. *)
Definition post (path : string) (headers : HTTPMessage) (body : string) : Handler :=
  {| command := "POST"; path := path; headers := headers;
     rfile := rfile_of (Py.to_bytes body) |}.

(** [--ssl ignore], no credentials *)
Definition unverified : ProxyConfig :=
  configure {| arg_port := 9090; arg_host := "0.0.0.0"; arg_origin := "*";
               arg_username := None; arg_password := None;
               arg_verbose := false; arg_ssl := "ignore" |}.

(** [--username a:b --password secret] *)
Definition colon : ProxyConfig :=
  configure {| arg_port := 9090; arg_host := "0.0.0.0"; arg_origin := "*";
               arg_username := Some "a:b"; arg_password := Some "secret";
               arg_verbose := false; arg_ssl := "default" |}.

End Sample.

(** ** More vocabulary *)

Definition is_urlopen (c : call) : bool := negb (to_client c).

Definition is_end_headers (c : call) : bool :=
  match c with
  | EndHeaders => true
  | _ => false
  end.

Definition is_allow_origin (c : call) : bool :=
  match c with
  | SendHeader keyword _ => String.eqb (Py.lower keyword) "access-control-allow-origin"
  | _ => false
  end.

(** The four CORS headers that do not depend on the request. *)
Definition fixed_cors_headers : list call :=
  [SendHeader "Access-Control-Allow-Methods" "GET, POST, PUT, DELETE, PATCH, OPTIONS, HEAD";
   SendHeader "Access-Control-Allow-Headers" "*";
   SendHeader "Access-Control-Allow-Credentials" "true";
   SendHeader "Access-Control-Max-Age" "86400"].

(** The origin [send_cors_headers] works with. *)
Definition origin_of (self : Handler) : string :=
  default "*" (Headers.get (headers self) "Origin").

(** Before each end of headers in [l] stand the headers [cors]. *)
Definition cors_before_end (cors l : list call) : Prop :=
  forall pre post, l = pre ++ EndHeaders :: post -> exists pre', pre = pre' ++ cors.

(** The same headers up to the case of the letters of their names. *)
Definition same_names (h' h : HTTPMessage) : Prop :=
  Forall2 (fun line' line => Py.lower (fst line') = Py.lower (fst line)
                             /\ snd line' = snd line) h' h.

(** A byte, or a character, of printable ASCII. *)
Definition printable (b : byte) : Prop := (32 <= Byte.to_N b <= 126)%N.
Definition printable_char (c : ascii) : Prop := (32 <= Py.code c <= 126)%N.

(** The characters [a2b_base64] passes over: ASCII, outside the alphabet,
    and not the padding character. *)
Definition skipped (x : ascii) : bool :=
  Py.is_ascii x
  && (64 <=? Base64.table_a2b (Py.code x))%N
  && negb (Py.code x =? Base64.BASE64_PAD)%N.

(** A text that [parse_qs] hands on as it stands: no separator, no escape
    and no plus sign in it. *)
Definition literal (t : string) : bool :=
  UrlParse.all (fun c => negb (Py.contains c "&%+")) t.

(** [main]: the line of the start-up banner on authentication. *)
Definition auth_banner (config : ProxyConfig) : string :=
  if Py.truthy (username config) then "🔒 Authentication enabled" else "🔓 No authentication".

(** A target that [urllib.request.Request] takes as it stands: it begins
    and ends with a printable ASCII character that is no blank, it does not
    begin with [<] or with [URL:], and it does not end with [#]. *)
Definition plain_target (v : string) : bool :=
  match list_ascii_of_string v, rev (list_ascii_of_string v) with
  | c :: _, d :: _ =>
      (33 <=? Py.code c)%N && (Py.code c <=? 126)%N && negb (Ascii.eqb c "<")
      && negb (String.eqb (Py.slice_to 4 v) "URL:")
      && (33 <=? Py.code d)%N && (Py.code d <=? 126)%N && negb (Ascii.eqb d "#")
  | _, _ => false
  end.

(** * Properties *)

(** ** Letters and strings *)

Ltac by_cases_on_ascii c :=
  destruct c as [[] [] [] [] [] [] [] []]; vm_compute; reflexivity.

Lemma to_lower_to_upper c : Py.to_lower (Py.to_upper c) = Py.to_lower c.
Proof. by_cases_on_ascii c. Qed.

Lemma to_upper_to_lower c : Py.to_upper (Py.to_lower c) = Py.to_upper c.
Proof. by_cases_on_ascii c. Qed.

Lemma to_lower_idem c : Py.to_lower (Py.to_lower c) = Py.to_lower c.
Proof. by_cases_on_ascii c. Qed.

Lemma lower_idem s : Py.lower (Py.lower s) = Py.lower s.
Proof.
  induction s as [|c s IH]; [reflexivity|].
  simpl. now rewrite to_lower_idem, IH.
Qed.

Lemma lower_capitalize s : Py.lower (Py.capitalize s) = Py.lower s.
Proof.
  destruct s as [|c s]; [reflexivity|].
  simpl. now rewrite to_lower_to_upper, lower_idem.
Qed.

(** Two names have the same capitalised form exactly when they are the same
    name up to the case of the letters. *)
Lemma capitalize_eq_iff a b : Py.capitalize a = Py.capitalize b <-> Py.lower a = Py.lower b.
Proof.
  destruct a as [|c a], b as [|d b]; simpl; split; intros H;
    try discriminate; try reflexivity.
  - injection H as Hc Hs. rewrite Hs. f_equal.
    rewrite <- (to_lower_to_upper c), <- (to_lower_to_upper d). now rewrite Hc.
  - injection H as Hc Hs. rewrite Hs. f_equal.
    rewrite <- (to_upper_to_lower c), <- (to_upper_to_lower d). now rewrite Hc.
Qed.

Lemma cut_Some sep s a b :
  Py.cut sep s = Some (a, b) <-> s = a +:+ String sep b /\ Py.contains sep a = false.
Proof.
  revert a. induction s as [|c s IH]; intros a; simpl.
  - split; [discriminate|]. intros [H _]. destruct a; discriminate.
  - destruct (Ascii.eqb_spec c sep) as [->|Hne].
    + split.
      * intros [= <- <-]. now split.
      * intros [H Hc]. destruct a as [|c' a]; simpl in *.
        -- now injection H as ->.
        -- injection H as <- _. rewrite Ascii.eqb_refl in Hc. discriminate.
    + destruct (Py.cut sep s) as [[a' b']|] eqn:Hcut.
      * split.
        -- intros [= <- <-]. destruct (proj1 (IH a') eq_refl) as [-> Hc].
           simpl. split; [reflexivity|].
           destruct (Ascii.eqb_spec c sep); [contradiction | exact Hc].
        -- intros [H Hc]. destruct a as [|c' a]; simpl in *.
           ++ injection H as -> _. contradiction.
           ++ injection H as <- H. apply orb_false_iff in Hc as [_ Hc].
              pose proof (proj2 (IH a) (conj H Hc)) as [= -> ->]. reflexivity.
      * split; [discriminate|]. intros [H Hc]. destruct a as [|c' a]; simpl in *.
        -- injection H as -> _. contradiction.
        -- injection H as <- H. apply orb_false_iff in Hc as [_ Hc].
           pose proof (proj2 (IH a) (conj H Hc)). discriminate.
Qed.

Lemma truthy_false o : Py.truthy o = false <-> o = None \/ o = Some "".
Proof.
  destruct o as [[|c s]|]; simpl; split; intros H; auto; try discriminate.
  all: destruct H as [H|H]; discriminate.
Qed.

Lemma truthy_true o : Py.truthy o = true <-> exists s, o = Some s /\ s <> "".
Proof.
  destruct o as [[|c s]|]; simpl; split; intros H; try discriminate.
  - destruct H as (s & [= <-] & Hs). contradiction.
  - exists (String c s). split; [reflexivity | discriminate].
  - reflexivity.
  - destruct H as (s & H & _). discriminate.
Qed.

(** ** The access gate *)

Lemma unpack2_split1 sep s :
  Py.unpack2 (Py.split1 sep s) =
  match Py.cut sep s with
  | Some (a, b) => Ok (a, b)
  | None => Raise (ValueError "not enough values to unpack (expected 2, got 1)")
  end.
Proof. unfold Py.split1. now destruct (Py.cut sep s) as [[a b]|]. Qed.

(** What the [try] block accepts: a value that splits at its first blank
    into the word [basic], in any case, and the base64 form of
    [user:password] with the configured pair. *)
Lemma try_basic_true config v u p :
  username config = Some u -> password config = Some p ->
  try_basic config v = true <->
  exists scheme credentials raw,
    v = scheme +:+ " " +:+ credentials
    /\ Py.contains " " scheme = false
    /\ Py.lower scheme = "basic"
    /\ Base64.b64decode credentials = Ok raw
    /\ Utf8.decode raw = Ok (u +:+ ":" +:+ p)
    /\ Py.contains ":" u = false.
Proof.
  intros Hu Hp. unfold try_basic, check_basic. rewrite unpack2_split1. split.
  - destruct (Py.cut " " v) as [[scheme credentials]|] eqn:Hv; cbn; [|discriminate].
    destruct (String.eqb_spec (Py.lower scheme) "basic") as [Hs|]; cbn; [|discriminate].
    destruct (Base64.b64decode credentials) as [raw|] eqn:Hraw; cbn; [|discriminate].
    destruct (Utf8.decode raw) as [decoded|] eqn:Hdec; cbn; [|discriminate].
    rewrite unpack2_split1.
    destruct (Py.cut ":" decoded) as [[user pass]|] eqn:Hd; cbn; [|discriminate].
    rewrite Hu, Hp. cbn. intros [Heu Hep]%andb_true_iff.
    apply String.eqb_eq in Heu as ->. apply String.eqb_eq in Hep as ->.
    apply cut_Some in Hv as [-> Hblank]. apply cut_Some in Hd as [-> Hcolon].
    exists scheme, credentials, raw. repeat split; first [assumption | reflexivity].
  - intros (scheme & credentials & raw & -> & Hblank & Hs & Hraw & Hdec & Hcolon).
    change (" " +:+ credentials) with (String " " credentials).
    change (":" +:+ p) with (String ":" p) in Hdec.
    rewrite (proj2 (cut_Some " " _ scheme credentials) (conj eq_refl Hblank)). cbn.
    rewrite Hs. cbn. rewrite Hraw. cbn. rewrite Hdec. cbn.
    rewrite unpack2_split1.
    rewrite (proj2 (cut_Some ":" _ u p) (conj eq_refl Hcolon)). cbn.
    rewrite Hu, Hp. cbn. now rewrite !String.eqb_refl.
Qed.

(** C9: when the configured user name or the configured password is
    missing or empty, [check_auth] lets every request through, whatever its
    headers; a user name without a password does not guard the proxy. *)
Theorem check_auth_disabled config self :
  username config = None \/ username config = Some ""
  \/ password config = None \/ password config = Some "" ->
  check_auth config self = true.
Proof.
  intros H. unfold check_auth.
  assert (Hoff : Py.truthy (username config) = false \/ Py.truthy (password config) = false).
  { rewrite !truthy_false. tauto. }
  destruct Hoff as [-> | ->]; [reflexivity|].
  now rewrite orb_true_r.
Qed.

Lemma check_auth_disabled_witness :
  (username Sample.half_guarded = None \/ username Sample.half_guarded = Some ""
   \/ password Sample.half_guarded = None \/ password Sample.half_guarded = Some "")
  /\ check_auth Sample.half_guarded
       (Sample.request "/x" [("Authorization", "Basic not-base64!!")]) = true.
Proof.
  assert (H : username Sample.half_guarded = None \/ username Sample.half_guarded = Some ""
              \/ password Sample.half_guarded = None \/ password Sample.half_guarded = Some "")
    by (right; right; left; reflexivity).
  split; [exact H | exact (check_auth_disabled _ _ H)].
Defined.

(** C7, as the code has it: with a user name and a password configured,
    [check_auth] reads [Proxy-Authorization] when that header has a
    non-empty value and [Authorization] otherwise; it answers false when
    neither gives a value; it answers true exactly when the value read is
    the word [Basic], in any case, a blank, and base64 text that decodes to
    UTF-8 text [user:password] with the configured pair; being a boolean
    function, it turns every failure to decode into false. *)
Theorem check_auth_configured config self u p :
  username config = Some u -> u <> "" ->
  password config = Some p -> p <> "" ->
  let proxy_authorization := Headers.get (headers self) "Proxy-Authorization" in
  let authorization := Headers.get (headers self) "Authorization" in
  (forall v, proxy_authorization = Some v -> v <> "" ->
             check_auth config self = try_basic config v)
  /\ (forall v, Py.truthy proxy_authorization = false -> authorization = Some v ->
                check_auth config self = try_basic config v)
  /\ (Py.truthy proxy_authorization = false -> authorization = None ->
      check_auth config self = false)
  /\ (forall v, try_basic config v = true <->
                exists scheme credentials raw,
                  v = scheme +:+ " " +:+ credentials
                  /\ Py.contains " " scheme = false
                  /\ Py.lower scheme = "basic"
                  /\ Base64.b64decode credentials = Ok raw
                  /\ Utf8.decode raw = Ok (u +:+ ":" +:+ p)
                  /\ Py.contains ":" u = false)
  /\ (forall v e, check_basic config v = Raise e -> try_basic config v = false).
Proof.
  intros Hu Hune Hp Hpne proxy_authorization authorization.
  assert (Hon : check_auth config self =
                match Py.or_ proxy_authorization authorization with
                | None | Some EmptyString => false
                | Some auth_header => try_basic config auth_header
                end).
  { unfold check_auth. rewrite Hu, Hp.
    destruct u; [contradiction|]. destruct p; [contradiction|]. reflexivity. }
  repeat split.
  - intros v Hv Hne. rewrite Hon. unfold Py.or_. rewrite Hv.
    destruct v; [contradiction|]. reflexivity.
  - intros v Hv Ha. rewrite Hon. unfold Py.or_. rewrite Hv, Ha.
    destruct v; reflexivity.
  - intros Hv Ha. rewrite Hon. unfold Py.or_. now rewrite Hv, Ha.
  - now apply try_basic_true.
  - now apply try_basic_true.
  - intros v e He. unfold try_basic. now rewrite He.
Qed.

Lemma check_auth_configured_witness :
  (username Sample.guarded = Some "alice" /\ "alice" <> ""
   /\ password Sample.guarded = Some "secret" /\ "secret" <> "")
  /\ check_auth Sample.guarded (Sample.request "/x" [("Authorization", Sample.alice)])
     = try_basic Sample.guarded Sample.alice.
Proof.
  assert (Hu : "alice" <> "") by discriminate.
  assert (Hp : "secret" <> "") by discriminate.
  split; [repeat split; assumption|].
  exact (proj1 (proj2 (check_auth_configured Sample.guarded
                         (Sample.request "/x" [("Authorization", Sample.alice)])
                         "alice" "secret" eq_refl Hu eq_refl Hp))
               Sample.alice eq_refl eq_refl).
Defined.

(** A header that is no base64 is refused, not an error. *)
Example malformed_header_is_401 :
  check_auth Sample.guarded (Sample.request "/x" [("Authorization", "Basic not-base64!!")])
  = false
  /\ List.filter is_status_line
       (calls (handle_request Sample.env Sample.guarded
                 (Sample.request "/x" [("Authorization", "Basic not-base64!!")])))
     = [SendResponse 401].
Proof. split; vm_compute; reflexivity. Qed.

(** The reading of C7 that fails: a [Proxy-Authorization] header that is
    present does not always win.  With an empty value it is passed over,
    and the request below is let in on its [Authorization] header. *)
Lemma check_auth_first_present_fails :
  ~ (forall config self v,
        Py.truthy (username config) = true -> Py.truthy (password config) = true ->
        Headers.get (headers self) "Proxy-Authorization" = Some v ->
        check_auth config self = try_basic config v).
Proof.
  intros H.
  specialize (H Sample.guarded
                (Sample.request "/x" [("Proxy-Authorization", "");
                                      ("Authorization", Sample.alice)])
                "" eq_refl eq_refl eq_refl).
  vm_compute in H. discriminate.
Qed.

(** ** The headers of the outbound request *)

Lemma copy_headers_snoc hs line req :
  copy_headers (hs ++ [line]) req = copy_step (copy_headers hs req) line.
Proof.
  unfold copy_headers, Headers.items. rewrite fold_left_app. simpl.
  destruct line. reflexivity.
Qed.

Lemma copy_headers_keeps hs req :
  full_url (copy_headers hs req) = full_url req
  /\ method (copy_headers hs req) = method req
  /\ data (copy_headers hs req) = data req.
Proof.
  induction hs as [|[h v] hs IH] using rev_ind; [done|].
  rewrite copy_headers_snoc. simpl. now case_bool_decide.
Qed.

(** The outbound headers, name by name: a name is there when a header that
    is not skipped capitalises to it, and it carries the value of the last
    such header. *)
Lemma copy_headers_lookup hs req k v :
  req_headers req = ∅ ->
  req_headers (copy_headers hs req) !! k = Some v <->
  exists hs1 h hs2,
    hs = hs1 ++ (h, v) :: hs2
    /\ Py.capitalize h = k
    /\ (Py.lower h ∉ skip_headers)
    /\ forall h' v', (h', v') ∈ hs2 -> Py.capitalize h' <> k.
Proof.
  intros Hempty. revert v.
  induction hs as [|[h0 v0] hs IH] using rev_ind; intros v.
  - change (copy_headers [] req) with req. rewrite Hempty, lookup_empty. split; [discriminate|].
    intros (hs1 & h & hs2 & H & _). now destruct hs1.
  - rewrite copy_headers_snoc. simpl.
    assert (Hlast : forall hs1 (h : string) hs2,
               hs ++ [(h0, v0)] = hs1 ++ (h, v) :: hs2 ->
               (hs2 = [] /\ hs = hs1 /\ h = h0 /\ v = v0)
               \/ exists hs2', hs2 = hs2' ++ [(h0, v0)] /\ hs = hs1 ++ (h, v) :: hs2').
    { intros hs1 h hs2 H. destruct hs2 as [|z hs2' _] using rev_ind.
      - apply app_inj_tail in H as [-> [= -> ->]]. now left.
      - right. exists hs2'.
        change (hs1 ++ (h, v) :: hs2' ++ [z]) with (hs1 ++ ((h, v) :: hs2') ++ [z]) in H.
        rewrite app_assoc in H. apply app_inj_tail in H as [-> <-]. done. }
    case_bool_decide as Hskip; simpl.
    + destruct (decide (Py.capitalize h0 = k)) as [<-|Hk].
      * rewrite lookup_insert_eq. split.
        -- intros [= <-]. exists hs, h0, []. repeat split; [done|].
           intros h' v' Hin. inversion Hin.
        -- intros (hs1 & h & hs2 & H & Hcap & _ & Hlater).
           destruct (Hlast _ _ _ H) as [(_ & _ & _ & ->) | (hs2' & -> & _)]; [done|].
           exfalso. apply (Hlater h0 v0); [|done].
           apply elem_of_app. right. apply list_elem_of_here.
      * rewrite lookup_insert_ne by done. rewrite IH. split.
        -- intros (hs1 & h & hs2 & -> & Hcap & Hh & Hlater).
           exists hs1, h, (hs2 ++ [(h0, v0)]). repeat split; try done.
           ++ now rewrite <- app_assoc.
           ++ intros h' v' [Hin | Hin%list_elem_of_singleton]%elem_of_app.
              ** eauto.
              ** now injection Hin as -> ->.
        -- intros (hs1 & h & hs2 & H & Hcap & Hh & Hlater).
           destruct (Hlast _ _ _ H) as [(_ & _ & -> & _) | (hs2' & -> & ->)]; [done|].
           exists hs1, h, hs2'. repeat split; try done.
           intros h' v' Hin. apply (Hlater h' v'). apply elem_of_app. now left.
    + rewrite IH. split.
      * intros (hs1 & h & hs2 & -> & Hcap & Hh & Hlater).
        exists hs1, h, (hs2 ++ [(h0, v0)]). repeat split; try done.
        -- now rewrite <- app_assoc.
        -- intros h' v' [Hin | Hin%list_elem_of_singleton]%elem_of_app.
           ++ eauto.
           ++ injection Hin as -> ->. intros Heq.
              rewrite <- Hcap in Heq. apply capitalize_eq_iff in Heq.
              apply Hh. now rewrite <- Heq.
      * intros (hs1 & h & hs2 & H & Hcap & Hh & Hlater).
        destruct (Hlast _ _ _ H) as [(_ & _ & -> & _) | (hs2' & -> & ->)]; [done|].
        exists hs1, h, hs2'. repeat split; try done.
        intros h' v' Hin. apply (Hlater h' v'). apply elem_of_app. now left.
Qed.

(** ** Runs of handler code *)

Lemma io_eta {A} (m : io A) : m = IO (calls m) (outcome m).
Proof. now destruct m. Qed.

Lemma bind_returns {A B} (m : io A) (f : A -> io B) a :
  outcome m = Ok a ->
  m ≫= f = IO (calls m ++ calls (f a)) (outcome (f a)).
Proof. intros H. unfold mbind, io_bind. now rewrite H. Qed.

Lemma bind_raises {A B} (m : io A) (f : A -> io B) e :
  outcome m = Raise e ->
  m ≫= f = IO (calls m) (Raise e).
Proof. intros H. unfold mbind, io_bind. now rewrite H. Qed.

Lemma send_cors_headers_eq config self :
  send_cors_headers config self = IO (cors_headers config self) (Ok tt).
Proof.
  unfold cors_headers, send_cors_headers.
  destruct (cors_origin config) as [s|l].
  - now destruct (String.eqb s "*").
  - now destruct (Py.mem _ l).
Qed.

Lemma relay_headers_eq h : relay_headers h = IO (relayed h) (Ok tt).
Proof.
  unfold relay_headers, relayed.
  induction h as [|[header value] h IH]; [reflexivity|].
  cbn [for_each List.filter]. rewrite IH.
  now destruct (negb (Py.mem (Py.lower header) hop_headers)).
Qed.

Lemma copy_body_step s :
  copy_body s =
  match read CHUNK s with
  | (Raise e, _) => IO [] (Raise (Exception e))
  | (Ok [], _) => mret tt
  | (Ok (b :: chunk), s') => wfile_write (b :: chunk);; copy_body s'
  end.
Proof.
  rewrite copy_body_equation_1.
  destruct (inspect (read CHUNK s)) as [[[[|b chunk]|e] s'] Heq];
    simp copy_body; rewrite Heq, <- ?copy_body_equation_1; reflexivity.
Qed.

(** The loop writes the body as it arrives, in pieces of at most [CHUNK]
    bytes, and stops at its end or at the failure of a [read]. *)
Lemma copy_body_spec s :
  exists chunks,
    calls (copy_body s) = map Write chunks
    /\ concat chunks = content s
    /\ Forall (fun chunk => chunk <> [] /\ (length chunk <= CHUNK)%nat) chunks
    /\ outcome (copy_body s) =
       match fault s with
       | Some e => Raise (Exception e)
       | None => Ok tt
       end.
Proof.
  remember (length (content s)) as n eqn:Hn. revert s Hn.
  induction n as [n IH] using lt_wf_ind. intros [l f] Hn.
  rewrite copy_body_step. unfold read. cbn [content fault] in *.
  destruct l as [|b l].
  - exists []. destruct f; rewrite ?take_nil; cbn; repeat split; constructor.
  - destruct CHUNK as [|amt] eqn:Hamt; [unfold CHUNK in Hamt; lia|].
    cbn [take drop].
    destruct (IH (length (drop amt l))) with (s := Stream (drop amt l) f)
      as (chunks & Hcalls & Hcat & Hall & Hend).
    { subst n. rewrite length_skipn. cbn [length]. lia. }
    { reflexivity. }
    exists ((b :: take amt l) :: chunks). cbn [content fault] in *.
    unfold mbind, io_bind. cbn. rewrite Hcalls, Hcat, Hend, take_drop.
    split; [reflexivity|]. split; [reflexivity|]. split; [|reflexivity].
    constructor; [|done]. split; [done|]. cbn [length]. rewrite length_take. lia.
Qed.

Lemma on_exception_eq config self e :
  on_exception config self e =
  IO ([SendResponse 500; SendHeader "Content-Type" "application/json"]
      ++ cors_headers config self
      ++ [EndHeaders;
          Write (Py.to_bytes (Json.dumps [("error", Json.JString "Proxy error");
                                          ("message", Json.JString (err_str e))]))])
     (Ok tt).
Proof. unfold on_exception. now rewrite send_cors_headers_eq. Qed.

Lemma on_http_error_eq config self r :
  on_http_error config self r =
  IO ([SendResponse (code r)] ++ relayed (resp_headers r) ++ cors_headers config self
      ++ [EndHeaders]
      ++ match fault (fp r) with
         | Some _ => []
         | None => [Write (content (fp r))]
         end)
     (match fault (fp r) with
      | Some e => Raise (Exception e)
      | None => Ok tt
      end).
Proof.
  unfold on_http_error, read_all.
  rewrite send_cors_headers_eq, relay_headers_eq.
  now destruct (fault (fp r)).
Qed.

Lemma forward_eq E config self v :
  forward E config self v =
  match build_request E self v with
  | Raise e => IO [] (Raise (Exception e))
  | Ok req =>
      match urlopen E req (context_of config) with
      | Raise x => IO [UrlOpen req (context_of config)] (Raise x)
      | Ok r =>
          IO ([UrlOpen req (context_of config); SendResponse (code r)]
              ++ relayed (resp_headers r) ++ cors_headers config self
              ++ [EndHeaders] ++ calls (copy_body (fp r)))
             (outcome (copy_body (fp r)))
      end
  end.
Proof.
  unfold forward. fold (context_of config).
  destruct (build_request E self v) as [req|e]; [|reflexivity].
  rewrite (bind_returns (lift (Ok req)) _ req eq_refl). cbn [lift calls app].
  unfold urlopen_.
  destruct (urlopen E req (context_of config)) as [r|x]; [|reflexivity].
  rewrite (bind_returns (IO _ (Ok r)) _ r eq_refl).
  now rewrite send_cors_headers_eq, relay_headers_eq.
Qed.

Lemma handle_request_forwarding E config self v :
  forwarding E config self v -> handle_request E config self = relay E config self v.
Proof.
  intros (Hpath & Hauth & Htarget & Hne). unfold handle_request.
  rewrite Hpath, Hauth, Htarget. destruct v; [contradiction|].
  cbn. symmetry. apply io_eta.
Qed.

(** Calls that go to the client only. *)
Lemma client_only_no_urlopen (l : list call) req context :
  Forall (fun c => to_client c = true) l -> UrlOpen req context ∉ l.
Proof.
  intros Hall Hin. rewrite Forall_forall in Hall.
  apply Hall in Hin. discriminate.
Qed.

Lemma cors_headers_eq config self :
  cors_headers config self =
  match cors_origin config with
  | OriginStr s =>
      [SendHeader "Access-Control-Allow-Origin"
         (if String.eqb s "*" then default "*" (Headers.get (headers self) "Origin") else s)]
  | OriginList l =>
      if Py.mem (default "*" (Headers.get (headers self) "Origin")) l
      then [SendHeader "Access-Control-Allow-Origin"
              (default "*" (Headers.get (headers self) "Origin"))]
      else []
  end
  ++ [SendHeader "Access-Control-Allow-Methods" "GET, POST, PUT, DELETE, PATCH, OPTIONS, HEAD";
      SendHeader "Access-Control-Allow-Headers" "*";
      SendHeader "Access-Control-Allow-Credentials" "true";
      SendHeader "Access-Control-Max-Age" "86400"].
Proof.
  unfold cors_headers, send_cors_headers.
  destruct (cors_origin config) as [s|l].
  - now destruct (String.eqb s "*").
  - now destruct (Py.mem _ l).
Qed.

Lemma cors_headers_client config self :
  Forall (fun c => to_client c = true) (cors_headers config self).
Proof.
  rewrite cors_headers_eq. apply Forall_app. split.
  - destruct (cors_origin config) as [s|l]; [|destruct (Py.mem _ l)];
      repeat constructor.
  - repeat constructor.
Qed.

Lemma relayed_client h : Forall (fun c => to_client c = true) (relayed h).
Proof.
  unfold relayed. apply Forall_forall. intros c Hin.
  apply list_elem_of_fmap in Hin as ([k v] & -> & _). reflexivity.
Qed.

Lemma copy_body_client s : Forall (fun c => to_client c = true) (calls (copy_body s)).
Proof.
  destruct (copy_body_spec s) as (chunks & -> & _).
  apply Forall_forall. intros c Hin.
  apply list_elem_of_fmap in Hin as (chunk & -> & _). reflexivity.
Qed.

Lemma filter_client_only (l : list call) :
  Forall (fun c => to_client c = true) l -> List.filter to_client l = l.
Proof.
  induction 1 as [|c l Hc _ IH]; [reflexivity|].
  cbn. now rewrite Hc, IH.
Qed.

(** The four ways the [try] statement can go. *)
Lemma relay_eq E config self v :
  relay E config self v =
  match build_request E self v with
  | Raise e => on_exception config self e
  | Ok req =>
      match urlopen E req (context_of config) with
      | Raise (HTTPError r) =>
          IO (UrlOpen req (context_of config) :: calls (on_http_error config self r))
             (outcome (on_http_error config self r))
      | Raise (Exception e) =>
          IO (UrlOpen req (context_of config) :: calls (on_exception config self e)) (Ok tt)
      | Ok r =>
          IO (([UrlOpen req (context_of config); SendResponse (code r)]
               ++ relayed (resp_headers r) ++ cors_headers config self
               ++ [EndHeaders] ++ calls (copy_body (fp r)))
              ++ match fault (fp r) with
                 | Some e => calls (on_exception config self e)
                 | None => []
                 end)
             (Ok tt)
      end
  end.
Proof.
  unfold relay, try_except. rewrite forward_eq.
  destruct (build_request E self v) as [req|e]; cbn [outcome calls].
  - destruct (urlopen E req (context_of config)) as [r|[r|e]]; cbn [outcome calls].
    + destruct (copy_body_spec (fp r)) as (chunks & _ & _ & _ & ->).
      destruct (fault (fp r)) as [e|].
      * now rewrite on_exception_eq.
      * now rewrite app_nil_r.
    + reflexivity.
    + now rewrite on_exception_eq.
  - cbn [app]. symmetry. apply io_eta.
Qed.

Lemma relayed_spec h k v :
  SendHeader k v ∈ relayed h <->
  (k, v) ∈ h /\ Py.lower k <> "connection" /\ Py.lower k <> "transfer-encoding".
Proof.
  unfold relayed. rewrite list_elem_of_fmap. split.
  - intros ([k' v'] & [= <- <-] & Hin).
    apply list_elem_of_In, filter_In in Hin as [Hin Hkeep].
    split; [now apply list_elem_of_In|].
    unfold hop_headers, Py.mem in Hkeep. cbn in Hkeep.
    destruct (String.eqb_spec (Py.lower k) "connection"); [discriminate|].
    destruct (String.eqb_spec (Py.lower k) "transfer-encoding"); [discriminate|].
    done.
  - intros (Hin & Hc & Ht). exists (k, v). split; [reflexivity|].
    apply list_elem_of_In, filter_In. split; [now apply list_elem_of_In|].
    unfold hop_headers, Py.mem. cbn.
    destruct (String.eqb_spec (Py.lower k) "connection"); [contradiction|].
    destruct (String.eqb_spec (Py.lower k) "transfer-encoding"); [contradiction|].
    reflexivity.
Qed.

(** ** The relay *)

(** C3: when the upstream answers and its body arrives whole, the client
    is sent the status of the upstream, each of its headers but those named
    [connection] or [transfer-encoding] in any case, the CORS headers, and
    the body in pieces of at most 8192 bytes which, put together, are the
    bytes of the upstream; no piece waits for the whole body. *)
Theorem relay_success E config self v req r :
  forwarding E config self v ->
  build_request E self v = Ok req ->
  urlopen E req (context_of config) = Ok r ->
  fault (fp r) = None ->
  exists chunks,
    handle_request E config self =
      IO ([UrlOpen req (context_of config); SendResponse (code r)]
          ++ relayed (resp_headers r) ++ cors_headers config self
          ++ [EndHeaders] ++ map Write chunks)
         (Ok tt)
    /\ concat chunks = content (fp r)
    /\ Forall (fun chunk => chunk <> [] /\ (Z.of_nat (length chunk) <= 8192)%Z) chunks
    /\ forall k v, SendHeader k v ∈ relayed (resp_headers r) <->
                   (k, v) ∈ resp_headers r
                   /\ Py.lower k <> "connection" /\ Py.lower k <> "transfer-encoding".
Proof.
  intros Hfwd Hreq Hopen Hwhole.
  rewrite (handle_request_forwarding _ _ _ _ Hfwd), relay_eq, Hreq, Hopen, Hwhole.
  destruct (copy_body_spec (fp r)) as (chunks & -> & Hcat & Hall & _).
  exists chunks. rewrite app_nil_r.
  split; [reflexivity|]. split; [exact Hcat|]. split.
  - eapply Forall_impl; [exact Hall|].
    intros chunk [Hne Hlen]. split; [done|]. unfold CHUNK in Hlen. lia.
  - intros k w. apply relayed_spec.
Qed.

Ltac by_running := vm_compute; first [reflexivity | discriminate | congruence].

Lemma relay_success_witness :
  forwarding Sample.env Sample.guarded
    (Sample.via "http://example.test/foo") "http://example.test/foo"
  /\ build_request Sample.env (Sample.via "http://example.test/foo") "http://example.test/foo"
     = Ok (Sample.outbound "http://example.test/foo")
  /\ exists chunks,
       calls (handle_request Sample.env Sample.guarded (Sample.via "http://example.test/foo"))
       = [UrlOpen (Sample.outbound "http://example.test/foo") None; SendResponse 200;
          SendHeader "Content-Type" "text/plain";
          SendHeader "Set-Cookie" "a=1"; SendHeader "Set-Cookie" "b=2"]
         ++ cors_headers Sample.guarded (Sample.via "http://example.test/foo")
         ++ [EndHeaders] ++ map Write chunks
       /\ concat chunks = Py.to_bytes "hello".
Proof.
  assert (Hfwd : forwarding Sample.env Sample.guarded
                   (Sample.via "http://example.test/foo") "http://example.test/foo")
    by (repeat split; by_running).
  assert (Hreq : build_request Sample.env (Sample.via "http://example.test/foo")
                   "http://example.test/foo"
                 = Ok (Sample.outbound "http://example.test/foo")) by by_running.
  split; [exact Hfwd|]. split; [exact Hreq|].
  destruct (relay_success Sample.env Sample.guarded _ _ _ _ Hfwd Hreq eq_refl eq_refl)
    as (chunks & Hrun & Hcat & _).
  exists chunks. split; [now rewrite Hrun | exact Hcat].
Defined.



(** C6: when the outbound call fails otherwise, be it that the request
    cannot be made for the target or that [urlopen] raises anything but an
    HTTP error, the handler returns, and the client is sent status 500,
    [Content-Type: application/json], the CORS headers and the JSON object
    with ["error"] set to ["Proxy error"] and ["message"] to the text of the
    exception. *)
Theorem relay_failure E config self v e :
  forwarding E config self v ->
  build_request E self v = Raise e
  \/ (exists req, build_request E self v = Ok req
                  /\ urlopen E req (context_of config) = Raise (Exception e)) ->
  outcome (handle_request E config self) = Ok tt
  /\ List.filter to_client (calls (handle_request E config self)) =
     [SendResponse 500; SendHeader "Content-Type" "application/json"]
     ++ cors_headers config self
     ++ [EndHeaders;
         Write (Py.to_bytes (Json.dumps [("error", Json.JString "Proxy error");
                                         ("message", Json.JString (err_str e))]))]
  /\ Json.dumps [("error", Json.JString "Proxy error"); ("message", Json.JString (err_str e))]
     = "{" +:+ Py.quoted "error" +:+ ": " +:+ Py.quoted "Proxy error" +:+ ", "
       +:+ Py.quoted "message" +:+ ": " +:+ Json.encode_basestring_ascii (err_str e) +:+ "}".
Proof.
  intros Hfwd Hfail.
  assert (Hclient :
            Forall (fun c => to_client c = true) (calls (on_exception config self e))).
  { rewrite on_exception_eq. cbn [calls]. apply Forall_app. split; [repeat constructor|].
    apply Forall_app. split; [apply cors_headers_client | repeat constructor]. }
  rewrite (handle_request_forwarding _ _ _ _ Hfwd), relay_eq.
  destruct Hfail as [-> | (req & -> & ->)].
  - rewrite (filter_client_only _ Hclient), on_exception_eq. done.
  - cbn [calls outcome List.filter to_client].
    rewrite (filter_client_only _ Hclient), on_exception_eq. done.
Qed.

Lemma relay_failure_witness :
  forwarding Sample.env Sample.guarded
    (Sample.via "http://example.test/down") "http://example.test/down"
  /\ (exists req,
         build_request Sample.env (Sample.via "http://example.test/down")
           "http://example.test/down" = Ok req
         /\ urlopen Sample.env req (context_of Sample.guarded)
            = Raise (Exception Sample.refused))
  /\ outcome (handle_request Sample.env Sample.guarded (Sample.via "http://example.test/down"))
     = Ok tt
  /\ List.filter to_client
       (calls (handle_request Sample.env Sample.guarded (Sample.via "http://example.test/down")))
     = [SendResponse 500; SendHeader "Content-Type" "application/json"]
       ++ cors_headers Sample.guarded (Sample.via "http://example.test/down")
       ++ [EndHeaders;
           Write (Py.to_bytes
                    (Json.dumps [("error", Json.JString "Proxy error");
                                 ("message", Json.JString (err_str Sample.refused))]))].
Proof.
  assert (Hfwd : forwarding Sample.env Sample.guarded
                   (Sample.via "http://example.test/down") "http://example.test/down")
    by (repeat split; by_running).
  assert (Hfail : exists req,
             build_request Sample.env (Sample.via "http://example.test/down")
               "http://example.test/down" = Ok req
             /\ urlopen Sample.env req (context_of Sample.guarded)
                = Raise (Exception Sample.refused)).
  { exists (Sample.outbound "http://example.test/down"). split; by_running. }
  split; [exact Hfwd|]. split; [exact Hfail|].
  destruct (relay_failure Sample.env Sample.guarded _ _ Sample.refused Hfwd (or_intror Hfail))
    as (Hret & Hcalls & _).
  split; [exact Hret | exact Hcalls].
Defined.

(** A target without a scheme is one of these failures. *)
Example relay_failure_bad_url :
  handle_request Sample.env Sample.guarded (Sample.via "example.test/foo") =
  IO ([SendResponse 500; SendHeader "Content-Type" "application/json"]
      ++ cors_headers Sample.guarded (Sample.via "example.test/foo")
      ++ [EndHeaders;
          Write (Py.to_bytes
                   (Json.dumps [("error", Json.JString "Proxy error");
                                ("message",
                                 Json.JString "unknown url type: 'example.test/foo'")]))])
     (Ok tt).
Proof. vm_compute. reflexivity. Qed.

(** C2 does not hold of the code.  When a [read] fails after the status
    line, the headers and a part of the body have gone out, the
    [except Exception] clause of the same [try] sends a second status line
    and a second block of headers. *)
Theorem second_response_after_broken_body :
  List.filter is_status_line
    (calls (handle_request Sample.env Sample.guarded (Sample.via "http://example.test/broken")))
  = [SendResponse 200; SendResponse 500]
  /\ List.filter to_client
       (calls (handle_request Sample.env Sample.guarded (Sample.via "http://example.test/broken")))
     = [SendResponse 200; SendHeader "Content-Type" "text/plain"]
       ++ cors_headers Sample.guarded (Sample.via "http://example.test/broken")
       ++ [EndHeaders; Write (Py.to_bytes "part");
           SendResponse 500; SendHeader "Content-Type" "application/json"]
       ++ cors_headers Sample.guarded (Sample.via "http://example.test/broken")
       ++ [EndHeaders;
           Write (Py.to_bytes
                    (Json.dumps [("error", Json.JString "Proxy error");
                                 ("message", Json.JString (err_str Sample.reset))]))].
Proof. split; vm_compute; reflexivity. Qed.

(** The target is extracted before the [try]: a path that [urlparse]
    rejects ends the handler with the exception and without any answer. *)
Example no_response_on_rejected_path :
  handle_request Sample.env Sample.half_guarded (Sample.request "http://[x/" [])
  = IO [] (Raise (Exception (ValueError "Invalid IPv6 URL"))).
Proof. vm_compute. reflexivity. Qed.

(** The same in general: whenever the body of an answer breaks off, two
    status lines go out. *)
Lemma broken_body_two_status_lines E config self v req r e :
  forwarding E config self v ->
  build_request E self v = Ok req ->
  urlopen E req (context_of config) = Ok r ->
  fault (fp r) = Some e ->
  List.filter is_status_line (calls (handle_request E config self))
  = [SendResponse (code r); SendResponse 500].
Proof.
  intros Hfwd Hreq Hopen Hbroken.
  rewrite (handle_request_forwarding _ _ _ _ Hfwd), relay_eq, Hreq, Hopen, Hbroken.
  rewrite on_exception_eq. cbn [calls].
  assert (Hnone : forall l, Forall (fun c => is_status_line c = false) l ->
                            List.filter is_status_line l = []).
  { induction 1 as [|c l Hc _ IH]; [reflexivity|]. cbn. now rewrite Hc. }
  assert (Hcors : List.filter is_status_line (cors_headers config self) = []).
  { apply Hnone. rewrite cors_headers_eq. apply Forall_app. split.
    - destruct (cors_origin config) as [s|l]; [|destruct (Py.mem _ l)]; repeat constructor.
    - repeat constructor. }
  assert (Hrel : List.filter is_status_line (relayed (resp_headers r)) = []).
  { apply Hnone, Forall_forall. intros c Hin.
    apply list_elem_of_fmap in Hin as ([k w] & -> & _). reflexivity. }
  assert (Hbody : List.filter is_status_line (calls (copy_body (fp r))) = []).
  { apply Hnone, Forall_forall. intros c Hin.
    destruct (copy_body_spec (fp r)) as (chunks & Hcalls & _). rewrite Hcalls in Hin.
    apply list_elem_of_fmap in Hin as (chunk & -> & _). reflexivity. }
  rewrite !List.filter_app, Hcors, Hrel, Hbody. reflexivity.
Qed.

(** The handler, branch by branch. *)
Lemma handle_request_eq E config self :
  handle_request E config self =
  if String.eqb (path self) "/health" then
    IO ([SendResponse 200; SendHeader "Content-Type" "application/json"]
        ++ cors_headers config self
        ++ [EndHeaders;
            Write (Py.to_bytes (Json.dumps [("status", Json.JString "ok");
                                            ("version", Json.JString "1.0.0");
                                            ("uptime", Json.JFloat (uptime E))]))])
       (Ok tt)
  else if negb (check_auth config self) then
    IO ([SendResponse 401; SendHeader "WWW-Authenticate" ("Basic realm=" +:+ Py.quoted "Proxy")]
        ++ cors_headers config self
        ++ [EndHeaders; Write (Py.to_bytes "Unauthorized")])
       (Ok tt)
  else
    match target_of E self with
    | Raise e => IO [] (Raise (Exception e))
    | Ok None | Ok (Some EmptyString) =>
        IO ([SendResponse 400] ++ cors_headers config self
            ++ [EndHeaders;
                Write (Py.to_bytes
                         "Missing target URL. Use X-Target-URL header or ?url= parameter")])
           (Ok tt)
    | Ok (Some v) => relay E config self v
    end.
Proof.
  unfold handle_request. rewrite send_cors_headers_eq.
  destruct (String.eqb (path self) "/health"); [reflexivity|].
  destruct (negb (check_auth config self)); [reflexivity|].
  destruct (target_of E self) as [[[|c v]|]|e]; try reflexivity.
  cbn. symmetry. apply io_eta.
Qed.

Lemma build_request_spec E self v req :
  build_request E self v = Ok req ->
  full_url req = full_url_of v
  /\ method req = command self
  /\ (data req = None <-> Py.truthy (Headers.get (headers self) "Content-Length") = false)
  /\ req_headers req
     = match data req with
       | Some _ => delete "Content-length"
       | None => id
       end
         (req_headers (copy_headers (headers self)
                         (mkRequest (full_url_of v) (command self) ∅ None))).
Proof.
  unfold build_request, new_request.
  destruct (url_error E v); [discriminate|]. cbn.
  pose proof (copy_headers_keeps (headers self)
                (mkRequest (full_url_of v) (command self) ∅ None))
    as (Hurl & Hmethod & Hdata).
  destruct (Headers.get (headers self) "Content-Length") as [[|c cl]|].
  - intros [= <-]. now rewrite Hdata.
  - destruct (Int.int E (String c cl)) as [n|]; [|discriminate]. cbn.
    destruct (rfile self n) as [body|]; [|discriminate]. cbn.
    intros [= <-]. unfold set_data. rewrite Hdata.
    rewrite bool_decide_eq_true_2 by discriminate. cbn. now repeat split.
  - intros [= <-]. now rewrite Hdata.
Qed.

Arguments on_exception : simpl never.
Arguments on_http_error : simpl never.
Arguments relay : simpl never.

Ltac client_step :=
  first
    [ apply cors_headers_client | apply relayed_client | apply copy_body_client
    | assumption
    | exact I
    | apply List.Forall_nil
    | (apply List.Forall_cons; [reflexivity|])
    | (apply Forall_app; split) ].

Lemma on_exception_client config self e :
  Forall (fun c => to_client c = true) (calls (on_exception config self e)).
Proof. rewrite on_exception_eq. cbn [calls app]. repeat client_step. Qed.

Lemma on_http_error_client config self r :
  Forall (fun c => to_client c = true) (calls (on_http_error config self r)).
Proof.
  rewrite on_http_error_eq. cbn [calls app]. destruct (fault (fp r)); repeat client_step.
Qed.

Ltac client_only :=
  repeat first [ apply on_exception_client | apply on_http_error_client | client_step ].

Lemma urlopen_first (l : list call) req context req' context' :
  Forall (fun c => to_client c = true) l ->
  UrlOpen req context ∈ UrlOpen req' context' :: l ->
  req = req' /\ context = context'.
Proof.
  intros Hl [[= -> ->] | Hin]%elem_of_cons; [done|].
  now apply client_only_no_urlopen in Hin.
Qed.

Lemma relay_urlopen E config self v req context :
  UrlOpen req context ∈ calls (relay E config self v) ->
  build_request E self v = Ok req /\ context = context_of config.
Proof.
  pose proof (on_exception_client config self) as Hexc.
  rewrite relay_eq.
  destruct (build_request E self v) as [req'|e].
  2:{ intros Hin. now apply client_only_no_urlopen in Hin. }
  assert (Hfirst : forall l, Forall (fun c => to_client c = true) l ->
                             UrlOpen req context ∈ UrlOpen req' (context_of config) :: l ->
                             @Ok error Request req' = Ok req /\ context = context_of config).
  { intros l Hl Hin. apply (urlopen_first _ _ _ _ _ Hl) in Hin as [-> ->]. done. }
  destruct (urlopen E req' (context_of config)) as [r|[r|e]]; cbn [calls app].
  - apply Hfirst. destruct (fault (fp r)); client_only.
  - apply Hfirst, on_http_error_client.
  - apply Hfirst, Hexc.
Qed.

(** Every request that goes upstream was built by [build_request] for the
    target of the inbound request. *)
Lemma handle_request_urlopen E config self req context :
  UrlOpen req context ∈ calls (handle_request E config self) ->
  exists v, forwarding E config self v
            /\ build_request E self v = Ok req
            /\ context = context_of config.
Proof.
  pose proof (cors_headers_client config self) as Hcors.
  rewrite handle_request_eq. unfold forwarding.
  destruct (String.eqb (path self) "/health").
  { intros Hin. exfalso. revert Hin. apply client_only_no_urlopen.
    cbn [calls]. apply Forall_app. split; [repeat constructor|].
    apply Forall_app. split; [done | repeat constructor]. }
  destruct (check_auth config self); cbn [negb].
  2:{ intros Hin. exfalso. revert Hin. apply client_only_no_urlopen.
      cbn [calls]. apply Forall_app. split; [repeat constructor|].
      apply Forall_app. split; [done | repeat constructor]. }
  assert (H400 : UrlOpen req context ∉
                 [SendResponse 400] ++ cors_headers config self
                 ++ [EndHeaders;
                     Write (Py.to_bytes
                              "Missing target URL. Use X-Target-URL header or ?url= parameter")]).
  { apply client_only_no_urlopen.
    apply Forall_app. split; [repeat constructor|].
    apply Forall_app. split; [done | repeat constructor]. }
  destruct (target_of E self) as [[[|c v]|]|e]; cbn [calls]; try done.
  - intros Hin. exists (String c v). apply relay_urlopen in Hin as [Hreq ->]. done.
  - now intros Hin%elem_of_nil.
Qed.

(** ** The health check *)

(** C8: a request for [/health] is answered with status 200,
    [Content-Type: application/json], the CORS headers and the JSON object
    of [status], [version] and [uptime]; the access gate is not asked, so
    the answer is the same whatever credentials are configured and whatever
    the request carries. *)
Theorem health_check E config self :
  path self = "/health" ->
  handle_request E config self =
    IO ([SendResponse 200; SendHeader "Content-Type" "application/json"]
        ++ cors_headers config self
        ++ [EndHeaders;
            Write (Py.to_bytes (Json.dumps [("status", Json.JString "ok");
                                            ("version", Json.JString "1.0.0");
                                            ("uptime", Json.JFloat (uptime E))]))])
       (Ok tt)
  /\ Json.dumps [("status", Json.JString "ok"); ("version", Json.JString "1.0.0");
                 ("uptime", Json.JFloat (uptime E))]
     = "{" +:+ Py.quoted "status" +:+ ": " +:+ Py.quoted "ok" +:+ ", "
       +:+ Py.quoted "version" +:+ ": " +:+ Py.quoted "1.0.0" +:+ ", "
       +:+ Py.quoted "uptime" +:+ ": " +:+ uptime E +:+ "}".
Proof.
  intros Hpath. rewrite handle_request_eq, Hpath. split; reflexivity.
Qed.

Lemma health_check_witness :
  path (Sample.request "/health" [("Authorization", "Basic not-base64!!")]) = "/health"
  /\ check_auth Sample.guarded
       (Sample.request "/health" [("Authorization", "Basic not-base64!!")]) = false
  /\ handle_request Sample.env Sample.guarded
       (Sample.request "/health" [("Authorization", "Basic not-base64!!")])
     = IO ([SendResponse 200; SendHeader "Content-Type" "application/json"]
           ++ cors_headers Sample.guarded
                (Sample.request "/health" [("Authorization", "Basic not-base64!!")])
           ++ [EndHeaders;
               Write (Py.to_bytes
                        (Json.dumps [("status", Json.JString "ok");
                                     ("version", Json.JString "1.0.0");
                                     ("uptime", Json.JFloat "12.5")]))])
          (Ok tt).
Proof.
  split; [reflexivity|]. split; [by_running|].
  exact (proj1 (health_check Sample.env Sample.guarded
                  (Sample.request "/health" [("Authorization", "Basic not-base64!!")])
                  eq_refl)).
Defined.

(** ** The target of a request *)

Lemma first_value_elem name pairs v :
  UrlParse.first_value name pairs = Some v -> (name, v) ∈ pairs.
Proof.
  induction pairs as [|[k w] pairs IH]; [discriminate|]. cbn.
  destruct (String.eqb_spec k name) as [->|_].
  - intros [= ->]. apply list_elem_of_here.
  - intros H. apply list_elem_of_further. auto.
Qed.

Lemma codes_nil s : Py.codes s = [] -> s = "".
Proof. now destruct s. Qed.

Lemma of_codes_nil l : Py.of_codes l = "" -> l = [].
Proof. now destruct l. Qed.

Lemma scan_nonempty b : b <> [] -> Utf8.scan b <> [].
Proof.
  destruct b as [|ch b]; [contradiction|]. intros _. cbn.
  repeat case_match; discriminate.
Qed.

Lemma encode_cp_nonempty cp : Utf8.encode_cp cp <> [].
Proof. unfold Utf8.encode_cp. repeat case_match; discriminate. Qed.

Lemma decode_replace_nonempty b : b <> [] -> Utf8.decode_replace b <> "".
Proof.
  intros Hb Hempty. apply of_codes_nil in Hempty.
  pose proof (scan_nonempty b Hb) as Hscan.
  destruct (Utf8.scan b) as [|o items]; [contradiction|]. cbn in Hempty.
  apply app_eq_nil in Hempty as [Hcp _]. now apply encode_cp_nonempty in Hcp.
Qed.

Lemma unquote_to_bytes_nonempty l : l <> [] -> UrlParse.unquote_to_bytes l <> [].
Proof.
  destruct l as [|c r]; [contradiction|]. intros _. cbn.
  repeat case_match; discriminate.
Qed.

Lemma unquote_run_nonempty rev_run : rev_run <> [] -> UrlParse.unquote_run rev_run <> [].
Proof.
  intros Hrun Hempty. unfold UrlParse.unquote_run in Hempty.
  apply codes_nil in Hempty. revert Hempty.
  apply decode_replace_nonempty, unquote_to_bytes_nonempty.
  destruct rev_run as [|c run]; [contradiction|]. cbn. now destruct (rev run).
Qed.

Lemma unquote_runs_nonempty l rev_run :
  l <> [] \/ rev_run <> [] -> UrlParse.unquote_runs l rev_run <> [].
Proof.
  revert rev_run. induction l as [|c l IH]; intros rev_run Hne; cbn.
  - apply unquote_run_nonempty. now destruct Hne.
  - destruct (c <? 128)%N.
    + apply IH. now right.
    + now destruct (UrlParse.unquote_run rev_run).
Qed.

Lemma unquote_nonempty s : s <> "" -> UrlParse.unquote s <> "".
Proof.
  intros Hs. unfold UrlParse.unquote. destruct (negb (Py.contains "%" s)); [done|].
  intros Hempty%of_codes_nil. revert Hempty. apply unquote_runs_nonempty.
  left. now destruct s.
Qed.

Lemma replace_nonempty a b s : s <> "" -> UrlParse.replace a b s <> "".
Proof. now destruct s. Qed.

(** A parameter in the query never has an empty value. *)
Lemma parse_qsl_values qs k v : (k, v) ∈ UrlParse.parse_qsl qs -> v <> "".
Proof.
  unfold UrlParse.parse_qsl. rewrite list_elem_of_In, in_flat_map.
  intros (name_value & _ & Hin).
  destruct (Py.split1 "=" name_value) as [|name [|value [|? ?]]]; try done.
  destruct (String.eqb_spec value ""); cbn in Hin; [done|].
  destruct Hin as [[= <- <-]|[]].
  now apply unquote_nonempty, replace_nonempty.
Qed.

(** The URL of the request that goes upstream. *)
Lemma of_codes_codes s : Py.of_codes (Py.codes s) = s.
Proof.
  unfold Py.of_codes, Py.codes, Py.code. rewrite map_map.
  rewrite (map_ext _ id) by apply ascii_N_embedding.
  now rewrite map_id, string_of_list_ascii_of_string.
Qed.

Ltac no_space :=
  unfold Py.is_space1, Py.is_space2, Py.is_space3;
  repeat match goal with
         | |- context [N.leb ?a ?b] => destruct (N.leb_spec a b)
         | |- context [N.eqb ?a ?b] => destruct (N.eqb_spec a b)
         end;
  first [reflexivity | lia].

Lemma strip_front_forwards c l :
  (33 <=? c)%N = true -> (c <=? 126)%N = true ->
  Py.strip_front false (c :: l) = c :: l.
Proof.
  intros Hlo%N.leb_le Hhi%N.leb_le. cbn [Py.strip_front].
  assert (Py.is_space1 c = false) as -> by no_space.
  destruct l as [|c2 l]; [reflexivity|].
  assert (Py.is_space2 c c2 = false) as -> by no_space.
  destruct l as [|c3 l]; [reflexivity|].
  assert (Py.is_space3 c c2 c3 = false) as -> by no_space.
  reflexivity.
Qed.

Lemma strip_front_backwards c l :
  (33 <=? c)%N = true -> (c <=? 126)%N = true ->
  Py.strip_front true (c :: l) = c :: l.
Proof.
  intros Hlo%N.leb_le Hhi%N.leb_le. cbn [Py.strip_front].
  assert (Py.is_space1 c = false) as -> by no_space.
  destruct l as [|c2 l]; [reflexivity|].
  assert (Py.is_space2 c2 c = false) as -> by no_space.
  destruct l as [|c3 l]; [reflexivity|].
  assert (Py.is_space3 c3 c2 c = false) as -> by no_space.
  reflexivity.
Qed.

Lemma rcut_empty_tag sep s a :
  Py.rcut sep s = Some (a, EmptyString) ->
  exists l, rev (list_ascii_of_string s) = sep :: l.
Proof.
  revert a. induction s as [|c s IH]; intros a; [discriminate|]. cbn [Py.rcut].
  destruct (Py.rcut sep s) as [[a' b']|] eqn:Hcut.
  - intros [= <- ->]. destruct (IH a' eq_refl) as (l & Hl).
    exists (l ++ [c]). cbn. now rewrite Hl.
  - destruct (Ascii.eqb_spec c sep) as [->|_]; [|discriminate].
    intros [= <- ->]. now exists [].
Qed.

Lemma full_url_of_plain v : plain_target v = true -> full_url_of v = v.
Proof.
  unfold plain_target.
  destruct (list_ascii_of_string v) as [|c l] eqn:Hv; [discriminate|].
  destruct (rev (c :: l)) as [|d l'] eqn:Hrev; [discriminate|].
  rewrite !andb_true_iff, !negb_true_iff.
  intros ((((((Hc1 & Hc2) & Hlt) & Hurl) & Hd1) & Hd2) & Hhash).
  assert (Hstrip : Py.strip v = v).
  { unfold Py.strip, Py.codes. rewrite Hv. cbn [map].
    rewrite strip_front_forwards by assumption.
    change (Py.code c :: map Py.code l) with (map Py.code (c :: l)).
    rewrite <- map_rev, Hrev. cbn [map].
    rewrite strip_front_backwards by assumption.
    change (Py.code d :: map Py.code l') with (map Py.code (d :: l')).
    rewrite <- Hrev, map_rev, rev_involutive, <- Hv. apply of_codes_codes. }
  assert (Hunwrap : UrlParse.unwrap v = v).
  { assert (Hopen : String.eqb (Py.slice_to 1 v) "<" = false).
    { unfold Py.slice_to. rewrite Hv. cbn. now rewrite Hlt. }
    unfold UrlParse.unwrap. cbv zeta. rewrite Hstrip, Hopen. cbn [andb].
    now rewrite Hurl. }
  unfold full_url_of. rewrite Hunwrap.
  destruct (Py.rcut "#" v) as [[a [|? ?]]|] eqn:Hcut; try reflexivity.
  apply rcut_empty_tag in Hcut as (l0 & Hl0). rewrite Hv, Hrev in Hl0.
  injection Hl0 as -> _. now rewrite Ascii.eqb_refl in Hhash.
Qed.

(** C4, as the code has it: for a request past the health check and the
    gate, the target is the value of [X-Target-URL] when that header has a
    non-empty value, whether or not the path has a [url] parameter;
    otherwise, when the path parses, it is the first non-blank [url]
    parameter of the query, unquoted; when there is none, the answer is
    status 400 with the CORS headers and the text [Missing target URL. Use
    X-Target-URL header or ?url= parameter], and nothing goes upstream.
    What goes upstream for a target is addressed to the URL that the
    request object of [urllib] makes of it: to the target itself when the
    target is a plain one, and in general to the target without the white
    space around it, an enclosing [<...>], a leading [URL:] and an empty
    fragment. *)
Theorem target_resolution E config self :
  String.eqb (path self) "/health" = false ->
  check_auth config self = true ->
  let header := Headers.get (headers self) "X-Target-URL" in
  (forall v, header = Some v -> v <> "" ->
             handle_request E config self = relay E config self v)
  /\ (forall query v,
         Py.truthy header = false ->
         UrlParse.query_of E (path self) = Ok query ->
         UrlParse.first_value "url" (UrlParse.parse_qsl query) = Some v ->
         handle_request E config self = relay E config self v)
  /\ (forall query,
         Py.truthy header = false ->
         UrlParse.query_of E (path self) = Ok query ->
         UrlParse.first_value "url" (UrlParse.parse_qsl query) = None ->
         handle_request E config self =
           IO ([SendResponse 400] ++ cors_headers config self
               ++ [EndHeaders;
                   Write (Py.to_bytes
                            "Missing target URL. Use X-Target-URL header or ?url= parameter")])
              (Ok tt)
         /\ forall req context, UrlOpen req context ∉ calls (handle_request E config self))
  /\ (forall v req context,
         UrlOpen req context ∈ calls (relay E config self v) ->
         full_url req = full_url_of v
         /\ (plain_target v = true -> full_url req = v)
         /\ method req = command self).
Proof.
  intros Hpath Hauth header.
  assert (Hrelay : forall v, target_of E self = Ok (Some v) -> v <> "" ->
                             handle_request E config self = relay E config self v).
  { intros v Htarget Hne. now apply handle_request_forwarding. }
  split; [|split; [|split]].
  - intros v Hv Hne. apply Hrelay; [|done].
    unfold target_of. fold header. rewrite Hv. now destruct v.
  - intros query v Hheader Hquery Hfirst. apply Hrelay.
    + unfold target_of. fold header. rewrite Hheader, Hquery. cbn. now rewrite Hfirst.
    + eapply parse_qsl_values, first_value_elem, Hfirst.
  - intros query Hheader Hquery Hfirst.
    assert (Htarget : target_of E self = Ok None).
    { unfold target_of. fold header. rewrite Hheader, Hquery. cbn. now rewrite Hfirst. }
    split.
    + now rewrite handle_request_eq, Hpath, Hauth, Htarget.
    + intros req context (v & (_ & _ & Hv & _) & _)%handle_request_urlopen. congruence.
  - intros v req context [Hreq _]%relay_urlopen.
    apply build_request_spec in Hreq as (Hurl & Hmethod & _).
    split; [done|]. split; [|done].
    intros Hplain. now rewrite Hurl, full_url_of_plain.
Qed.

Lemma target_resolution_witness :
  String.eqb (path (Sample.request "/proxy?url=http://example.test/bar"
                      [("X-Target-URL", "http://example.test/foo")])) "/health" = false
  /\ check_auth Sample.half_guarded
       (Sample.request "/proxy?url=http://example.test/bar"
          [("X-Target-URL", "http://example.test/foo")]) = true
  /\ handle_request Sample.env Sample.half_guarded
       (Sample.request "/proxy?url=http://example.test/bar"
          [("X-Target-URL", "http://example.test/foo")])
     = relay Sample.env Sample.half_guarded
         (Sample.request "/proxy?url=http://example.test/bar"
            [("X-Target-URL", "http://example.test/foo")])
         "http://example.test/foo".
Proof.
  split; [reflexivity|]. split; [reflexivity|].
  assert (Hne : "http://example.test/foo" <> "") by discriminate.
  exact (proj1 (target_resolution Sample.env Sample.half_guarded
                  (Sample.request "/proxy?url=http://example.test/bar"
                     [("X-Target-URL", "http://example.test/foo")])
                  eq_refl eq_refl)
               "http://example.test/foo" eq_refl Hne).
Defined.

Example target_from_query :
  List.filter (fun c => negb (to_client c))
    (calls (handle_request Sample.env Sample.half_guarded
              (Sample.request "/proxy?url=http%3A%2F%2Fexample.test%2Fbar" [])))
  = [UrlOpen (mkRequest "http://example.test/bar" "GET" ∅ None) None].
Proof. vm_compute. reflexivity. Qed.

(** A target in angle brackets: the request object takes them off. *)
Example target_unwrapped :
  List.filter (fun c => negb (to_client c))
    (calls (handle_request Sample.env Sample.half_guarded
              (Sample.request "/proxy" [("X-Target-URL", " <URL:http://example.test/bar#> ")])))
  = [UrlOpen (mkRequest "http://example.test/bar" "GET" ∅ None) None].
Proof. vm_compute. reflexivity. Qed.

Example target_missing :
  handle_request Sample.env Sample.half_guarded (Sample.request "/proxy?x=1&url=" [])
  = IO ([SendResponse 400]
        ++ cors_headers Sample.half_guarded (Sample.request "/proxy?x=1&url=" [])
        ++ [EndHeaders;
            Write (Py.to_bytes
                     "Missing target URL. Use X-Target-URL header or ?url= parameter")])
       (Ok tt).
Proof. vm_compute. reflexivity. Qed.

(** C4 as it is worded fails on a header that is present and empty: the
    value of the header is not the target, the [url] parameter is. *)
Lemma target_header_present_fails :
  ~ (forall E config self v req context,
        String.eqb (path self) "/health" = false ->
        check_auth config self = true ->
        Headers.get (headers self) "X-Target-URL" = Some v ->
        UrlOpen req context ∈ calls (handle_request E config self) ->
        full_url req = full_url_of v).
Proof.
  intros H.
  specialize (H Sample.env Sample.half_guarded
                (Sample.request "/proxy?url=http://example.test/bar" [("X-Target-URL", "")])
                "" (mkRequest "http://example.test/bar" "GET" ∅ None) None
                eq_refl eq_refl eq_refl).
  assert (Hin : UrlOpen (mkRequest "http://example.test/bar" "GET" ∅ None) None
                ∈ calls (handle_request Sample.env Sample.half_guarded
                           (Sample.request "/proxy?url=http://example.test/bar"
                              [("X-Target-URL", "")]))).
  { vm_compute. apply list_elem_of_here. }
  apply H in Hin. discriminate.
Qed.

(** ** What is forwarded *)

(** The headers of a request that goes upstream. *)
Lemma outbound_lookup E config self req context k v :
  UrlOpen req context ∈ calls (handle_request E config self) ->
  req_headers req !! k = Some v <->
  (k = "Content-length" -> data req = None)
  /\ exists hs1 h hs2,
       headers self = hs1 ++ (h, v) :: hs2
       /\ Py.capitalize h = k
       /\ (Py.lower h ∉ skip_headers)
       /\ forall h' v', (h', v') ∈ hs2 -> Py.capitalize h' <> k.
Proof.
  intros (target & _ & Hreq & _)%handle_request_urlopen.
  apply build_request_spec in Hreq as (_ & _ & _ & ->).
  rewrite <- (copy_headers_lookup (headers self)
                (mkRequest (full_url_of target) (command self) ∅ None) k v eq_refl).
  destruct (data req) as [body|]; cbn [id].
  - rewrite lookup_delete_Some. split.
    + intros [Hk Hv]. split; [|done]. intros ->. contradiction.
    + intros [Hk Hv]. split; [|done]. intros <-. now specialize (Hk eq_refl).
  - tauto.
Qed.

Lemma skip_headers_names name :
  name ∈ skip_headers <->
  name ∈ ["host"; "connection"; "proxy-authorization"; "x-target-url"; "origin"; "referer"].
Proof.
  unfold skip_headers.
  rewrite !elem_of_union, !elem_of_singleton, !elem_of_cons, elem_of_nil. tauto.
Qed.

(** Among the headers of one name there is a last one. *)
Lemma last_of_name (hs : list (string * string)) k :
  (exists h v, (h, v) ∈ hs /\ Py.capitalize h = k) ->
  exists hs1 h1 v1 hs2,
    hs = hs1 ++ (h1, v1) :: hs2
    /\ Py.capitalize h1 = k
    /\ forall h' v', (h', v') ∈ hs2 -> Py.capitalize h' <> k.
Proof.
  induction hs as [|[h0 v0] hs IH] using rev_ind.
  - intros (h & v & Hin & _). now apply elem_of_nil in Hin.
  - intros (h & v & Hin & Hcap).
    destruct (decide (Py.capitalize h0 = k)) as [Hlast | Hnot].
    + exists hs, h0, v0, []. repeat split; [done|].
      intros h' v' Hin'. now apply elem_of_nil in Hin'.
    + apply elem_of_app in Hin as [Hin | Hin%list_elem_of_singleton].
      * destruct IH as (hs1 & h1 & v1 & hs2 & -> & Hcap1 & Hlater); [eauto|].
        exists hs1, h1, v1, (hs2 ++ [(h0, v0)]). repeat split; [|done|].
        -- now rewrite <- app_assoc.
        -- intros h' v' [Hin' | Hin'%list_elem_of_singleton]%elem_of_app; [eauto|].
           now injection Hin' as -> ->.
      * injection Hin as -> ->. contradiction.
Qed.

(** A header that is not skipped and whose name carries one value only
    goes upstream with that value, unless it is the [Content-Length] of a
    request with a body. *)
Lemma outbound_once E config self req context h v :
  UrlOpen req context ∈ calls (handle_request E config self) ->
  (h, v) ∈ headers self -> Py.lower h ∉ skip_headers ->
  (Py.lower h = "content-length" -> data req = None) ->
  (forall h' v', (h', v') ∈ headers self -> Py.lower h' = Py.lower h -> v' = v) ->
  req_headers req !! Py.capitalize h = Some v.
Proof.
  intros Hopen Hin Hh Hlength Hsame.
  destruct (last_of_name (headers self) (Py.capitalize h))
    as (hs1 & h1 & v1 & hs2 & Heq & Hcap & Hlater); [eauto|].
  apply capitalize_eq_iff in Hcap as Hlow.
  assert (v1 = v) as ->.
  { apply (Hsame h1); [|done]. rewrite Heq. apply elem_of_app. right.
    apply list_elem_of_here. }
  apply (outbound_lookup E config self req context); [done|].
  split.
  - intros Hk. apply Hlength. now apply (capitalize_eq_iff h "content-length").
  - exists hs1, h1, hs2. repeat split; try done.
    now rewrite Hlow.
Qed.

(** C1, as the code has it, on the request object that the handler hands
    to [urlopen]: it has no header whose name is, in any case, one of
    [host], [connection], [proxy-authorization], [x-target-url], [origin]
    and [referer]; each other name the client sent is there once,
    capitalised, with the value of the last header of that name, and
    nothing else is there.  A header sent once keeps its value; of a header
    sent several times the last value is kept.  One header is taken off
    again: when a body is attached, which is when the first
    [Content-Length] of the client is not empty, the request object has no
    [Content-length] any more. *)
Theorem outbound_headers E config self req context :
  UrlOpen req context ∈ calls (handle_request E config self) ->
  let skip :=
    ["host"; "connection"; "proxy-authorization"; "x-target-url"; "origin"; "referer"] in
  (forall k, is_Some (req_headers req !! k) -> Py.lower k ∉ skip)
  /\ (data req = None <-> Py.truthy (Headers.get (headers self) "Content-Length") = false)
  /\ (data req <> None -> req_headers req !! "Content-length" = None)
  /\ (forall k v,
         req_headers req !! k = Some v <->
         (k = "Content-length" -> data req = None)
         /\ exists hs1 h hs2,
              headers self = hs1 ++ (h, v) :: hs2
              /\ Py.capitalize h = k
              /\ (Py.lower h ∉ skip)
              /\ forall h' v', (h', v') ∈ hs2 -> Py.capitalize h' <> k)
  /\ (forall h v,
         (h, v) ∈ headers self -> Py.lower h ∉ skip ->
         (Py.lower h = "content-length" -> data req = None) ->
         (forall h' v', (h', v') ∈ headers self -> Py.lower h' = Py.lower h -> v' = v) ->
         req_headers req !! Py.capitalize h = Some v).
Proof.
  intros Hopen skip.
  pose proof (outbound_lookup E config self req context) as Hlookup.
  assert (Hskip : forall name, name ∉ skip <-> name ∉ skip_headers).
  { intros name. unfold skip. now rewrite skip_headers_names. }
  split; [|split; [|split; [|split]]].
  - intros k [v Hk]. apply Hlookup in Hk as (_ & hs1 & h & hs2 & _ & <- & Hh & _); [|done].
    rewrite lower_capitalize. now apply Hskip.
  - apply handle_request_urlopen in Hopen as (v & _ & Hreq & _).
    now apply build_request_spec in Hreq as (_ & _ & Hdata & _).
  - intros Hbody. destruct (req_headers req !! "Content-length") as [v|] eqn:Hk; [|done].
    apply Hlookup in Hk as [Hnone _]; [|done]. now specialize (Hnone eq_refl).
  - intros k v. rewrite (Hlookup k v Hopen).
    split; intros (Hk & hs1 & h & hs2 & Heq & Hcap & Hh & Hlater);
      (split; [done|]); exists hs1, h, hs2; repeat split; try done; now apply Hskip.
  - intros h v Hin Hh. apply (outbound_once E config self req context); [done..|].
    now apply Hskip.
Qed.

Lemma outbound_headers_witness :
  UrlOpen (Sample.outbound "http://example.test/foo") None
    ∈ calls (handle_request Sample.env Sample.guarded (Sample.via "http://example.test/foo"))
  /\ (forall k, is_Some (req_headers (Sample.outbound "http://example.test/foo") !! k) ->
                Py.lower k ∉ ["host"; "connection"; "proxy-authorization"; "x-target-url";
                              "origin"; "referer"])
  /\ req_headers (Sample.outbound "http://example.test/foo") !! Py.capitalize "X-Api-Key"
     = Some "k1".
Proof.
  assert (Hopen : UrlOpen (Sample.outbound "http://example.test/foo") None
                    ∈ calls (handle_request Sample.env Sample.guarded
                               (Sample.via "http://example.test/foo"))).
  { vm_compute. apply list_elem_of_here. }
  split; [exact Hopen|].
  destruct (outbound_headers Sample.env Sample.guarded _ _ _ Hopen) as (Hskip & _).
  split; [exact Hskip | reflexivity].
Defined.

(** A request with a body: the [Content-Length] of the client is not on
    the request object, the other headers are. *)
Example outbound_content_length_dropped :
  List.filter (fun c => negb (to_client c))
    (calls (handle_request Sample.env Sample.half_guarded
              (Sample.post "/proxy"
                 [("X-Target-URL", "http://example.test/foo");
                  ("Content-Type", "text/plain"); ("Content-Length", "5")]
                 "hello")))
  = [UrlOpen (mkRequest "http://example.test/foo" "POST"
                {[ "Content-type" := "text/plain" ]} (Some (Py.to_bytes "hello"))) None].
Proof. vm_compute. reflexivity. Qed.

(** C1 as it is worded fails on a header sent twice: the earlier value
    does not go upstream. *)
Lemma outbound_multi_value_fails :
  ~ (forall E config self req context h v,
        UrlOpen req context ∈ calls (handle_request E config self) ->
        (h, v) ∈ headers self -> Py.lower h ∉ skip_headers ->
        exists k, Py.lower k = Py.lower h /\ req_headers req !! k = Some v).
Proof.
  intros H.
  destruct (H Sample.env Sample.half_guarded
              (Sample.request "/proxy"
                 [("X-Target-URL", "http://example.test/foo");
                  ("Accept", "text/html"); ("Accept", "application/json")])
              (mkRequest "http://example.test/foo" "GET"
                 {[ "Accept" := "application/json" ]} None)
              None "Accept" "text/html")
    as (k & _ & Hk).
  - vm_compute. apply list_elem_of_here.
  - apply list_elem_of_further, list_elem_of_here.
  - compute_done.
  - cbn [req_headers] in Hk. apply lookup_singleton_Some in Hk as [_ [=]].
Qed.

Lemma get_elem hs name v :
  Headers.get hs name = Some v -> exists k, (k, v) ∈ hs /\ Py.lower k = Py.lower name.
Proof.
  induction hs as [|[k w] hs IH]; [discriminate|]. cbn.
  destruct (String.eqb_spec (Py.lower k) (Py.lower name)) as [Heq|_].
  - intros [= ->]. exists k. split; [apply list_elem_of_here | done].
  - intros (k' & Hin & Hk')%IH. exists k'. split; [now apply list_elem_of_further | done].
Qed.

Lemma capitalize_authorization h :
  Py.capitalize h = "Authorization" <-> Py.lower h = "authorization".
Proof. apply (capitalize_eq_iff h "authorization"). Qed.

(** C10, as the code has it: [authorization] is not a skipped name, so a
    request that goes upstream carries a header [Authorization] whenever the
    inbound request has one, with the value of the last such header; that is
    the value of the inbound header when there is one only.  Nothing else is
    sent under that name. *)
Theorem authorization_forwarded E config self req context :
  UrlOpen req context ∈ calls (handle_request E config self) ->
  ("authorization" ∉ skip_headers)
  /\ (forall hs1 h v hs2,
         headers self = hs1 ++ (h, v) :: hs2 ->
         Py.lower h = "authorization" ->
         (forall h' v', (h', v') ∈ hs2 -> Py.lower h' <> "authorization") ->
         req_headers req !! "Authorization" = Some v)
  /\ (forall v,
         Headers.get (headers self) "Authorization" = Some v ->
         (forall h' v', (h', v') ∈ headers self -> Py.lower h' = "authorization" -> v' = v) ->
         req_headers req !! "Authorization" = Some v)
  /\ (forall v,
         req_headers req !! "Authorization" = Some v ->
         exists h, (h, v) ∈ headers self /\ Py.lower h = "authorization").
Proof.
  intros Hopen.
  pose proof (fun k v => outbound_lookup E config self req context k v Hopen) as Hlookup.
  pose proof (fun h v => outbound_once E config self req context h v Hopen) as Honce.
  assert (Hkept : "authorization" ∉ skip_headers) by compute_done.
  split; [exact Hkept|]. split; [|split].
  - intros hs1 h v hs2 Heq Hh Hlater. apply Hlookup.
    split; [discriminate|].
    exists hs1, h, hs2. repeat split; try done.
    + now apply capitalize_authorization.
    + now rewrite Hh.
    + intros h' v' Hin Hcap. apply (Hlater h' v' Hin). now apply capitalize_authorization.
  - intros v (h & Hin & Hh)%get_elem Hsame. cbn in Hh.
    apply capitalize_authorization in Hh as Hcap. rewrite <- Hcap.
    apply Honce; [done | now rewrite Hh | rewrite Hh; discriminate |].
    intros h' v' Hin' Hh'. apply (Hsame h' v' Hin'). now rewrite Hh'.
  - intros v (_ & hs1 & h & hs2 & Heq & Hcap & _)%Hlookup. exists h. split.
    + rewrite Heq. apply elem_of_app. right. apply list_elem_of_here.
    + now apply capitalize_authorization.
Qed.

Lemma authorization_forwarded_witness :
  UrlOpen (Sample.outbound "http://example.test/foo") None
    ∈ calls (handle_request Sample.env Sample.guarded (Sample.via "http://example.test/foo"))
  /\ Headers.get (headers (Sample.via "http://example.test/foo")) "Authorization"
     = Some Sample.alice
  /\ req_headers (Sample.outbound "http://example.test/foo") !! "Authorization"
     = Some Sample.alice.
Proof.
  assert (Hopen : UrlOpen (Sample.outbound "http://example.test/foo") None
                    ∈ calls (handle_request Sample.env Sample.guarded
                               (Sample.via "http://example.test/foo"))).
  { vm_compute. apply list_elem_of_here. }
  split; [exact Hopen|]. split; [reflexivity|].
  destruct (authorization_forwarded Sample.env Sample.guarded _ _ _ Hopen)
    as (_ & Hlast & _ & _).
  apply (Hlast [] "Authorization" Sample.alice
           [("X-Target-URL", "http://example.test/foo"); ("X-Api-Key", "k1");
            ("Host", "proxy.test")]); [reflexivity | reflexivity |].
  intros h' v' Hin.
  repeat (apply elem_of_cons in Hin as [[= -> ->] | Hin]; [discriminate|]).
  now apply elem_of_nil in Hin.
Defined.

(** C10 as it is worded fails on a request with two [Authorization]
    headers: the proxy lets the request in on the first, and the upstream is
    sent the second. *)
Lemma authorization_first_fails :
  ~ (forall E config self req context v,
        UrlOpen req context ∈ calls (handle_request E config self) ->
        Headers.get (headers self) "Authorization" = Some v ->
        req_headers req !! "Authorization" = Some v).
Proof.
  intros H.
  specialize (H Sample.env Sample.guarded
                (Sample.request "/proxy"
                   [("Authorization", Sample.alice);
                    ("Authorization", "Basic b3RoZXI6cGFzcw==");
                    ("X-Target-URL", "http://example.test/foo")])
                (mkRequest "http://example.test/foo" "GET"
                   {[ "Authorization" := "Basic b3RoZXI6cGFzcw==" ]} None)
                None Sample.alice).
  cbn [req_headers] in H. rewrite lookup_singleton_eq in H.
  assert (Hno : Some "Basic b3RoZXI6cGFzcw==" <> Some Sample.alice) by discriminate.
  apply Hno, H; [|reflexivity].
  vm_compute. apply list_elem_of_here.
Qed.

(** * Further properties of the handler *)

Lemma no_status_line (l : list call) :
  Forall (fun c => is_status_line c = false) l -> List.filter is_status_line l = [].
Proof. induction 1 as [|c l Hc _ IH]; [reflexivity|]. cbn. now rewrite Hc. Qed.

Lemma cors_headers_are_headers config self :
  Forall (fun c => exists k v, c = SendHeader k v) (cors_headers config self).
Proof.
  rewrite cors_headers_eq. apply Forall_app. split.
  - destruct (cors_origin config) as [s|l]; [|destruct (Py.mem _ l)];
      repeat constructor; eauto.
  - repeat constructor; eauto.
Qed.

Lemma relayed_are_headers h : Forall (fun c => exists k v, c = SendHeader k v) (relayed h).
Proof.
  unfold relayed. apply Forall_forall. intros c Hin.
  apply list_elem_of_fmap in Hin as ([k v] & -> & _). eauto.
Qed.

Lemma copy_body_are_writes s :
  Forall (fun c => exists chunk, c = Write chunk) (calls (copy_body s)).
Proof.
  destruct (copy_body_spec s) as (chunks & -> & _).
  apply Forall_forall. intros c Hin.
  apply list_elem_of_fmap in Hin as (chunk & -> & _). eauto.
Qed.

Lemma headers_no_status_line (l : list call) :
  Forall (fun c => exists k v, c = SendHeader k v) l -> List.filter is_status_line l = [].
Proof.
  intros H. apply no_status_line. eapply Forall_impl; [exact H|].
  now intros c (k & v & ->).
Qed.

Lemma writes_no_status_line (l : list call) :
  Forall (fun c => exists chunk, c = Write chunk) l -> List.filter is_status_line l = [].
Proof.
  intros H. apply no_status_line. eapply Forall_impl; [exact H|].
  now intros c (chunk & ->).
Qed.

(** The status lines of a relay: that of the upstream or 500, and both when
    the body of an answer breaks off. *)
Lemma relay_status_lines E config self v :
  List.filter is_status_line (calls (relay E config self v)) =
  match build_request E self v with
  | Raise _ => [SendResponse 500]
  | Ok req =>
      match urlopen E req (context_of config) with
      | Raise (HTTPError r) => [SendResponse (code r)]
      | Raise (Exception _) => [SendResponse 500]
      | Ok r =>
          match fault (fp r) with
          | Some _ => [SendResponse (code r); SendResponse 500]
          | None => [SendResponse (code r)]
          end
      end
  end.
Proof.
  pose proof (headers_no_status_line _ (cors_headers_are_headers config self)) as Hcors.
  assert (Hexc : forall e, List.filter is_status_line (calls (on_exception config self e))
                           = [SendResponse 500]).
  { intros e. rewrite on_exception_eq. cbn [calls].
    rewrite !List.filter_app, Hcors. reflexivity. }
  rewrite relay_eq.
  destruct (build_request E self v) as [req|e]; [|apply Hexc].
  destruct (urlopen E req (context_of config)) as [r|[r|e]]; cbn [calls].
  - rewrite !List.filter_app, Hcors,
      (headers_no_status_line _ (relayed_are_headers _)),
      (writes_no_status_line _ (copy_body_are_writes _)).
    destruct (fault (fp r)); [now rewrite Hexc | reflexivity].
  - rewrite on_http_error_eq. cbn [calls].
    change (List.filter is_status_line (UrlOpen req (context_of config) :: ?l))
      with (List.filter is_status_line l).
    rewrite !List.filter_app, Hcors, (headers_no_status_line _ (relayed_are_headers _)).
    now destruct (fault (fp r)).
  - cbn [List.filter is_status_line]. apply Hexc.
Qed.

(** X1: a request that does not pass the gate is answered 401 with the
    challenge [Basic realm="Proxy"], the CORS headers and the text
    [Unauthorized]; nothing goes upstream for it. *)
Theorem unauthorized_response E config self :
  String.eqb (path self) "/health" = false ->
  check_auth config self = false ->
  handle_request E config self =
    IO ([SendResponse 401;
         SendHeader "WWW-Authenticate" ("Basic realm=" +:+ Py.quoted "Proxy")]
        ++ cors_headers config self
        ++ [EndHeaders; Write (Py.to_bytes "Unauthorized")])
       (Ok tt)
  /\ forall req context, UrlOpen req context ∉ calls (handle_request E config self).
Proof.
  intros Hpath Hauth. split.
  - now rewrite handle_request_eq, Hpath, Hauth.
  - intros req context (v & (_ & Hyes & _) & _)%handle_request_urlopen. congruence.
Qed.

Lemma unauthorized_response_witness :
  String.eqb (path (Sample.request "/health/" [("X-Target-URL", "http://example.test/foo")]))
    "/health" = false
  /\ check_auth Sample.guarded
       (Sample.request "/health/" [("X-Target-URL", "http://example.test/foo")]) = false
  /\ List.filter is_status_line
       (calls (handle_request Sample.env Sample.guarded
                 (Sample.request "/health/" [("X-Target-URL", "http://example.test/foo")])))
     = [SendResponse 401].
Proof.
  split; [reflexivity|]. split; [reflexivity|].
  destruct (unauthorized_response Sample.env Sample.guarded
              (Sample.request "/health/" [("X-Target-URL", "http://example.test/foo")])
              eq_refl eq_refl) as [-> _].
  reflexivity.
Defined.

Lemma client_only_no_upstream (l : list call) :
  Forall (fun c => to_client c = true) l -> List.filter is_urlopen l = [].
Proof.
  induction 1 as [|c l Hc _ IH]; [reflexivity|].
  cbn. unfold is_urlopen at 1. now rewrite Hc.
Qed.

(** X2: one request makes the proxy call the upstream once at most, and
    only when the request has passed the gate and has a target; the call
    carries the method of the request and goes to the URL that the request
    object of [urllib] makes of the target. *)
Theorem upstream_calls E config self :
  (length (List.filter is_urlopen (calls (handle_request E config self))) <= 1)%nat
  /\ forall req context,
       UrlOpen req context ∈ calls (handle_request E config self) ->
       String.eqb (path self) "/health" = false
       /\ check_auth config self = true
       /\ (exists v, target_of E self = Ok (Some v) /\ v <> ""
                     /\ full_url req = full_url_of v)
       /\ method req = command self
       /\ context = context_of config.
Proof.
  split.
  - pose proof (cors_headers_client config self) as Hcors.
    rewrite handle_request_eq.
    destruct (String.eqb (path self) "/health");
      [cbn [calls]; rewrite client_only_no_upstream; [cbn; lia | client_only]|].
    destruct (negb (check_auth config self));
      [cbn [calls]; rewrite client_only_no_upstream; [cbn; lia | client_only]|].
    destruct (target_of E self) as [[[|c v]|]|e]; cbn [calls];
      try solve [rewrite client_only_no_upstream; [cbn; lia | client_only]].
    rewrite relay_eq.
    destruct (build_request E self (String c v)) as [req|e];
      [|rewrite client_only_no_upstream; [cbn; lia | client_only]].
    destruct (urlopen E req (context_of config)) as [r|[r|e]]; cbn [calls app].
    + change (List.filter is_urlopen (UrlOpen req (context_of config) :: ?l))
        with (UrlOpen req (context_of config) :: List.filter is_urlopen l).
      rewrite client_only_no_upstream; [cbn; lia|].
      destruct (fault (fp r)); client_only.
    + change (List.filter is_urlopen (UrlOpen req (context_of config) :: ?l))
        with (UrlOpen req (context_of config) :: List.filter is_urlopen l).
      rewrite client_only_no_upstream; [cbn; lia | client_only].
    + change (List.filter is_urlopen (UrlOpen req (context_of config) :: ?l))
        with (UrlOpen req (context_of config) :: List.filter is_urlopen l).
      rewrite client_only_no_upstream; [cbn; lia | client_only].
  - intros req context
      (v & (Hpath & Hauth & Htarget & Hne) & Hreq & ->)%handle_request_urlopen.
    apply build_request_spec in Hreq as (Hurl & -> & _). eauto 10.
Qed.

Lemma handle_request_status_lines E config self :
  List.filter is_status_line (calls (handle_request E config self)) =
  if String.eqb (path self) "/health" then [SendResponse 200]
  else if negb (check_auth config self) then [SendResponse 401]
  else match target_of E self with
       | Raise _ => []
       | Ok None | Ok (Some EmptyString) => [SendResponse 400]
       | Ok (Some v) => List.filter is_status_line (calls (relay E config self v))
       end.
Proof.
  pose proof (headers_no_status_line _ (cors_headers_are_headers config self)) as Hcors.
  rewrite handle_request_eq.
  destruct (String.eqb (path self) "/health").
  { cbn [calls]. rewrite !List.filter_app, Hcors. reflexivity. }
  destruct (negb (check_auth config self)).
  { cbn [calls]. rewrite !List.filter_app, Hcors. reflexivity. }
  destruct (target_of E self) as [[[|c v]|]|e]; cbn [calls]; try reflexivity.
  all: rewrite !List.filter_app, Hcors; reflexivity.
Qed.

(** The status lines when the client stays: two at most; none exactly
    when the request has passed the gate and the extraction of the target
    raises; two exactly when the upstream has answered and a read of its
    body fails. *)
Lemma connected_status_lines E config self :
  let sent := List.filter is_status_line (calls (handle_request E config self)) in
  (length sent <= 2)%nat
  /\ (sent = [] <->
      String.eqb (path self) "/health" = false /\ check_auth config self = true
      /\ exists e, target_of E self = Raise e)
  /\ (length sent = 2%nat <->
      exists v req r e,
        forwarding E config self v /\ build_request E self v = Ok req
        /\ urlopen E req (context_of config) = Ok r /\ fault (fp r) = Some e).
Proof.
  cbv zeta. rewrite handle_request_status_lines. unfold forwarding.
  destruct (String.eqb (path self) "/health").
  { cbn. split; [lia|]. split; split; try discriminate; try (intros _; reflexivity).
    - now intros [? _].
    - now intros (? & ? & ? & ? & [? _] & _). }
  destruct (check_auth config self); cbn [negb].
  2:{ cbn. split; [lia|]. split; split; try discriminate; try (intros _; reflexivity).
      - now intros (_ & ? & _).
      - now intros (? & ? & ? & ? & (_ & ? & _) & _). }
  destruct (target_of E self) as [[[|c v]|]|e0].
  - cbn. split; [lia|]. split; split; try discriminate; try (intros _; reflexivity).
    + now intros (_ & _ & ? & ?).
    + intros (? & ? & ? & ? & (_ & _ & [= <-] & ?) & _). done.
  - rewrite relay_status_lines.
    destruct (build_request E self (String c v)) as [req|e1] eqn:Hreq.
    2:{ cbn. split; [lia|]. split; split; try discriminate; try (intros _; reflexivity).
        - now intros (_ & _ & ? & ?).
        - intros (? & ? & ? & ? & (_ & _ & [= <-] & _) & ? & _). congruence. }
    destruct (urlopen E req (context_of config)) as [r|[r|e1]] eqn:Hopen.
    + destruct (fault (fp r)) as [e1|] eqn:Hfault.
      * cbn. split; [lia|]. split; split; try discriminate; try (intros _; reflexivity).
        -- now intros (_ & _ & ? & ?).
        -- intros _. exists (String c v), req, r, e1. done.
      * cbn. split; [lia|]. split; split; try discriminate; try (intros _; reflexivity).
        -- now intros (_ & _ & ? & ?).
        -- intros (? & ? & ? & ? & (_ & _ & [= <-] & _) & Hreq' & Hopen' & Hf).
           rewrite Hreq in Hreq'. injection Hreq' as <-. rewrite Hopen in Hopen'.
           injection Hopen' as <-. congruence.
    + cbn. split; [lia|]. split; split; try discriminate; try (intros _; reflexivity).
      * now intros (_ & _ & ? & ?).
      * intros (? & ? & ? & ? & (_ & _ & [= <-] & _) & Hreq' & Hopen' & _).
        rewrite Hreq in Hreq'. injection Hreq' as <-. congruence.
    + cbn. split; [lia|]. split; split; try discriminate; try (intros _; reflexivity).
      * now intros (_ & _ & ? & ?).
      * intros (? & ? & ? & ? & (_ & _ & [= <-] & _) & Hreq' & Hopen' & _).
        rewrite Hreq in Hreq'. injection Hreq' as <-. congruence.
  - cbn. split; [lia|]. split; split; try discriminate; try (intros _; reflexivity).
    + now intros (_ & _ & ? & ?).
    + now intros (? & ? & ? & ? & (_ & _ & ? & _) & _).
  - cbn. split; [lia|]. split; split; try discriminate; try (intros _; reflexivity).
    + intros _. eauto.
    + now intros (? & ? & ? & ? & (_ & _ & ? & _) & _).
Qed.

Lemma relay_outcome E config self v :
  outcome (relay E config self v) =
  match build_request E self v with
  | Raise _ => Ok tt
  | Ok req =>
      match urlopen E req (context_of config) with
      | Raise (HTTPError r) =>
          match fault (fp r) with
          | Some e => Raise (Exception e)
          | None => Ok tt
          end
      | _ => Ok tt
      end
  end.
Proof.
  rewrite relay_eq.
  destruct (build_request E self v) as [req|e]; [|now rewrite on_exception_eq].
  destruct (urlopen E req (context_of config)) as [r|[r|e]]; try reflexivity.
  now rewrite on_http_error_eq.
Qed.

(** The exceptions that leave the handler when the client stays: the path
    of a request without target header is one that [urlparse] rejects, or
    the upstream has answered with an HTTP error and the read of its body
    fails. *)
Lemma connected_exceptions E config self x :
  outcome (handle_request E config self) = Raise x <->
  exists e,
    x = Exception e
    /\ String.eqb (path self) "/health" = false
    /\ check_auth config self = true
    /\ (target_of E self = Raise e
        \/ exists v req r,
             target_of E self = Ok (Some v) /\ v <> ""
             /\ build_request E self v = Ok req
             /\ urlopen E req (context_of config) = Raise (HTTPError r)
             /\ fault (fp r) = Some e).
Proof.
  rewrite handle_request_eq.
  destruct (String.eqb (path self) "/health").
  { cbn. split; [discriminate | now intros (? & _ & ? & _)]. }
  destruct (check_auth config self); cbn [negb].
  2:{ cbn. split; [discriminate | now intros (? & _ & _ & ? & _)]. }
  destruct (target_of E self) as [[[|c v]|]|e0]; cbn [outcome].
  - split; [discriminate|].
    intros (? & _ & _ & _ & [? | (? & ? & ? & [= <-] & ? & _)]); done.
  - rewrite relay_outcome. split.
    + destruct (build_request E self (String c v)) as [req|] eqn:Hreq; [|discriminate].
      destruct (urlopen E req (context_of config)) as [r|[r|]] eqn:Hopen; try discriminate.
      destruct (fault (fp r)) as [e|] eqn:Hfault; [|discriminate].
      intros [= <-]. exists e. repeat split. right.
      exists (String c v), req, r. done.
    + intros (e & -> & _ & _ & [? | (? & req & r & [= <-] & _ & -> & -> & ->)]); done.
  - split; [discriminate|].
    intros (? & _ & _ & _ & [? | (? & ? & ? & ? & _)]); done.
  - split.
    + intros [= <-]. exists e0. repeat split. now left.
    + intros (e & -> & _ & _ & [[= ->] | (? & ? & ? & ? & _)]); done.
Qed.

(** ** The CORS headers *)

Lemma split_at_first {A} (x : A) (l1 l2 k1 k2 : list A) :
  x ∉ l1 -> l1 ++ x :: l2 = k1 ++ x :: k2 ->
  (k1 = l1 /\ k2 = l2) \/ exists p, k1 = l1 ++ x :: p /\ l2 = p ++ x :: k2.
Proof.
  revert k1. induction l1 as [|a l1 IH]; intros k1 Hx Heq.
  - destruct k1 as [|b k1]; cbn in Heq.
    + injection Heq as ->. now left.
    + injection Heq as <- ->. right. now exists k1.
  - apply not_elem_of_cons in Hx as [Hne Hx].
    destruct k1 as [|b k1]; cbn in Heq.
    + injection Heq as -> _. contradiction.
    + injection Heq as <- Heq.
      destruct (IH k1 Hx Heq) as [[-> ->] | (p & -> & ->)]; [now left|].
      right. now exists p.
Qed.

Lemma cors_before_end_none cors l : EndHeaders ∉ l -> cors_before_end cors l.
Proof.
  intros Hno pre post ->. exfalso. apply Hno, elem_of_app. right. apply list_elem_of_here.
Qed.

Lemma cors_before_end_block cors a b :
  EndHeaders ∉ a -> EndHeaders ∉ cors -> cors_before_end cors b ->
  cors_before_end cors (a ++ cors ++ EndHeaders :: b).
Proof.
  intros Ha Hc Hb pre post Heq. rewrite app_assoc in Heq.
  apply split_at_first in Heq as [[-> _] | (p & -> & Hrest)].
  - now exists a.
  - destruct (Hb _ _ Hrest) as (p' & ->).
    exists (a ++ cors ++ EndHeaders :: p'). now rewrite <- !app_assoc.
  - intros [?|?]%elem_of_app; contradiction.
Qed.

Lemma headers_no_end (l : list call) :
  Forall (fun c => exists k v, c = SendHeader k v) l -> EndHeaders ∉ l.
Proof.
  intros H Hin. rewrite Forall_forall in H. now destruct (H _ Hin) as (? & ? & ?).
Qed.

Lemma writes_no_end (l : list call) :
  Forall (fun c => exists chunk, c = Write chunk) l -> EndHeaders ∉ l.
Proof.
  intros H Hin. rewrite Forall_forall in H. now destruct (H _ Hin) as (? & ?).
Qed.

Lemma on_exception_cors config self e :
  cors_before_end (cors_headers config self) (calls (on_exception config self e)).
Proof.
  pose proof (headers_no_end _ (cors_headers_are_headers config self)) as Hcors.
  rewrite on_exception_eq. cbn [calls].
  apply cors_before_end_block; [|done|].
  - now intros [[=] | [[=] | []%elem_of_nil]%elem_of_cons]%elem_of_cons.
  - apply cors_before_end_none. now intros [[=] | []%elem_of_nil]%elem_of_cons.
Qed.

Ltac not_among :=
  let Hin := fresh "Hin" in
  intros Hin; repeat (apply elem_of_cons in Hin as [[=] | Hin]); now apply elem_of_nil in Hin.

(** X5: whatever answer goes out, on the health check, on a refusal, on a
    missing target, on a relay or on a failure, its block of headers ends
    with the CORS headers: they stand right before each end of headers. *)
Theorem cors_on_every_response E config self :
  cors_before_end (cors_headers config self) (calls (handle_request E config self)).
Proof.
  pose proof (headers_no_end _ (cors_headers_are_headers config self)) as Hcors.
  assert (Hone : forall a w, EndHeaders ∉ a ->
            cors_before_end (cors_headers config self)
              (a ++ cors_headers config self ++ [EndHeaders; Write w])).
  { intros a w Ha. apply cors_before_end_block; [done | done |].
    apply cors_before_end_none. now intros [[=] | []%elem_of_nil]%elem_of_cons. }
  rewrite handle_request_eq.
  destruct (String.eqb (path self) "/health").
  { cbn [calls]. apply Hone. not_among. }
  destruct (negb (check_auth config self)).
  { cbn [calls]. apply Hone. not_among. }
  destruct (target_of E self) as [[[|c v]|]|e]; cbn [calls].
  - apply Hone. not_among.
  - rewrite relay_eq.
    destruct (build_request E self (String c v)) as [req|e]; [|apply on_exception_cors].
    assert (Hhead : forall r, EndHeaders ∉ [UrlOpen req (context_of config); SendResponse (code r)]
                                         ++ relayed (resp_headers r)).
    { intros r [Hin | Hin]%elem_of_app.
      - now apply elem_of_cons in Hin as [[=] | [[=] | []%elem_of_nil]%elem_of_cons].
      - now apply (headers_no_end _ (relayed_are_headers _)) in Hin. }
    destruct (urlopen E req (context_of config)) as [r|[r|e]]; cbn [calls].
    + replace (([UrlOpen req (context_of config); SendResponse (code r)]
                ++ relayed (resp_headers r) ++ cors_headers config self
                ++ [EndHeaders] ++ calls (copy_body (fp r)))
               ++ match fault (fp r) with
                  | Some e => calls (on_exception config self e)
                  | None => []
                  end)
        with (([UrlOpen req (context_of config); SendResponse (code r)]
               ++ relayed (resp_headers r))
              ++ cors_headers config self
              ++ EndHeaders :: (calls (copy_body (fp r))
                                ++ match fault (fp r) with
                                   | Some e => calls (on_exception config self e)
                                   | None => []
                                   end))
        by (cbn [app]; rewrite <- ?app_assoc; reflexivity).
      apply cors_before_end_block; [apply Hhead | done |].
      pose proof (writes_no_end _ (copy_body_are_writes (fp r))) as Hbody.
      destruct (fault (fp r)) as [e|].
      * rewrite on_exception_eq. cbn [calls].
        replace (calls (copy_body (fp r))
                 ++ [SendResponse 500; SendHeader "Content-Type" "application/json"]
                 ++ cors_headers config self
                 ++ [EndHeaders;
                     Write (Py.to_bytes
                              (Json.dumps [("error", Json.JString "Proxy error");
                                           ("message", Json.JString (err_str e))]))])
          with ((calls (copy_body (fp r))
                 ++ [SendResponse 500; SendHeader "Content-Type" "application/json"])
                ++ cors_headers config self
                ++ [EndHeaders;
                    Write (Py.to_bytes
                             (Json.dumps [("error", Json.JString "Proxy error");
                                          ("message", Json.JString (err_str e))]))])
          by (rewrite <- ?app_assoc; reflexivity).
        apply Hone. intros [Hin | Hin]%elem_of_app; [done|].
        now apply elem_of_cons in Hin as [[=] | [[=] | []%elem_of_nil]%elem_of_cons].
      * rewrite app_nil_r. now apply cors_before_end_none.
    + rewrite on_http_error_eq. cbn [calls].
      replace (UrlOpen req (context_of config)
               :: [SendResponse (code r)] ++ relayed (resp_headers r)
                  ++ cors_headers config self ++ [EndHeaders]
                  ++ match fault (fp r) with
                     | Some _ => []
                     | None => [Write (content (fp r))]
                     end)
        with (([UrlOpen req (context_of config); SendResponse (code r)]
               ++ relayed (resp_headers r))
              ++ cors_headers config self
              ++ EndHeaders :: match fault (fp r) with
                               | Some _ => []
                               | None => [Write (content (fp r))]
                               end)
        by (cbn [app]; rewrite <- ?app_assoc; reflexivity).
      apply cors_before_end_block; [apply Hhead | done |].
      apply cors_before_end_none.
      destruct (fault (fp r)); [apply not_elem_of_nil|].
      now intros [[=] | []%elem_of_nil]%elem_of_cons.
    + intros pre post Heq. destruct pre as [|c0 pre]; [discriminate|].
      injection Heq as <- Heq.
      destruct (on_exception_cors config self e _ _ Heq) as (pre' & ->).
      now exists (UrlOpen req (context_of config) :: pre').
  - apply Hone. not_among.
  - apply cors_before_end_none, not_elem_of_nil.
Qed.

(** X6: a preflight is answered 204 with the CORS headers and the end of
    the headers, and with nothing else: no body is written and nothing goes
    upstream, whatever the path, the credentials configured and the headers
    of the request. *)
Theorem preflight config self :
  do_OPTIONS config self =
    IO ([SendResponse 204] ++ cors_headers config self ++ [EndHeaders]) (Ok tt)
  /\ (forall body, Write body ∉ calls (do_OPTIONS config self))
  /\ (forall req context, UrlOpen req context ∉ calls (do_OPTIONS config self)).
Proof.
  assert (Hrun : do_OPTIONS config self =
                 IO ([SendResponse 204] ++ cors_headers config self ++ [EndHeaders]) (Ok tt)).
  { unfold do_OPTIONS. now rewrite send_cors_headers_eq. }
  pose proof (cors_headers_are_headers config self) as Hcors.
  rewrite Forall_forall in Hcors.
  split; [exact Hrun|]. rewrite Hrun. cbn [calls]. split.
  - intros body [[=] | [Hin | [[=] | []%elem_of_nil]%elem_of_cons]%elem_of_app]%elem_of_cons.
    now destruct (Hcors _ Hin) as (? & ? & ?).
  - intros req context
      [[=] | [Hin | [[=] | []%elem_of_nil]%elem_of_cons]%elem_of_app]%elem_of_cons.
    now destruct (Hcors _ Hin) as (? & ? & ?).
Qed.

(** X7: which origin is allowed.  With the setting [*] the proxy names the
    origin of the request, or [*] when the request has none; with another
    string it names that string whatever the request says; with a list it
    names the origin of the request when the list has it and sends no such
    header otherwise.  It never names two, and the four other CORS headers
    go out in every case. *)
Theorem allow_origin_rule config self :
  (forall v,
      SendHeader "Access-Control-Allow-Origin" v ∈ cors_headers config self <->
      match cors_origin config with
      | OriginStr s => v = if String.eqb s "*" then origin_of self else s
      | OriginList l => v = origin_of self /\ origin_of self ∈ l
      end)
  /\ (length (List.filter is_allow_origin (cors_headers config self)) <= 1)%nat
  /\ exists allow, cors_headers config self = allow ++ fixed_cors_headers
                   /\ List.filter is_allow_origin allow = allow.
Proof.
  rewrite cors_headers_eq. fold (origin_of self). fold fixed_cors_headers.
  assert (Hfixed : forall v, SendHeader "Access-Control-Allow-Origin" v ∉ fixed_cors_headers).
  { intros v Hin. unfold fixed_cors_headers in Hin.
    repeat (apply elem_of_cons in Hin as [[=] | Hin]). now apply elem_of_nil in Hin. }
  assert (Hmem : forall l, Py.mem (origin_of self) l = true <-> origin_of self ∈ l).
  { intros l. unfold Py.mem. rewrite existsb_exists. split.
    - intros (x & Hin & ->%String.eqb_eq). now apply list_elem_of_In.
    - intros Hin. exists (origin_of self). split; [now apply list_elem_of_In|].
      apply String.eqb_refl. }
  destruct (cors_origin config) as [s|l].
  - split; [|split].
    + intros v. rewrite elem_of_app, list_elem_of_singleton. split.
      * intros [[= ->] | Hin]; [done | now apply Hfixed in Hin].
      * intros ->. now left.
    + vm_compute. lia.
    + eexists. split; [reflexivity|]. reflexivity.
  - destruct (Py.mem (origin_of self) l) eqn:Hl.
    + apply Hmem in Hl. split; [|split].
      * intros v. rewrite elem_of_app, list_elem_of_singleton. split.
        -- intros [[= ->] | Hin]; [done | now apply Hfixed in Hin].
        -- intros [-> _]. now left.
      * vm_compute. lia.
      * eexists. split; [reflexivity|]. reflexivity.
    + split; [|split].
      * intros v. rewrite elem_of_app. split.
        -- intros [[]%elem_of_nil | Hin]. now apply Hfixed in Hin.
        -- intros [_ Hin]. apply Hmem in Hin. congruence.
      * vm_compute. lia.
      * exists []. done.
Qed.

(** X8: started from the command line, the proxy has a string for origin
    setting, never a list: it names one allowed origin on every answer,
    the origin of the request when [--origin] is [*] and the text of
    [--origin] as it stands otherwise, commas included. *)
Theorem command_line_origin args self :
  List.filter is_allow_origin (cors_headers (configure args) self) =
  [SendHeader "Access-Control-Allow-Origin"
     (if String.eqb (arg_origin args) "*" then origin_of self else arg_origin args)].
Proof. rewrite cors_headers_eq. reflexivity. Qed.

(** ** The outbound request, continued *)

(** X9: the body that goes upstream.  Without a [Content-Length] header,
    or with an empty one, the outbound request has no body; with one, the
    header is read as an integer [n] and the body is what [rfile.read(n)]
    gives. *)
Theorem outbound_body E self v req :
  build_request E self v = Ok req ->
  match Headers.get (headers self) "Content-Length" with
  | None | Some EmptyString => data req = None
  | Some content_length =>
      exists n body,
        Int.int E content_length = Ok n /\ rfile self n = Ok body /\ data req = Some body
  end.
Proof.
  unfold build_request, new_request.
  destruct (url_error E v); [discriminate|]. cbn.
  pose proof (copy_headers_keeps (headers self)
                (mkRequest (full_url_of v) (command self) ∅ None))
    as (_ & _ & Hdata).
  destruct (Headers.get (headers self) "Content-Length") as [[|c cl]|].
  - now intros [= <-].
  - destruct (Int.int E (String c cl)) as [n|]; [|discriminate]. cbn.
    destruct (rfile self n) as [body|] eqn:Hbody; [|discriminate]. cbn.
    intros [= <-]. exists n, body. repeat split; try done.
    unfold set_data. rewrite Hdata. now rewrite bool_decide_eq_true_2 by discriminate.
  - now intros [= <-].
Qed.

Lemma outbound_body_witness :
  build_request Sample.env
    (Sample.post "/proxy" [("Content-Length", "3")] "abcdef") "http://example.test/foo"
  = Ok (mkRequest "http://example.test/foo" "POST" ∅ (Some (Py.to_bytes "abc")))
  /\ exists n body,
       Int.int Sample.env "3" = Ok n
       /\ rfile (Sample.post "/proxy" [("Content-Length", "3")] "abcdef") n = Ok body
       /\ Some (Py.to_bytes "abc") = Some body.
Proof.
  assert (Hreq : build_request Sample.env
                   (Sample.post "/proxy" [("Content-Length", "3")] "abcdef")
                   "http://example.test/foo"
                 = Ok (mkRequest "http://example.test/foo" "POST" ∅
                         (Some (Py.to_bytes "abc"))))
    by by_running.
  split; [exact Hreq|].
  exact (outbound_body Sample.env _ _ _ Hreq).
Defined.

(** X10: a [Content-Length] that is no integer is a failure of the proxy,
    not of the client: the answer is 500 with the text of the [ValueError],
    and nothing goes upstream. *)
Theorem bad_content_length E config self v content_length e :
  forwarding E config self v ->
  url_error E v = None ->
  Headers.get (headers self) "Content-Length" = Some content_length ->
  content_length <> "" ->
  Int.int E content_length = Raise e ->
  handle_request E config self =
    IO ([SendResponse 500; SendHeader "Content-Type" "application/json"]
        ++ cors_headers config self
        ++ [EndHeaders;
            Write (Py.to_bytes (Json.dumps [("error", Json.JString "Proxy error");
                                            ("message", Json.JString (err_str e))]))])
       (Ok tt).
Proof.
  intros Hfwd Hurl Hcl Hne Hint.
  assert (Hreq : build_request E self v = Raise e).
  { unfold build_request, new_request. rewrite Hurl. cbn. rewrite Hcl.
    destruct content_length; [contradiction|]. now rewrite Hint. }
  now rewrite (handle_request_forwarding _ _ _ _ Hfwd), relay_eq, Hreq, on_exception_eq.
Qed.

Lemma bad_content_length_witness :
  forwarding Sample.env Sample.half_guarded
    (Sample.post "/proxy"
       [("X-Target-URL", "http://example.test/foo"); ("Content-Length", "12 bytes")] "hello")
    "http://example.test/foo"
  /\ Int.int Sample.env "12 bytes"
     = Raise (ValueError "invalid literal for int() with base 10: '12 bytes'")
  /\ List.filter is_status_line
       (calls (handle_request Sample.env Sample.half_guarded
                 (Sample.post "/proxy"
                    [("X-Target-URL", "http://example.test/foo");
                     ("Content-Length", "12 bytes")] "hello")))
     = [SendResponse 500].
Proof.
  assert (Hfwd : forwarding Sample.env Sample.half_guarded
                   (Sample.post "/proxy"
                      [("X-Target-URL", "http://example.test/foo");
                       ("Content-Length", "12 bytes")] "hello")
                   "http://example.test/foo") by (repeat split; by_running).
  assert (Hne : "12 bytes" <> "") by discriminate.
  split; [exact Hfwd|]. split; [reflexivity|].
  rewrite (bad_content_length Sample.env Sample.half_guarded _ _ "12 bytes" _
             Hfwd eq_refl eq_refl Hne eq_refl).
  reflexivity.
Defined.

(** X11: what [urlopen] is told about certificates.  With the setting
    [ignore] the context checks neither the host name nor the certificate;
    with any other setting, [strict] as well as [default], no context is
    given and the defaults of the library apply. *)
Theorem upstream_verification E config self req context :
  UrlOpen req context ∈ calls (handle_request E config self) ->
  (ssl_verification config = "ignore" ->
   context = Some {| check_hostname := false; verify := CERT_NONE |})
  /\ (ssl_verification config <> "ignore" -> context = None).
Proof.
  intros (v & _ & _ & ->)%handle_request_urlopen. unfold context_of.
  destruct (String.eqb_spec (ssl_verification config) "ignore"); split; congruence.
Qed.

Lemma upstream_verification_witness :
  UrlOpen (mkRequest "https://example.test/foo" "GET" ∅ None)
          (Some {| check_hostname := false; verify := CERT_NONE |})
    ∈ calls (handle_request Sample.env Sample.unverified
               (Sample.request "/proxy?url=https://example.test/foo" []))
  /\ ssl_verification Sample.unverified = "ignore".
Proof.
  assert (Hopen : UrlOpen (mkRequest "https://example.test/foo" "GET" ∅ None)
                    (Some {| check_hostname := false; verify := CERT_NONE |})
                  ∈ calls (handle_request Sample.env Sample.unverified
                             (Sample.request "/proxy?url=https://example.test/foo" []))).
  { vm_compute. apply list_elem_of_here. }
  split; [exact Hopen|].
  destruct (upstream_verification _ _ _ _ _ Hopen) as [_ Hnone].
  destruct (String.eqb_spec (ssl_verification Sample.unverified) "ignore") as [Heq | Hne];
    [exact Heq | discriminate (Hnone Hne)].
Defined.

(** X12: when the upstream answers with an HTTP error and the read of its
    body fails, the status line and the headers have gone out, no body
    follows, and the exception leaves the handler: this failure does not
    become a 500. *)
Theorem http_error_body_breaks E config self v req r e :
  forwarding E config self v ->
  build_request E self v = Ok req ->
  urlopen E req (context_of config) = Raise (HTTPError r) ->
  fault (fp r) = Some e ->
  handle_request E config self =
    IO ([UrlOpen req (context_of config); SendResponse (code r)]
        ++ relayed (resp_headers r) ++ cors_headers config self ++ [EndHeaders])
       (Raise (Exception e)).
Proof.
  intros Hfwd Hreq Hopen Hbroken.
  rewrite (handle_request_forwarding _ _ _ _ Hfwd), relay_eq, Hreq, Hopen.
  rewrite on_http_error_eq, Hbroken. cbn [app calls]. now rewrite ?app_nil_r.
Qed.

Lemma http_error_body_breaks_witness :
  forwarding (Sample.env_with Sample.bad_gateway) Sample.guarded
    (Sample.via "http://example.test/foo") "http://example.test/foo"
  /\ outcome (handle_request (Sample.env_with Sample.bad_gateway) Sample.guarded
                (Sample.via "http://example.test/foo"))
     = Raise (Exception Sample.reset)
  /\ List.filter is_status_line
       (calls (handle_request (Sample.env_with Sample.bad_gateway) Sample.guarded
                 (Sample.via "http://example.test/foo")))
     = [SendResponse 502].
Proof.
  assert (Hfwd : forwarding (Sample.env_with Sample.bad_gateway) Sample.guarded
                   (Sample.via "http://example.test/foo") "http://example.test/foo")
    by (repeat split; by_running).
  assert (Hreq : build_request (Sample.env_with Sample.bad_gateway)
                   (Sample.via "http://example.test/foo") "http://example.test/foo"
                 = Ok (Sample.outbound "http://example.test/foo")) by by_running.
  split; [exact Hfwd|].
  rewrite (http_error_body_breaks _ _ _ _ _ _ Sample.reset Hfwd Hreq eq_refl eq_refl).
  split; reflexivity.
Defined.

Lemma filter_has {A} (f : A -> bool) (l : list A) x :
  x ∈ l -> f x = true -> (1 <= length (List.filter f l))%nat.
Proof.
  intros Hin Hf. assert (Hin' : In x (List.filter f l)).
  { apply filter_In. split; [now apply list_elem_of_In | done]. }
  destruct (List.filter f l); [destruct Hin' | cbn; lia].
Qed.

(** X13: the CORS headers of the upstream are relayed like any other
    header.  When the upstream names an allowed origin itself and the
    origin setting is a string, the client is sent two headers
    [Access-Control-Allow-Origin] at least, that of the upstream and that
    of the proxy. *)
Theorem upstream_allow_origin_kept E config self v req r s k x :
  forwarding E config self v ->
  build_request E self v = Ok req ->
  urlopen E req (context_of config) = Ok r ->
  cors_origin config = OriginStr s ->
  (k, x) ∈ resp_headers r ->
  Py.lower k = "access-control-allow-origin" ->
  (2 <= length (List.filter is_allow_origin (calls (handle_request E config self))))%nat.
Proof.
  intros Hfwd Hreq Hopen Hs Hin Hk.
  rewrite (handle_request_forwarding _ _ _ _ Hfwd), relay_eq, Hreq, Hopen. cbn [calls].
  rewrite !List.filter_app, !length_app.
  assert (Hup : (1 <= length (List.filter is_allow_origin (relayed (resp_headers r))))%nat).
  { apply (filter_has _ _ (SendHeader k x)).
    - apply relayed_spec. rewrite Hk. repeat split; [done | discriminate | discriminate].
    - cbn. now rewrite Hk. }
  assert (Hown : (1 <= length (List.filter is_allow_origin (cors_headers config self)))%nat).
  { rewrite cors_headers_eq, Hs. vm_compute. lia. }
  lia.
Qed.

Lemma upstream_allow_origin_kept_witness :
  forwarding (Sample.env_with Sample.with_cors) Sample.guarded
    (Sample.via "http://example.test/foo") "http://example.test/foo"
  /\ List.filter is_allow_origin
       (calls (handle_request (Sample.env_with Sample.with_cors) Sample.guarded
                 (Sample.via "http://example.test/foo")))
     = [SendHeader "Access-Control-Allow-Origin" "https://a.test";
        SendHeader "Access-Control-Allow-Origin" "*"]
  /\ (2 <= length (List.filter is_allow_origin
                     (calls (handle_request (Sample.env_with Sample.with_cors) Sample.guarded
                               (Sample.via "http://example.test/foo")))))%nat.
Proof.
  assert (Hfwd : forwarding (Sample.env_with Sample.with_cors) Sample.guarded
                   (Sample.via "http://example.test/foo") "http://example.test/foo")
    by (repeat split; by_running).
  assert (Hreq : build_request (Sample.env_with Sample.with_cors)
                   (Sample.via "http://example.test/foo") "http://example.test/foo"
                 = Ok (Sample.outbound "http://example.test/foo")) by by_running.
  split; [exact Hfwd|]. split; [by_running|].
  apply (upstream_allow_origin_kept _ _ _ _ _ _ "*" "Access-Control-Allow-Origin"
           "https://a.test" Hfwd Hreq eq_refl eq_refl); [|reflexivity].
  apply list_elem_of_here.
Defined.

(** ** Names of headers *)

Lemma get_same_names h' h name :
  same_names h' h -> Headers.get h' name = Headers.get h name.
Proof.
  induction 1 as [|[k' v'] [k v] h' h [Hk Hv] _ IH]; [reflexivity|].
  cbn in *. now rewrite Hk, Hv, IH.
Qed.

Lemma copy_headers_same_names h' h req :
  same_names h' h -> copy_headers h' req = copy_headers h req.
Proof.
  intros Hsame. revert req. unfold copy_headers, Headers.items.
  induction Hsame as [|[k' v'] [k v] h' h [Hk Hv] _ IH]; intros req; [reflexivity|].
  cbn in *. rewrite IH, Hk, Hv. unfold add_header.
  now rewrite (proj2 (capitalize_eq_iff k' k) Hk).
Qed.

Section SameNames.
Variables (E : Env) (config : ProxyConfig) (self' self : Handler).
Hypothesis Hcommand : command self' = command self.
Hypothesis Hpath : path self' = path self.
Hypothesis Hrfile : rfile self' = rfile self.
Hypothesis Hsame : same_names (headers self') (headers self).

Lemma check_auth_same_names : check_auth config self' = check_auth config self.
Proof using Hsame.
  unfold check_auth. now rewrite !(get_same_names _ _ _ Hsame).
Qed.

Lemma send_cors_headers_same_names :
  send_cors_headers config self' = send_cors_headers config self.
Proof using Hsame.
  unfold send_cors_headers. now rewrite !(get_same_names _ _ _ Hsame).
Qed.

Lemma target_of_same_names : target_of E self' = target_of E self.
Proof using Hsame Hpath.
  unfold target_of. now rewrite !(get_same_names _ _ _ Hsame), Hpath.
Qed.

Lemma build_request_same_names target_url :
  build_request E self' target_url = build_request E self target_url.
Proof using Hsame Hcommand Hrfile.
  unfold build_request. rewrite Hcommand, Hrfile, (get_same_names _ _ _ Hsame).
  destruct (new_request E target_url (command self)) as [req|e]; [|reflexivity].
  cbn. now rewrite (copy_headers_same_names _ _ req Hsame).
Qed.

Lemma relay_same_names target_url :
  relay E config self' target_url = relay E config self target_url.
Proof using Hsame Hcommand Hrfile.
  unfold relay, forward, on_http_error, on_exception.
  now rewrite build_request_same_names, send_cors_headers_same_names.
Qed.

End SameNames.

(** X14: the handler does not tell apart two requests that differ in the
    case of the letters of their header names only: it calls the same
    upstream with the same request and sends the client the same answer. *)
Theorem header_names_any_case E config self' self :
  command self' = command self ->
  path self' = path self ->
  rfile self' = rfile self ->
  same_names (headers self') (headers self) ->
  handle_request E config self' = handle_request E config self.
Proof.
  intros Hcommand Hpath Hrfile Hsame.
  unfold handle_request.
  rewrite Hpath, (check_auth_same_names config self' self Hsame),
    (send_cors_headers_same_names config self' self Hsame),
    (target_of_same_names E self' self Hpath Hsame).
  destruct (String.eqb (path self) "/health"); [reflexivity|].
  destruct (negb (check_auth config self)); [reflexivity|].
  destruct (target_of E self) as [[[|c t]|]|e]; try reflexivity.
  cbn. now rewrite (relay_same_names E config self' self Hcommand Hrfile Hsame).
Qed.

Lemma header_names_any_case_witness :
  same_names [("authorization", Sample.alice); ("x-target-url", "http://example.test/foo");
              ("X-API-KEY", "k1"); ("HOST", "proxy.test")]
             (headers (Sample.via "http://example.test/foo"))
  /\ handle_request Sample.env Sample.guarded
       (Sample.request "/proxy"
          [("authorization", Sample.alice); ("x-target-url", "http://example.test/foo");
           ("X-API-KEY", "k1"); ("HOST", "proxy.test")])
     = handle_request Sample.env Sample.guarded (Sample.via "http://example.test/foo").
Proof.
  assert (Hsame : same_names
                    [("authorization", Sample.alice);
                     ("x-target-url", "http://example.test/foo");
                     ("X-API-KEY", "k1"); ("HOST", "proxy.test")]
                    (headers (Sample.via "http://example.test/foo"))).
  { repeat (apply List.Forall2_cons; [split; reflexivity|]). apply List.Forall2_nil. }
  split; [exact Hsame|].
  exact (header_names_any_case Sample.env Sample.guarded
           (Sample.request "/proxy"
              [("authorization", Sample.alice); ("x-target-url", "http://example.test/foo");
               ("X-API-KEY", "k1"); ("HOST", "proxy.test")])
           (Sample.via "http://example.test/foo") eq_refl eq_refl eq_refl Hsame).
Defined.

(** ** The gate, continued *)

(** X15: a configured user name that contains a colon shuts everyone out.
    The decoded credentials are split at their first colon, so the user
    name read from a request never has one. *)
Theorem colon_in_username config self u :
  username config = Some u ->
  Py.contains ":" u = true ->
  Py.truthy (password config) = true ->
  check_auth config self = false.
Proof.
  intros Hu Hcolon Hp.
  apply truthy_true in Hp as (p & Hp & Hpne).
  assert (Hnever : forall v, try_basic config v = false).
  { intros v. destruct (try_basic config v) eqn:Hv; [|reflexivity].
    apply (try_basic_true config v u p Hu Hp) in Hv
      as (? & ? & ? & _ & _ & _ & _ & _ & Hno). congruence. }
  unfold check_auth. rewrite Hu, Hp.
  destruct u; [discriminate|]. destruct p; [contradiction|]. cbn [Py.truthy negb orb String.eqb].
  destruct (Py.or_ _ _) as [[|c v]|]; try reflexivity. apply Hnever.
Qed.

Lemma colon_in_username_witness :
  username Sample.colon = Some "a:b"
  /\ Py.contains ":" "a:b" = true
  /\ Py.truthy (password Sample.colon) = true
  /\ check_auth Sample.colon (Sample.request "/x" [("Authorization", "Basic YTpiOnNlY3JldA==")])
     = false.
Proof.
  repeat (split; [reflexivity|]).
  exact (colon_in_username Sample.colon _ "a:b" eq_refl eq_refl eq_refl).
Defined.

(** ** The credentials, read leniently *)

Lemma a2b_insert x l1 l2 quad_pos leftchar pads n_out :
  (64 <=? Base64.table_a2b x)%N = true -> (x =? Base64.BASE64_PAD)%N = false ->
  Base64.a2b (l1 ++ x :: l2) quad_pos leftchar pads n_out
  = Base64.a2b (l1 ++ l2) quad_pos leftchar pads n_out.
Proof.
  intros Hx Hpad. revert quad_pos leftchar pads n_out.
  induction l1 as [|c l1 IH]; intros quad_pos leftchar pads n_out.
  - cbn [app Base64.a2b]. now rewrite Hpad, Hx.
  - cbn [app Base64.a2b]. rewrite !IH. reflexivity.
Qed.

Lemma codes_app s t : Py.codes (s +:+ t) = Py.codes s ++ Py.codes t.
Proof.
  unfold Py.codes. induction s as [|c s IH]; [reflexivity|]. cbn. now rewrite <- IH.
Qed.

Lemma b64decode_insert x s t :
  skipped x = true ->
  Base64.b64decode (s +:+ String x t) = Base64.b64decode (s +:+ t).
Proof.
  unfold skipped, Py.is_ascii. intros [[Ha Hx]%andb_true_iff Hpad%negb_true_iff]%andb_true_iff.
  unfold Base64.b64decode. rewrite !codes_app.
  change (Py.codes (String x t)) with (Py.code x :: Py.codes t).
  rewrite !forallb_app. cbn [forallb]. rewrite Ha. cbn [andb].
  now rewrite a2b_insert.
Qed.

Lemma cut_contains sep s :
  Py.contains sep s = true -> exists a b, Py.cut sep s = Some (a, b).
Proof.
  induction s as [|c s IH]; cbn; [discriminate|].
  destruct (Ascii.eqb c sep); [eauto|]. cbn. intros H.
  destruct (IH H) as (a & b & ->). eauto.
Qed.

Lemma cut_app sep s a b t :
  Py.cut sep s = Some (a, b) -> Py.cut sep (s +:+ t) = Some (a, b +:+ t).
Proof.
  revert a. induction s as [|c s IH]; intros a; [discriminate|].
  change (String c s +:+ t) with (String c (s +:+ t)). cbn [Py.cut].
  destruct (Ascii.eqb c sep); [now intros [= <- <-]|].
  destruct (Py.cut sep s) as [[a' b']|]; [|discriminate].
  intros [= <- <-]. now rewrite (IH a' eq_refl).
Qed.

Lemma try_basic_insert config h x t :
  skipped x = true -> Py.contains " " h = true ->
  try_basic config (h +:+ String x t) = try_basic config (h +:+ t).
Proof.
  intros Hx Hh. destruct (cut_contains _ _ Hh) as (a & b & Hcut).
  unfold try_basic, check_basic, Py.split1.
  rewrite !(cut_app _ _ _ _ _ Hcut). cbn.
  now rewrite b64decode_insert.
Qed.

Lemma get_replace before after name v v' name' :
  Headers.get (before ++ (name, v) :: after) name'
  = Headers.get (before ++ (name, v') :: after) name'
  \/ Headers.get (before ++ (name, v) :: after) name' = Some v
     /\ Headers.get (before ++ (name, v') :: after) name' = Some v'.
Proof.
  induction before as [|[k w] before IH]; cbn.
  - destruct (String.eqb _ _); auto.
  - destruct (String.eqb _ _); auto.
Qed.

(** X16: the credentials of a Basic authorization are decoded leniently.
    An ASCII character outside the base64 alphabet, other than the padding
    character, may stand anywhere after the first blank of the value: the
    gate gives the same verdict with it as without it. *)
Theorem lenient_credentials config self self' before after name h x t :
  skipped x = true ->
  Py.contains " " h = true ->
  headers self = before ++ (name, h +:+ String x t) :: after ->
  headers self' = before ++ (name, h +:+ t) :: after ->
  check_auth config self = check_auth config self'.
Proof.
  intros Hx Hh Hself Hself'. unfold check_auth. rewrite Hself, Hself'.
  destruct (negb (Py.truthy (username config)) || negb (Py.truthy (password config)));
    [reflexivity|].
  assert (Hv : exists c v, h +:+ String x t = String c v)
    by (destruct h; [discriminate|cbn; eauto]).
  assert (Hv' : exists c v, h +:+ t = String c v)
    by (destruct h; [discriminate|cbn; eauto]).
  destruct Hv as (c & v & Hv), Hv' as (c' & v' & Hv').
  pose proof (try_basic_insert config h x t Hx Hh) as Htry. rewrite Hv, Hv' in Htry.
  destruct (get_replace before after name (h +:+ String x t) (h +:+ t) "Proxy-Authorization")
    as [->|[-> ->]];
    destruct (get_replace before after name (h +:+ String x t) (h +:+ t) "Authorization")
    as [->|[-> ->]]; try reflexivity;
    rewrite ?Hv, ?Hv'; unfold Py.or_; cbn [Py.truthy String.eqb negb]; try exact Htry.
  destruct (Py.truthy _); [reflexivity|exact Htry].
Qed.

Lemma lenient_credentials_witness :
  skipped " " = true
  /\ Py.contains " " "Basic YWxp" = true
  /\ check_auth Sample.guarded
       (Sample.request "/x" [("Host", "proxy.test"); ("Authorization", "Basic YWxp Y2U6c2VjcmV0")])
     = check_auth Sample.guarded
         (Sample.request "/x" [("Host", "proxy.test"); ("Authorization", "Basic YWxpY2U6c2VjcmV0")]).
Proof.
  split; [reflexivity|]. split; [reflexivity|].
  exact (lenient_credentials Sample.guarded
           (Sample.request "/x" [("Host", "proxy.test"); ("Authorization", "Basic YWxp Y2U6c2VjcmV0")])
           (Sample.request "/x" [("Host", "proxy.test"); ("Authorization", "Basic YWxpY2U6c2VjcmV0")])
           [("Host", "proxy.test")] [] "Authorization" "Basic YWxp" " " "Y2U6c2VjcmV0"
           eq_refl eq_refl eq_refl eq_refl).
Defined.

(** ** The target in the query string *)

Lemma literal_cons c t :
  literal (String c t) = true ->
  Ascii.eqb c "&" = false /\ Ascii.eqb c "%" = false /\ Ascii.eqb c "+" = false
  /\ literal t = true.
Proof.
  unfold literal. cbn [UrlParse.all Py.contains].
  rewrite andb_true_iff, negb_true_iff, !orb_false_iff, !(Ascii.eqb_sym c). tauto.
Qed.

Lemma split_literal t rest :
  literal t = true ->
  UrlParse.split "&" (t +:+ String "&" rest) = t :: UrlParse.split "&" rest.
Proof.
  induction t as [|c t IH]; intros H.
  - reflexivity.
  - apply literal_cons in H as (Hc & _ & _ & H).
    change (String c t +:+ String "&" rest) with (String c (t +:+ String "&" rest)).
    cbn [UrlParse.split]. now rewrite Hc, (IH H).
Qed.

Lemma replace_literal t : literal t = true -> UrlParse.replace "+" " " t = t.
Proof.
  induction t as [|c t IH]; intros H; [reflexivity|].
  apply literal_cons in H as (_ & _ & Hc & H). cbn. now rewrite Hc, (IH H).
Qed.

Lemma unquote_literal t : literal t = true -> UrlParse.unquote t = t.
Proof.
  intros H. unfold UrlParse.unquote.
  assert (Py.contains "%" t = false) as ->; [|reflexivity].
  induction t as [|c t IH]; [reflexivity|].
  apply literal_cons in H as (_ & Hc & _ & H). cbn. now rewrite Hc, (IH H).
Qed.

(** X17: a target given in the query string ends at its first ampersand.
    When no [X-Target-URL] header names the target and the query string of
    the request is [url=t&rest], with no ampersand, percent sign or plus
    sign in a non-empty [t], the target is [t]: of a target URL written
    there without escapes, everything from its first ampersand on is
    lost. *)
Theorem query_target_cut E self t rest :
  Py.truthy (Headers.get (headers self) "X-Target-URL") = false ->
  UrlParse.query_of E (path self) = Ok ("url=" +:+ t +:+ "&" +:+ rest) ->
  literal t = true ->
  t <> "" ->
  target_of E self = Ok (Some t).
Proof.
  intros Hheader Hquery Ht Hne. unfold target_of. rewrite Hheader, Hquery. cbn [negb].
  cbn [mbind result_bind mret result_ret]. 
  unfold UrlParse.parse_qsl.
  change ("url=" +:+ t +:+ "&" +:+ rest) with (String "u" (String "r" (String "l" (String "=" (t +:+ String "&" rest))))).
  cbn [String.eqb Ascii.eqb Bool.eqb].
  change (String "u" (String "r" (String "l" (String "=" (t +:+ String "&" rest)))))
    with (("url=" +:+ t) +:+ String "&" rest).
  rewrite split_literal.
  2:{ unfold literal in *. cbn. exact Ht. }
  cbn [flat_map]. 
  change (Py.split1 "=" ("url=" +:+ t)) with ["url"; t].
  destruct t as [|c t]; [contradiction|]. cbn [String.eqb negb].
  rewrite (replace_literal (String c t) Ht), (unquote_literal (String c t) Ht).
  reflexivity.
Qed.

Lemma query_target_cut_witness :
  Py.truthy (Headers.get (headers (Sample.request "/proxy?url=http://example.test/foo?a=1&b=2" []))
               "X-Target-URL") = false
  /\ UrlParse.query_of Sample.env "/proxy?url=http://example.test/foo?a=1&b=2"
     = Ok ("url=" +:+ "http://example.test/foo?a=1" +:+ "&" +:+ "b=2")
  /\ literal "http://example.test/foo?a=1" = true
  /\ target_of Sample.env (Sample.request "/proxy?url=http://example.test/foo?a=1&b=2" [])
     = Ok (Some "http://example.test/foo?a=1").
Proof.
  repeat (split; [reflexivity|]).
  apply (query_target_cut Sample.env
           (Sample.request "/proxy?url=http://example.test/foo?a=1&b=2" [])
           "http://example.test/foo?a=1" "b=2"); [reflexivity..|discriminate].
Defined.

(** ** The body of the answer 500 *)

Lemma to_bytes_printable s :
  Forall printable_char (list_ascii_of_string s) -> Forall printable (Py.to_bytes s).
Proof.
  unfold Py.to_bytes, list_byte_of_string. intros H. apply Forall_fmap.
  eapply Forall_impl; [exact H|]. intros c Hc. unfold printable, compose.
  now rewrite (to_of_N _ (eq_sym (byte_of_ascii_via_N c))).
Qed.

Lemma list_ascii_app s t :
  list_ascii_of_string (s +:+ t) = list_ascii_of_string s ++ list_ascii_of_string t.
Proof. induction s as [|c s IH]; [reflexivity|]. cbn. now rewrite <- IH. Qed.

Lemma printable_of_N n : (32 <= n <= 126)%N -> printable_char (ascii_of_N n).
Proof. intros H. unfold printable_char, Py.code. rewrite N_ascii_embedding; lia. Qed.

Lemma land_15 n : (N.land n 15 < 16)%N.
Proof. change 15%N with (N.ones 4). rewrite N.land_ones. now apply N.mod_lt. Qed.

Lemma hex_digit_printable n : (n < 16)%N -> printable_char (Json.hex_digit n).
Proof.
  intros H. unfold Json.hex_digit. apply printable_of_N.
  destruct (N.ltb_spec n 10); lia.
Qed.

Lemma u_escape_printable n : Forall printable_char (Json.u_escape n).
Proof.
  unfold Json.u_escape.
  repeat (apply List.Forall_cons; [first [apply hex_digit_printable, land_15
                                         | vm_compute; split; discriminate]|]).
  apply List.Forall_nil.
Qed.

Lemma escape_cp_printable n : Forall printable_char (Json.escape_cp n).
Proof.
  unfold Json.escape_cp.
  repeat match goal with
         | |- context [if ?b then _ else _] => destruct b eqn:?
         end;
    try (repeat (apply List.Forall_cons; [vm_compute; split; discriminate|]);
         apply List.Forall_nil).
  - apply List.Forall_cons; [|apply List.Forall_nil]. apply printable_of_N.
    apply andb_true_iff in Heqb6 as [?%N.leb_le ?%N.leb_le]. lia.
  - apply u_escape_printable.
  - apply Forall_app; split; apply u_escape_printable.
Qed.

Lemma encode_basestring_ascii_printable s :
  Forall printable_char (list_ascii_of_string (Json.encode_basestring_ascii s)).
Proof.
  unfold Json.encode_basestring_ascii, Py.quoted. cbn [list_ascii_of_string].
  rewrite list_ascii_app, list_ascii_of_string_of_list_ascii.
  apply List.Forall_cons; [vm_compute; split; discriminate|].
  apply Forall_app; split.
  - apply Forall_concat, Forall_fmap, Forall_forall. intros n _. apply escape_cp_printable.
  - apply List.Forall_cons; [vm_compute; split; discriminate|apply List.Forall_nil].
Qed.

(** X18: the body that the [except Exception] clause writes is printable
    ASCII whatever the message of the exception: [json.dumps] escapes
    quotes, backslashes, control characters and every character outside
    ASCII. *)
Theorem error_body_printable config self e body :
  Write body ∈ calls (on_exception config self e) -> Forall printable body.
Proof.
  rewrite on_exception_eq. cbn [calls]. rewrite !elem_of_app.
  intros [H|[H|H]].
  - apply elem_of_cons in H as [H|H]; [discriminate|].
    apply list_elem_of_singleton in H. discriminate.
  - destruct (proj1 (Forall_forall _ _) (cors_headers_are_headers config self) _ H)
      as (? & ? & ?). discriminate.
  - apply elem_of_cons in H as [H|H]; [discriminate|].
    apply list_elem_of_singleton in H. injection H as ->.
    apply to_bytes_printable. unfold Json.dumps, Json.dumps_items, Json.dumps_value.
    rewrite !list_ascii_app. 
    repeat (apply Forall_app; split);
      try apply encode_basestring_ascii_printable;
      repeat (apply List.Forall_cons; [vm_compute; split; discriminate|]);
      apply List.Forall_nil.
Qed.

Lemma error_body_printable_witness :
  Write (Py.to_bytes (Json.dumps [("error", Json.JString "Proxy error");
                                  ("message", Json.JString (err_str Sample.refused))]))
    ∈ calls (on_exception Sample.guarded (Sample.via "http://example.test/down") Sample.refused)
  /\ Forall printable
       (Py.to_bytes (Json.dumps [("error", Json.JString "Proxy error");
                                 ("message", Json.JString (err_str Sample.refused))])).
Proof.
  assert (Hin : Write (Py.to_bytes (Json.dumps [("error", Json.JString "Proxy error");
                                                ("message", Json.JString (err_str Sample.refused))]))
                  ∈ calls (on_exception Sample.guarded (Sample.via "http://example.test/down")
                             Sample.refused)).
  { rewrite on_exception_eq. cbn [calls]. rewrite !elem_of_app. right. right.
    apply list_elem_of_further, list_elem_of_here. }
  split; [exact Hin|].
  exact (error_body_printable Sample.guarded (Sample.via "http://example.test/down")
           Sample.refused _ Hin).
Defined.

(** ** The start-up banner *)

(** X19: the banner and the gate.  [main] announces authentication when a
    user name is given, [check_auth] guards the proxy when a password is
    given too: the banner says that authentication is enabled while every
    request is let through exactly when a user name is configured without
    a password.  A banner that announces no authentication is never
    wrong. *)
Theorem banner_and_gate config :
  (auth_banner config = "🔒 Authentication enabled"
   /\ (forall self, check_auth config self = true)
   <-> Py.truthy (username config) = true /\ Py.truthy (password config) = false)
  /\ (auth_banner config = "🔓 No authentication" ->
      forall self, check_auth config self = true).
Proof.
  unfold auth_banner, check_auth. split; [split|].
  - intros [Hbanner Hopen]. destruct (Py.truthy (username config)); [|discriminate].
    split; [reflexivity|].
    specialize (Hopen (Sample.request "/" [])).
    destruct (Py.truthy (password config)); [discriminate|reflexivity].
  - intros [-> ->]. split; reflexivity.
  - destruct (Py.truthy (username config)); [discriminate|]. reflexivity.
Qed.

(** * The handler when the client may go away *)

Lemma run_bind {A B} (m : Client.cio A) (f : A -> Client.cio B) past :
  Client.run (m ≫= f) past
  = Client.run m past ≫= fun a => Client.run (f a) (past ++ calls (Client.run m past)).
Proof. reflexivity. Qed.

Lemma client_copy_body_step C s :
  Client.copy_body C s =
  match read CHUNK s with
  | (Raise e, _) => Client.lift (Raise e)
  | (Ok [], _) => mret tt
  | (Ok (b :: chunk), s') => Client.wfile_write C (b :: chunk);; Client.copy_body C s'
  end.
Proof.
  rewrite Client.copy_body_equation_1.
  destruct (inspect (read CHUNK s)) as [[[[|b chunk]|e] s'] Heq];
    simp copy_body; rewrite Heq, <- ?Client.copy_body_equation_1; reflexivity.
Qed.

(** ** A connection that does not fail *)

Lemma agrees_bind {A B} (m' : Client.cio A) (f' : A -> Client.cio B) (m : io A) (f : A -> io B) :
  (forall past, Client.run m' past = m) ->
  (forall a past, Client.run (f' a) past = f a) ->
  forall past, Client.run (m' ≫= f') past = m ≫= f.
Proof.
  intros Hm Hf past. rewrite run_bind, Hm. unfold mbind, io_bind.
  destruct (outcome m); [now rewrite Hf | reflexivity].
Qed.

Section Reliable.
Variable C : Client.connection.
Hypothesis Hreliable : Client.reliable C.

Lemma send_header_agrees keyword value past :
  Client.run (Client.send_header C keyword value) past = send_header keyword value.
Proof using Hreliable. cbn. now rewrite Hreliable. Qed.

Lemma end_headers_agrees past : Client.run (Client.end_headers C) past = end_headers.
Proof using Hreliable. cbn. now rewrite Hreliable. Qed.

Lemma wfile_write_agrees body past :
  Client.run (Client.wfile_write C body) past = wfile_write body.
Proof using Hreliable. cbn. now rewrite Hreliable. Qed.

Ltac agrees :=
  repeat first
    [ apply send_header_agrees | apply end_headers_agrees | apply wfile_write_agrees
    | reflexivity
    | apply agrees_bind; [intros ?|intros ? ?] ].

Lemma send_cors_headers_agrees config self past :
  Client.run (Client.send_cors_headers C config self) past = send_cors_headers config self.
Proof using Hreliable.
  revert past. unfold Client.send_cors_headers, send_cors_headers.
  apply agrees_bind; [intros past|intros ? ?]; [|agrees].
  destruct (cors_origin config) as [s|l]; [destruct (String.eqb s "*")|destruct (Py.mem _ l)];
    agrees.
Qed.

Lemma do_OPTIONS_agrees config self past :
  Client.run (Client.do_OPTIONS C config self) past = do_OPTIONS config self.
Proof using Hreliable.
  revert past. unfold Client.do_OPTIONS, do_OPTIONS.
  apply agrees_bind; [reflexivity|intros ? ?].
  apply agrees_bind; [apply send_cors_headers_agrees|intros ? ?]. agrees.
Qed.

Lemma relay_headers_agrees h past :
  Client.run (Client.relay_headers C h) past = relay_headers h.
Proof using Hreliable.
  revert past. unfold Client.relay_headers, relay_headers.
  induction h as [|[header value] h IH]; [reflexivity|].
  cbn [Client.for_each for_each].
  apply agrees_bind; [intros past|intros ? ?]; [|apply IH].
  destruct (negb _); agrees.
Qed.

Lemma copy_body_agrees s past : Client.run (Client.copy_body C s) past = copy_body s.
Proof using Hreliable.
  remember (length (content s)) as n eqn:Hn. revert s Hn past.
  induction n as [n IH] using lt_wf_ind. intros [l f] Hn past.
  rewrite client_copy_body_step, copy_body_step. unfold read. cbn [content fault] in *.
  destruct l as [|b l].
  - destruct f; rewrite ?take_nil; reflexivity.
  - destruct CHUNK as [|amt] eqn:Hamt; [unfold CHUNK in Hamt; lia|].
    cbn [take drop]. revert past.
    apply agrees_bind; [apply wfile_write_agrees|intros _ past].
    apply (IH (length (drop amt l))); [|reflexivity].
    subst n. rewrite length_skipn. cbn [length]. lia.
Qed.

Lemma forward_agrees E config self v past :
  Client.run (Client.forward C E config self v) past = forward E config self v.
Proof using Hreliable.
  revert past. unfold Client.forward, forward.
  apply agrees_bind; [reflexivity|intros req past]. revert past.
  apply agrees_bind; [reflexivity|intros r past]. revert past.
  apply agrees_bind; [reflexivity|intros ? ?].
  apply agrees_bind; [apply relay_headers_agrees|intros ? ?].
  apply agrees_bind; [apply send_cors_headers_agrees|intros ? ?].
  apply agrees_bind; [apply end_headers_agrees|intros ? ?].
  apply copy_body_agrees.
Qed.

Lemma on_http_error_agrees config self r past :
  Client.run (Client.on_http_error C config self r) past = on_http_error config self r.
Proof using Hreliable.
  revert past. unfold Client.on_http_error, on_http_error.
  apply agrees_bind; [reflexivity|intros ? ?].
  apply agrees_bind; [apply relay_headers_agrees|intros ? ?].
  apply agrees_bind; [apply send_cors_headers_agrees|intros ? ?].
  apply agrees_bind; [apply end_headers_agrees|intros ? ?].
  apply agrees_bind; [reflexivity|intros ? ?]. apply wfile_write_agrees.
Qed.

Lemma on_exception_agrees config self e past :
  Client.run (Client.on_exception C config self e) past = on_exception config self e.
Proof using Hreliable.
  revert past. unfold Client.on_exception, on_exception.
  apply agrees_bind; [reflexivity|intros ? ?].
  apply agrees_bind; [apply send_header_agrees|intros ? ?].
  apply agrees_bind; [apply send_cors_headers_agrees|intros ? ?].
  apply agrees_bind; [apply end_headers_agrees|intros ? ?].
  apply wfile_write_agrees.
Qed.

Lemma relay_agrees E config self v past :
  Client.run (Client.relay C E config self v) past = relay E config self v.
Proof using Hreliable.
  unfold Client.relay, relay. cbn [Client.run Client.try_except].
  rewrite forward_agrees. unfold try_except.
  destruct (outcome (forward E config self v)) as [|[r|e]]; [reflexivity| |].
  - now rewrite on_http_error_agrees.
  - now rewrite on_exception_agrees.
Qed.

(** Over a connection that does not fail the handler runs as in the
    first part. *)
Lemma handle_request_agrees E config self past :
  Client.run (Client.handle_request C E config self) past = handle_request E config self.
Proof using Hreliable.
  revert past. unfold Client.handle_request, handle_request.
  destruct (String.eqb (path self) "/health").
  { apply agrees_bind; [reflexivity|intros ? ?].
    apply agrees_bind; [apply send_header_agrees|intros ? ?].
    apply agrees_bind; [apply send_cors_headers_agrees|intros ? ?].
    apply agrees_bind; [apply end_headers_agrees|intros ? ?].
    apply wfile_write_agrees. }
  destruct (negb (check_auth config self)).
  { apply agrees_bind; [reflexivity|intros ? ?].
    apply agrees_bind; [apply send_header_agrees|intros ? ?].
    apply agrees_bind; [apply send_cors_headers_agrees|intros ? ?].
    apply agrees_bind; [apply end_headers_agrees|intros ? ?].
    apply wfile_write_agrees. }
  apply agrees_bind; [reflexivity|intros [[|c v]|] past]; try apply relay_agrees.
  all: revert past; apply agrees_bind; [reflexivity|intros ? ?].
  all: apply agrees_bind; [apply send_cors_headers_agrees|intros ? ?].
  all: apply agrees_bind; [apply end_headers_agrees|intros ? ?].
  all: apply wfile_write_agrees.
Qed.

End Reliable.

(** ** Whatever the connection does *)

Lemma quiet_bind {A B} (m : Client.cio A) (f : A -> Client.cio B) :
  (forall past, List.filter is_status_line (calls (Client.run m past)) = []) ->
  (forall a past, List.filter is_status_line (calls (Client.run (f a) past)) = []) ->
  forall past, List.filter is_status_line (calls (Client.run (m ≫= f) past)) = [].
Proof.
  intros Hm Hf past. rewrite run_bind. unfold mbind, io_bind.
  destruct (outcome (Client.run m past)); cbn [calls]; [|apply Hm].
  now rewrite List.filter_app, Hm, Hf.
Qed.

Lemma quiet_attempt C c :
  is_status_line c = false ->
  forall past, List.filter is_status_line (calls (Client.run (Client.attempt C c) past)) = [].
Proof. intros Hc past. cbn. now rewrite Hc. Qed.

Ltac quiet :=
  repeat first
    [ reflexivity
    | apply quiet_attempt; reflexivity
    | apply quiet_bind; [intros ?|intros ? ?] ].

Lemma quiet_send_cors_headers C config self past :
  List.filter is_status_line (calls (Client.run (Client.send_cors_headers C config self) past))
  = [].
Proof.
  revert past. unfold Client.send_cors_headers, Client.send_header.
  apply quiet_bind; [intros past|intros ? ?]; [|quiet].
  destruct (cors_origin config) as [s|l]; [destruct (String.eqb s "*")|destruct (Py.mem _ l)];
    quiet.
Qed.

Lemma quiet_relay_headers C h past :
  List.filter is_status_line (calls (Client.run (Client.relay_headers C h) past)) = [].
Proof.
  revert past. unfold Client.relay_headers, Client.send_header.
  induction h as [|[header value] h IH]; [reflexivity|].
  cbn [Client.for_each]. apply quiet_bind; [intros past|intros ? ?]; [|apply IH].
  destruct (negb _); quiet.
Qed.

Lemma quiet_copy_body C s past :
  List.filter is_status_line (calls (Client.run (Client.copy_body C s) past)) = [].
Proof.
  remember (length (content s)) as n eqn:Hn. revert s Hn past.
  induction n as [n IH] using lt_wf_ind. intros [l f] Hn past.
  rewrite client_copy_body_step. unfold read. cbn [content fault] in *.
  destruct l as [|b l].
  - destruct f; rewrite ?take_nil; reflexivity.
  - destruct CHUNK as [|amt] eqn:Hamt; [unfold CHUNK in Hamt; lia|].
    cbn [take drop]. revert past.
    apply quiet_bind; [apply quiet_attempt; reflexivity|intros _ past].
    apply (IH (length (drop amt l))); [|reflexivity].
    subst n. rewrite length_skipn. cbn [length]. lia.
Qed.

(** A status line, then none. *)
Lemma status_first status (k : Client.cio unit) :
  (forall past, List.filter is_status_line (calls (Client.run k past)) = []) ->
  forall past,
    List.filter is_status_line (calls (Client.run (Client.send_response status;; k) past))
    = [SendResponse status].
Proof. intros Hk past. rewrite run_bind. cbn. now rewrite Hk. Qed.

Lemma client_on_exception_sent C config self e past :
  List.filter is_status_line (calls (Client.run (Client.on_exception C config self e) past))
  = [SendResponse 500].
Proof.
  revert past. unfold Client.on_exception. apply status_first.
  apply quiet_bind; [apply quiet_attempt; reflexivity|intros ? ?].
  apply quiet_bind; [apply quiet_send_cors_headers|intros ? ?].
  apply quiet_bind; [apply quiet_attempt; reflexivity|intros ? ?].
  apply quiet_attempt; reflexivity.
Qed.

Lemma client_on_http_error_sent C config self r past :
  List.filter is_status_line (calls (Client.run (Client.on_http_error C config self r) past))
  = [SendResponse (code r)].
Proof.
  revert past. unfold Client.on_http_error. apply status_first.
  apply quiet_bind; [apply quiet_relay_headers|intros ? ?].
  apply quiet_bind; [apply quiet_send_cors_headers|intros ? ?].
  apply quiet_bind; [apply quiet_attempt; reflexivity|intros ? ?].
  apply quiet_bind; [reflexivity|intros ? ?].
  apply quiet_attempt; reflexivity.
Qed.

(** The [try] block: what it sends and how it ends. *)
Lemma client_forward_sent C E config self v past :
  let block := Client.run (Client.forward C E config self v) past in
  match build_request E self v with
  | Raise e =>
      List.filter is_status_line (calls block) = [] /\ outcome block = Raise (Exception e)
  | Ok req =>
      match urlopen E req (context_of config) with
      | Raise x => List.filter is_status_line (calls block) = [] /\ outcome block = Raise x
      | Ok r => List.filter is_status_line (calls block) = [SendResponse (code r)]
      end
  end.
Proof.
  unfold Client.forward. fold (context_of config). rewrite run_bind.
  destruct (build_request E self v) as [req|e]; [|now split].
  cbn [Client.run Client.lift lift]. rewrite (bind_returns (IO [] (Ok req)) _ req eq_refl).
  cbn [calls app]. rewrite run_bind. cbn [Client.run Client.urlopen_]. unfold urlopen_.
  destruct (urlopen E req (context_of config)) as [r|x]; [|now split].
  rewrite (bind_returns (IO _ (Ok r)) _ r eq_refl). cbn [calls app List.filter is_status_line].
  rewrite status_first; [reflexivity|].
  apply quiet_bind; [apply quiet_relay_headers|intros ? ?].
  apply quiet_bind; [apply quiet_send_cors_headers|intros ? ?].
  apply quiet_bind; [apply quiet_attempt; reflexivity|intros ? ?].
  apply quiet_copy_body.
Qed.

(** The relay sends one status line, or two. *)
Lemma client_relay_sent C E config self v past :
  exists status later,
    List.filter is_status_line (calls (Client.run (Client.relay C E config self v) past))
    = SendResponse status :: later
    /\ (length later <= 1)%nat.
Proof.
  pose proof (client_forward_sent C E config self v past) as Hblock. cbv zeta in Hblock.
  unfold Client.relay. cbn [Client.run Client.try_except]. unfold try_except.
  set (block := Client.run (Client.forward C E config self v) past) in *.
  assert (Hhandler : forall x past',
             exists status,
               List.filter is_status_line
                 (calls (Client.run match x with
                                    | HTTPError r => Client.on_http_error C config self r
                                    | Exception e => Client.on_exception C config self e
                                    end past'))
               = [SendResponse status]).
  { intros [r|e] past'.
    - exists (code r). apply client_on_http_error_sent.
    - exists 500%Z. apply client_on_exception_sent. }
  destruct (build_request E self v) as [req|e].
  2:{ destruct Hblock as [Hsent ->]. cbn [calls]. rewrite List.filter_app, Hsent.
      exists 500%Z, []. split; [apply client_on_exception_sent | cbn; lia]. }
  destruct (urlopen E req (context_of config)) as [r|x].
  - destruct (outcome block) as [[]|x].
    + exists (code r), []. split; [done | cbn; lia].
    + cbn [calls]. rewrite List.filter_app, Hblock.
      destruct (Hhandler x (past ++ calls block)) as (status & ->).
      exists (code r), [SendResponse status]. split; [done | cbn; lia].
  - destruct Hblock as [Hsent ->]. cbn [calls]. rewrite List.filter_app, Hsent.
    destruct (Hhandler x (past ++ calls block)) as (status & ->).
    exists status, []. split; [done | cbn; lia].
Qed.

Lemma client_handle_request_sent C E config self :
  List.filter is_status_line (calls (Client.run (Client.handle_request C E config self) [])) =
  if String.eqb (path self) "/health" then [SendResponse 200]
  else if negb (check_auth config self) then [SendResponse 401]
  else match target_of E self with
       | Raise _ => []
       | Ok None | Ok (Some EmptyString) => [SendResponse 400]
       | Ok (Some v) =>
           List.filter is_status_line (calls (Client.run (Client.relay C E config self v) []))
       end.
Proof.
  unfold Client.handle_request.
  destruct (String.eqb (path self) "/health").
  { apply status_first.
    apply quiet_bind; [apply quiet_attempt; reflexivity|intros ? ?].
    apply quiet_bind; [apply quiet_send_cors_headers|intros ? ?].
    apply quiet_bind; [apply quiet_attempt; reflexivity|intros ? ?].
    apply quiet_attempt; reflexivity. }
  destruct (negb (check_auth config self)).
  { apply status_first.
    apply quiet_bind; [apply quiet_attempt; reflexivity|intros ? ?].
    apply quiet_bind; [apply quiet_send_cors_headers|intros ? ?].
    apply quiet_bind; [apply quiet_attempt; reflexivity|intros ? ?].
    apply quiet_attempt; reflexivity. }
  rewrite run_bind.
  destruct (target_of E self) as [[[|c v]|]|e]; cbn [Client.run Client.lift lift];
    [| | |reflexivity].
  all: rewrite (bind_returns (lift (Ok _)) _ _ eq_refl); cbn [lift calls app].
  2:{ now destruct (Client.run (Client.relay C E config self (String c v)) []). }
  all: rewrite status_first; [reflexivity|].
  all: apply quiet_bind; [apply quiet_send_cors_headers|intros ? ?].
  all: apply quiet_bind; [apply quiet_attempt; reflexivity|intros ? ?].
  all: apply quiet_attempt; reflexivity.
Qed.

(** How the handler ends when something is bound to fail. *)
Lemma raises_later {A B} (m : Client.cio A) (f : A -> Client.cio B) :
  (forall a past, exists x, outcome (Client.run (f a) past) = Raise x) ->
  forall past, exists x, outcome (Client.run (m ≫= f) past) = Raise x.
Proof.
  intros Hf past. rewrite run_bind. unfold mbind, io_bind.
  destruct (outcome (Client.run m past)) as [a|x]; cbn [outcome]; [apply Hf | eauto].
Qed.

Lemma client_copy_body_raises C s e past :
  fault s = Some e -> exists x, outcome (Client.run (Client.copy_body C s) past) = Raise x.
Proof.
  remember (length (content s)) as n eqn:Hn. revert s Hn past.
  induction n as [n IH] using lt_wf_ind. intros [l f] Hn past Hfault.
  cbn [content fault] in *. subst f.
  rewrite client_copy_body_step. unfold read. cbn [content fault].
  destruct l as [|b l]; [cbn; eauto|].
  destruct CHUNK as [|amt] eqn:Hamt; [unfold CHUNK in Hamt; lia|].
  cbn [take drop]. revert past. apply raises_later. intros _ past.
  apply (IH (length (drop amt l))); [|reflexivity..].
  subst n. rewrite length_skipn. cbn [length]. lia.
Qed.

Lemma client_forward_raises C E config self v req r e past :
  build_request E self v = Ok req ->
  urlopen E req (context_of config) = Ok r ->
  fault (fp r) = Some e ->
  exists x, outcome (Client.run (Client.forward C E config self v) past) = Raise x.
Proof.
  intros Hreq Hopen Hfault. unfold Client.forward. fold (context_of config).
  rewrite run_bind, Hreq. rewrite (bind_returns (lift (Ok req)) _ req eq_refl).
  cbn [lift calls app outcome]. rewrite run_bind. cbn [Client.run Client.urlopen_].
  unfold urlopen_. rewrite Hopen. rewrite (bind_returns (IO _ (Ok r)) _ r eq_refl).
  cbn [calls outcome].
  do 4 (apply raises_later; intros ? ?).
  now apply (client_copy_body_raises C (fp r) e).
Qed.

Lemma client_on_http_error_raises C config self r e past :
  fault (fp r) = Some e ->
  exists x, outcome (Client.run (Client.on_http_error C config self r) past) = Raise x.
Proof.
  intros Hfault. revert past. unfold Client.on_http_error.
  do 4 (apply raises_later; intros ? ?).
  rewrite run_bind. cbn [Client.run Client.lift]. unfold read_all. rewrite Hfault.
  cbn. eauto.
Qed.

Lemma client_handle_request_forwarding C E config self v :
  forwarding E config self v ->
  Client.run (Client.handle_request C E config self) []
  = Client.run (Client.relay C E config self v) [].
Proof.
  intros (Hpath & Hauth & Htarget & Hne). unfold Client.handle_request.
  rewrite Hpath, Hauth. cbn [negb]. rewrite run_bind, Htarget.
  rewrite (bind_returns (lift (Ok (Some v))) _ _ eq_refl). cbn [lift calls app].
  destruct v; [contradiction|]. symmetry. apply io_eta.
Qed.

(** X3: the status lines of one request, whatever the connection to the
    client does.  The handler sends two at most.  It sends none exactly
    when the request has passed the gate and the extraction of the target
    raises.  It sends two whenever the upstream has answered and a read of
    its body fails; and when no call on the response interface fails, that
    is the only way to two status lines. *)
Theorem status_lines C E config self :
  let sent :=
    List.filter is_status_line (calls (Client.run (Client.handle_request C E config self) [])) in
  (length sent <= 2)%nat
  /\ (sent = [] <->
      String.eqb (path self) "/health" = false /\ check_auth config self = true
      /\ exists e, target_of E self = Raise e)
  /\ ((exists v req r e,
          forwarding E config self v /\ build_request E self v = Ok req
          /\ urlopen E req (context_of config) = Ok r /\ fault (fp r) = Some e) ->
      length sent = 2%nat)
  /\ (Client.reliable C ->
      length sent = 2%nat ->
      exists v req r e,
        forwarding E config self v /\ build_request E self v = Ok req
        /\ urlopen E req (context_of config) = Ok r /\ fault (fp r) = Some e).
Proof.
  cbv zeta. split; [|split; [|split]].
  - rewrite client_handle_request_sent.
    destruct (String.eqb (path self) "/health"); [cbn; lia|].
    destruct (negb (check_auth config self)); [cbn; lia|].
    destruct (target_of E self) as [[[|c v]|]|e]; try (cbn; lia).
    destruct (client_relay_sent C E config self (String c v) []) as (status & later & -> & Hlen).
    cbn [length]. lia.
  - rewrite client_handle_request_sent.
    destruct (String.eqb (path self) "/health"); [split; [discriminate | now intros [[=] _]]|].
    destruct (check_auth config self); cbn [negb];
      [|split; [discriminate | now intros (_ & [=] & _)]].
    destruct (target_of E self) as [[[|c v]|]|e].
    + split; [discriminate | now intros (_ & _ & ? & [=])].
    + destruct (client_relay_sent C E config self (String c v) []) as (status & later & -> & _).
      split; [discriminate | now intros (_ & _ & ? & [=])].
    + split; [discriminate | now intros (_ & _ & ? & [=])].
    + split; [eauto | reflexivity].
  - intros (v & req & r & e & Hforwarding & Hreq & Hopen & Hfault).
    rewrite (client_handle_request_forwarding C E config self v Hforwarding).
    pose proof (client_forward_sent C E config self v []) as Hblock. cbv zeta in Hblock.
    rewrite Hreq, Hopen in Hblock.
    destruct (client_forward_raises C E config self v req r e [] Hreq Hopen Hfault)
      as (x & Hraise).
    unfold Client.relay. cbn [Client.run Client.try_except]. unfold try_except.
    rewrite Hraise. cbn [calls]. rewrite List.filter_app, Hblock.
    destruct x as [r'|e'].
    + now rewrite client_on_http_error_sent.
    + now rewrite client_on_exception_sent.
  - intros Hreliable. rewrite (handle_request_agrees C Hreliable).
    apply (connected_status_lines E config self).
Qed.

Lemma status_lines_witness :
  Client.reliable Client.stays
  /\ length (List.filter is_status_line
               (calls (Client.run
                         (Client.handle_request Client.stays Sample.env Sample.guarded
                            (Sample.via "http://example.test/broken")) [])))
     = 2%nat
  /\ exists v req r e,
       forwarding Sample.env Sample.guarded (Sample.via "http://example.test/broken") v
       /\ build_request Sample.env (Sample.via "http://example.test/broken") v = Ok req
       /\ urlopen Sample.env req (context_of Sample.guarded) = Ok r /\ fault (fp r) = Some e.
Proof.
  assert (Hstays : Client.reliable Client.stays) by (intros past c; reflexivity).
  split; [exact Hstays|]. split; [reflexivity|].
  exact (proj2 (proj2 (proj2 (status_lines Client.stays Sample.env Sample.guarded
                                (Sample.via "http://example.test/broken"))))
           Hstays eq_refl).
Defined.

(** The client goes away during a download: the write of the body raises
    inside the [try], and a second status line follows the first although
    no read has failed. *)
Example second_status_line_when_client_goes :
  List.filter is_status_line
    (calls (Client.run
              (Client.handle_request (Client.gone_after 1 Sample.reset) Sample.env
                 Sample.guarded (Sample.via "http://example.test/foo")) []))
  = [SendResponse 200; SendResponse 500]
  /\ outcome (Client.run
                (Client.handle_request (Client.gone_after 1 Sample.reset) Sample.env
                   Sample.guarded (Sample.via "http://example.test/foo")) [])
     = Raise (Exception Sample.reset).
Proof. split; vm_compute; reflexivity. Qed.

(** X4: the exceptions that leave [handle_request].  Whatever the
    connection to the client does, one leaves when the path of a request
    without target header is one that [urlparse] rejects, and when the
    upstream has answered with an HTTP error and the read of its body
    fails, both past the gate.  When no call on the response interface
    fails, these are the only cases, and the exception is that of
    [urlparse] or of the read. *)
Theorem handler_exceptions C E config self :
  ((exists e,
       String.eqb (path self) "/health" = false
       /\ check_auth config self = true
       /\ (target_of E self = Raise e
           \/ exists v req r,
                target_of E self = Ok (Some v) /\ v <> ""
                /\ build_request E self v = Ok req
                /\ urlopen E req (context_of config) = Raise (HTTPError r)
                /\ fault (fp r) = Some e)) ->
   exists x, outcome (Client.run (Client.handle_request C E config self) []) = Raise x)
  /\ (Client.reliable C ->
      forall x,
        outcome (Client.run (Client.handle_request C E config self) []) = Raise x <->
        exists e,
          x = Exception e
          /\ String.eqb (path self) "/health" = false
          /\ check_auth config self = true
          /\ (target_of E self = Raise e
              \/ exists v req r,
                   target_of E self = Ok (Some v) /\ v <> ""
                   /\ build_request E self v = Ok req
                   /\ urlopen E req (context_of config) = Raise (HTTPError r)
                   /\ fault (fp r) = Some e)).
Proof.
  split.
  - intros (e & Hpath & Hauth & [Htarget | (v & req & r & Htarget & Hne & Hreq & Hopen & Hfault)]).
    + exists (Exception e). unfold Client.handle_request.
      rewrite Hpath, Hauth. cbn [negb]. rewrite run_bind, Htarget. reflexivity.
    + rewrite (client_handle_request_forwarding C E config self v) by done.
      pose proof (client_forward_sent C E config self v []) as Hblock. cbv zeta in Hblock.
      rewrite Hreq, Hopen in Hblock. destruct Hblock as [_ Hblock].
      unfold Client.relay. cbn [Client.run Client.try_except]. unfold try_except.
      rewrite Hblock. cbn [outcome].
      now apply (client_on_http_error_raises C config self r e).
  - intros Hreliable x. rewrite (handle_request_agrees C Hreliable).
    apply (connected_exceptions E config self x).
Qed.

Lemma handler_exceptions_witness :
  Client.reliable Client.stays
  /\ outcome (Client.run
                (Client.handle_request Client.stays (Sample.env_with Sample.bad_gateway)
                   Sample.guarded (Sample.via "http://example.test/foo")) [])
     = Raise (Exception Sample.reset).
Proof.
  assert (Hstays : Client.reliable Client.stays) by (intros past c; reflexivity).
  split; [exact Hstays|].
  apply (proj2 (handler_exceptions Client.stays (Sample.env_with Sample.bad_gateway)
                  Sample.guarded (Sample.via "http://example.test/foo")) Hstays).
  exists Sample.reset. split; [reflexivity|]. split; [reflexivity|]. split; [reflexivity|].
  right. exists "http://example.test/foo", (Sample.outbound "http://example.test/foo"),
    (Response 502 [("Content-Type", "text/html")] (Stream [] (Some Sample.reset))).
  repeat split; try reflexivity. discriminate.
Defined.
